(** * Yate signalling core: BER codec, SS7 router and SNM management

    A shallow embedding of the parts of [libs/yasn/asn.cpp],
    [libs/ysig/router.cpp] and [management.cpp] that the specification
    talks about, followed by the properties established for them.

    Conventions.  C++ integers are [Z] with the wrap-around of their
    width written out ([to_uint8], [to_int32], ...).  A [DataBlock] is a
    list of byte values.  Output pointers are modelled by a flag for
    "pointer is not null" on the way in and an [option] on the way out.
    A network is the record of the answers it gives; user parts, and the
    router as the management entity sees it, are an explicit environment,
    and the calls the management entity makes are recorded in a trace. *)

From Stdlib Require Import ZArith String Ascii DecimalString DecimalN DecimalPos.
From stdpp Require Import gmap strings list sorting.

Local Open Scope Z_scope.

(** ** Machine integers *)

Definition to_uint8 (z : Z) : Z := z mod 256.
Definition to_uint16 (z : Z) : Z := z mod 65536.
Definition to_uint32 (z : Z) : Z := z mod 4294967296.
Definition to_uint64 (z : Z) : Z := z mod 18446744073709551616.

(** Conversion to a 32 bit [int], two's complement. *)
Definition to_int32 (z : Z) : Z :=
  let u := to_uint32 z in
  if u <? 2147483648 then u else u - 4294967296.

(** Conversion to the other signed types, two's complement. *)
Definition to_int8 (z : Z) : Z :=
  let u := to_uint8 z in if u <? 128 then u else u - 256.
Definition to_int16 (z : Z) : Z :=
  let u := to_uint16 z in if u <? 32768 then u else u - 65536.
Definition to_int64 (z : Z) : Z :=
  let u := to_uint64 z in
  if u <? 9223372036854775808 then u else u - 18446744073709551616.

(** [sizeof(int)] on the platforms the library is built for. *)
Definition sizeof_int : Z := 4.

(** ** DataBlock *)

Module DataBlock.

(** Modelled from the spec: the class DataBlock (yateclass.h) is not among
    the sources.  The spec's "input byte cursor" is a list of bytes. *)
Definition t : Type := list Z.

Definition length (d : t) : Z := Z.of_nat (List.length d).

(** Modelled from the spec: DataBlock::at(offs,defvalue) is not among the
    sources; it yields the byte at [offs], or [defvalue] outside the
    data. *)
Definition at_ (d : t) (offs : Z) (defvalue : Z) : Z :=
  if (0 <=? offs) && (offs <? length d)
  then nth (Z.to_nat offs) d defvalue
  else defvalue.

(** Modelled from the spec: DataBlock::operator[] is not among the
    sources; it is [at] with the default value -1. *)
Definition index (d : t) (i : Z) : Z := at_ d i (-1).

(** Modelled from the spec: DataBlock::cut(len) is not among the sources;
    a negative [len] removes [-len] bytes from the start (this is how the
    decoders consume input), a positive one from the end, and cutting the
    whole length or more clears the block. *)
Definition cut (len : Z) (d : t) : t :=
  if len =? 0 then d
  else if Z.abs len >=? length d then []
  else if len <? 0 then drop (Z.to_nat (- len)) d
  else take (Z.to_nat (length d - len)) d.

(** [append] and [insert] (at the front) of another block. *)
Definition append (d e : t) : t := d ++ e.
Definition insert (d e : t) : t := e ++ d.

End DataBlock.

Abbreviation DataBlock := DataBlock.t.
Notation "d .[ i ]" := (DataBlock.index d i) (at level 1, format "d .[ i ]").

(** ** String helpers *)

Module YString.

(** Modelled from the spec: the class String (yateclass.h) is not among
    the sources.  A String is a Rocq [string]. *)
Definition length (s : string) : Z := Z.of_nat (String.length s).

(** Decimal text of a non-negative number, as [String::operator+=] on an
    integer produces it. *)
Definition of_Z (z : Z) : string :=
  if z <? 0 then String "-" (NilEmpty.string_of_uint (N.to_uint (Z.to_N (- z))))
  else NilEmpty.string_of_uint (N.to_uint (Z.to_N z)).

(** Modelled from the spec: String::substr(offs,len) is not among the
    sources; [len] characters from [offs], the rest of the string when
    [len] is negative. *)
Definition substr (offs len : Z) (s : string) : string :=
  if (offs <? 0) || (offs >=? length s) then EmptyString
  else if len <? 0 then String.substring (Z.to_nat offs) (String.length s) s
  else String.substring (Z.to_nat offs) (Z.to_nat len) s.

Definition digit_value (base : Z) (c : ascii) : option Z :=
  let n := Z.of_nat (nat_of_ascii c) in
  if (48 <=? n) && (n <? 48 + base) then Some (n - 48) else None.

Fixpoint parse_digits (base : Z) (acc : Z) (s : string) : option Z :=
  match s with
  | EmptyString => Some acc
  | String c r =>
      match digit_value base c with
      | Some v => parse_digits base (acc * base + v) r
      | None => None
      end
  end.

(** Modelled from the spec: String::toInteger(defvalue,base) is not among
    the sources; the value of a string of digits of the base (at most
    ten), [defvalue] for the empty string and for anything else. *)
Definition toInteger (defvalue base : Z) (s : string) : Z :=
  match s with
  | EmptyString => defvalue
  | _ => match parse_digits base 0 s with
         | Some v => to_int32 v
         | None => defvalue
         end
  end.

Fixpoint split_aux (sep : ascii) (cur : string) (s : string) : list string :=
  match s with
  | EmptyString => [cur]
  | String c r =>
      if Ascii.eqb c sep then cur :: split_aux sep EmptyString r
      else split_aux sep (cur +:+ String c EmptyString) r
  end.

(** Modelled from the spec: String::split(sep,emptyOK) is not among the
    sources; the pieces between separators, the empty ones dropped unless
    [emptyOK]. *)
Definition split (sep : ascii) (emptyOK : bool) (s : string) : list string :=
  List.filter (fun p => emptyOK || negb (String.eqb p EmptyString))
    (split_aux sep EmptyString s).

End YString.

(** ** ASNLib: the BER codec *)

Module ASNLib.

(** Modelled from the spec: the constants of yateasn.h are not among the
    sources; section 4.1 gives the universal tags and the error values,
    and the long-form length marker 0x80. *)
Definition BOOLEAN : Z := 0x01.
Definition INTEGER : Z := 0x02.
Definition BIT_STRING : Z := 0x03.
Definition OCTET_STRING : Z := 0x04.
Definition NULL_ID : Z := 0x05.
Definition OBJECT_ID : Z := 0x06.
Definition REAL : Z := 0x09.
Definition NUMERIC_STR : Z := 0x12.
Definition PRINTABLE_STR : Z := 0x13.
Definition IA5_STR : Z := 0x16.
Definition VISIBLE_STR : Z := 0x1a.
Definition SEQUENCE : Z := 0x30.
Definition SET : Z := 0x31.
Definition ASN_LONG_LENGTH : Z := 0x80.
Definition ASN_BIT8 : Z := 0x80.
Definition InvalidLengthOrTag : Z := -1.
Definition InvalidContentsError : Z := -2.
Definition ParseError : Z := -3.

(** The [for] loop of decodeLength:
    [length = (length << 8) + data[1 + i]] for [i] from [i] up. *)
Fixpoint decodeLength_loop (data : DataBlock) (n : nat) (i : Z) (length : Z) : Z :=
  match n with
  | O => length
  | S n' =>
      decodeLength_loop data n' (i + 1)
        (to_int32 (Z.shiftl length 8 + data.[1 + i]))
  end.

(** ASNLib::decodeLength: the returned length (or error) and the block
    after the call. *)
Definition decodeLength (data : DataBlock) : Z * DataBlock :=
  let lengthByte := to_uint8 data.[0] in
  if negb (Z.land lengthByte ASN_LONG_LENGTH =? 0) then
    let lengthByte := to_uint8 (Z.land lengthByte (Z.lnot ASN_LONG_LENGTH)) in
    if lengthByte =? 0 then (InvalidLengthOrTag, data)
    else if lengthByte >? sizeof_int then (InvalidLengthOrTag, data)
    else
      let length := decodeLength_loop data (Z.to_nat lengthByte) 0 0 in
      (length, DataBlock.cut (- lengthByte - 1) data)
  else (lengthByte, DataBlock.cut (-1) data).

(** The [while (len > 0)] loop of buildLength, inserting the low byte of
    [len] at the front of [lenDb]; [len] loses eight bits each turn, so
    [n] turns are enough for any [len] below [2^(8n)]. *)
Fixpoint buildLength_loop (n : nat) (len : Z) (lenDb : DataBlock) : DataBlock :=
  match n with
  | O => lenDb
  | S n' =>
      if len >? 0 then
        let v := to_uint8 (Z.land len 0xFF) in
        buildLength_loop n' (Z.shiftr len 8) (DataBlock.insert lenDb [v])
      else lenDb
  end.

(** ASNLib::buildLength. *)
Definition buildLength (data : DataBlock) : DataBlock :=
  if DataBlock.length data <? 0 then []
  else if DataBlock.length data <? ASN_LONG_LENGTH then
    [to_uint8 (DataBlock.length data)]
  else
    let len := to_int32 (DataBlock.length data) in
    let lenDb := buildLength_loop 4 len [] in
    let longLen := to_uint8 (Z.lor ASN_LONG_LENGTH (DataBlock.length lenDb)) in
    DataBlock.insert lenDb [longLen].

(** What a decoder leaves behind: the returned code, the block after the
    call and the value stored through the output pointer, if any. *)
Record decoded (A : Type) : Type := Decoded {
  code : Z;
  rest : DataBlock;
  value : option A
}.
Arguments Decoded {A} _ _ _.
Arguments code {A} _.
Arguments rest {A} _.
Arguments value {A} _.

(** The test of decodeLength that makes it return before it cuts: the
    first byte announces the long form with no length bytes, or with more
    of them than [sizeof(int)]. *)
Definition length_refused (data : DataBlock) : bool :=
  let lengthByte := to_uint8 data.[0] in
  let count := to_uint8 (Z.land lengthByte (Z.lnot ASN_LONG_LENGTH)) in
  negb (Z.land lengthByte ASN_LONG_LENGTH =? 0)
  && ((count =? 0) || (count >? sizeof_int)).

(** The tests that make a decoder return before it cuts anything: the
    block has fewer than two bytes; or the tag is checked and the test of
    the tag, [mismatch], refuses it; or the tag is not checked and
    decodeLength refuses the first byte. *)
Definition returns_before_cut (mismatch : bool) (data : DataBlock) (tagCheck : bool)
  : bool :=
  (DataBlock.length data <? 2)
  || (if tagCheck then mismatch else length_refused data).

(** ASNLib::decodeBoolean; [val] tells whether the output pointer is not
    null. *)
Definition decodeBoolean (data : DataBlock) (val : bool) (tagCheck : bool)
  : decoded bool :=
  if DataBlock.length data <? 2 then Decoded InvalidLengthOrTag data None
  else if tagCheck && negb (data.[0] =? BOOLEAN) then
    Decoded InvalidLengthOrTag data None
  else
    let data := if tagCheck then DataBlock.cut (-1) data else data in
    let '(length, data) := decodeLength data in
    if length <? 0 then Decoded length data None
    else if (to_uint32 length >? DataBlock.length data) || negb (length =? 1) then
      Decoded InvalidLengthOrTag data None
    else if negb val then
      Decoded InvalidContentsError (DataBlock.cut (-1) data) None
    else
      let v := negb (Z.land data.[0] 0xFF =? 0) in
      Decoded length (DataBlock.cut (-1) data) (Some v).

(** ASNLib::encodeBoolean. *)
Definition encodeBoolean (val : bool) (tagCheck : bool) : DataBlock :=
  let data := if tagCheck then [BOOLEAN; 1] else [] in
  DataBlock.append data [if val then 1 else 0].

(** The [while (j < length)] loop of decodeInteger:
    [value = (value << 8) | data[j]] on 64 bits. *)
Fixpoint decodeInteger_loop (data : DataBlock) (n : nat) (j : Z) (value : Z) : Z :=
  match n with
  | O => value
  | S n' =>
      decodeInteger_loop data n' (j + 1)
        (Z.lor (to_uint64 (Z.shiftl value 8)) (to_uint64 data.[j]))
  end.

(** ASNLib::decodeInteger; [intVal] is a reference, written on success.
    The parameter [bytes] is not used by the code. *)
Definition decodeInteger (data : DataBlock) (bytes : Z) (tagCheck : bool)
  : decoded Z :=
  if DataBlock.length data <? 2 then Decoded InvalidLengthOrTag data None
  else if tagCheck && negb (data.[0] =? INTEGER) then
    Decoded InvalidLengthOrTag data None
  else
    let data := if tagCheck then DataBlock.cut (-1) data else data in
    let '(length, data) := decodeLength data in
    if length <? 0 then Decoded length data None
    else if to_uint32 length >? DataBlock.length data then
      Decoded InvalidLengthOrTag data None
    else
      let value := if negb (Z.land data.[0] 0x80 =? 0) then to_uint64 (-1) else 0 in
      let value := decodeInteger_loop data (Z.to_nat length) 0 value in
      Decoded length (DataBlock.cut (- length) data) (Some value).

(** The decoders of the sized integers are one text with the type
    changed: decodeInteger into a local [u_int64_t], then the test of the
    output pointer, then the store of the local converted to the type.
    [cast] is that conversion and [bytes] the size of the type; [intVal]
    tells whether the output pointer is not null.  When decodeInteger
    fails the local was never set: what is stored is not determined, and
    there is no value here. *)
Definition decodeSized (cast : Z -> Z) (bytes : Z) (data : DataBlock)
    (intVal : bool) (tagCheck : bool) : decoded Z :=
  let r := decodeInteger data bytes tagCheck in
  if negb intVal then Decoded InvalidContentsError (rest r) None
  else Decoded (code r) (rest r) (cast <$> value r).

(** ASNLib::decodeUINT8, decodeUINT16, decodeUINT32 and decodeUINT64. *)
Definition decodeUINT8 := decodeSized to_uint8 1.
Definition decodeUINT16 := decodeSized to_uint16 2.
Definition decodeUINT32 := decodeSized to_uint32 4.
Definition decodeUINT64 := decodeSized to_uint64 8.

(** ASNLib::decodeINT8, decodeINT16, decodeINT32 and decodeINT64. *)
Definition decodeINT8 := decodeSized to_int8 1.
Definition decodeINT16 := decodeSized to_int16 2.
Definition decodeINT32 := decodeSized to_int32 4.
Definition decodeINT64 := decodeSized to_int64 8.

(** [msb = (uint16_t)(intVal >> ((size - 1) * 8 - 1))]. *)
Definition encodeInteger_msb (intVal size : Z) : Z :=
  to_uint16 (Z.shiftr intVal ((size - 1) * 8 - 1)).

(** The stripping loop of encodeInteger.  [size] only goes down and the
    loop stops at [size = 1], so eight turns are enough.  At [size = 1]
    the shift count of [msb] is negative; the value is never used there,
    because [size - 1 >= 1] fails. *)
Fixpoint encodeInteger_strip (n : nat) (intVal size : Z) : Z :=
  match n with
  | O => size
  | S n' =>
      let msb := encodeInteger_msb intVal size in
      if ((Z.land msb 0x1FF =? 0) || (Z.land msb 0x1FF =? 0xFF))
           && (size - 1 >=? 1)
      then encodeInteger_strip n' intVal (size - 1)
      else size
  end.

(** The [while (size)] loop of encodeInteger: the bytes of [intVal] from
    byte [size - 1] down to byte 0. *)
Fixpoint encodeInteger_contents (n : nat) (intVal : Z) : DataBlock :=
  match n with
  | O => []
  | S n' =>
      to_uint8 (Z.shiftr intVal (Z.of_nat n' * 8)) :: encodeInteger_contents n' intVal
  end.

(** ASNLib::encodeInteger, [intVal] being a [u_int64_t]. *)
Definition encodeInteger (intVal : Z) (tagCheck : bool) : DataBlock :=
  let size := encodeInteger_strip 8 intVal 8 in
  if size =? 0 then []
  else
    let contents := encodeInteger_contents (Z.to_nat size) intVal in
    if DataBlock.length contents =? 0 then []
    else
      let data := if tagCheck then INTEGER :: buildLength contents else [] in
      DataBlock.append data contents.

(** [n] copies of the character 0, appended one by one. *)
Fixpoint zeros (n : nat) : string :=
  match n with
  | O => EmptyString
  | S n' => String "0" (zeros n')
  end.

(** The loop [for (i = 0; i < val.length(); i += 8)] of encodeBitString. *)
Fixpoint encodeBitString_loop (n : nat) (i : Z) (val : string) : DataBlock :=
  match n with
  | O => []
  | S n' =>
      if i <? YString.length val then
        to_uint8 (YString.toInteger 0 2 (YString.substr i 8 val))
          :: encodeBitString_loop n' (i + 8) val
      else []
  end.

(** ASNLib::encodeBitString; the bit string is a text of 0 and 1. *)
Definition encodeBitString (val : string) (tagCheck : bool) : DataBlock :=
  let l := YString.length val in
  let trail := to_uint8 (8 - l mod 8) in
  let val := (val +:+ zeros (Z.to_nat trail))%string in
  let contents := trail :: encodeBitString_loop (String.length val) 0 val in
  let data := if tagCheck then BIT_STRING :: buildLength contents else [] in
  DataBlock.append data contents.

(** The inner loop of decodeBitString: the bits of [byte] from bit [i]
    down to bit 0, as text. *)
Fixpoint decodeBitString_bits (n : nat) (byte : Z) : string :=
  match n with
  | O => EmptyString
  | S i => (YString.of_Z ((Z.shiftr byte (Z.of_nat i)) mod 2)
            +:+ decodeBitString_bits i byte)%string
  end.

(** The outer loop of decodeBitString. *)
Fixpoint decodeBitString_loop (data : DataBlock) (n : nat) (j : Z) : string :=
  match n with
  | O => EmptyString
  | S n' => (decodeBitString_bits 8 (to_uint8 data.[j])
             +:+ decodeBitString_loop data n' (j + 1))%string
  end.

(** ASNLib::decodeBitString. *)
Definition decodeBitString (data : DataBlock) (val : bool) (tagCheck : bool)
  : decoded string :=
  if DataBlock.length data <? 2 then Decoded InvalidLengthOrTag data None
  else if tagCheck && negb (data.[0] =? BIT_STRING) then
    Decoded InvalidLengthOrTag data None
  else
    let data := if tagCheck then DataBlock.cut (-1) data else data in
    let '(length, data) := decodeLength data in
    if length <? 0 then Decoded length data None
    else if to_uint32 length >? DataBlock.length data then
      Decoded InvalidLengthOrTag data None
    else if data.[0] >? 7 then Decoded InvalidLengthOrTag data None
    else
      let unused := data.[0] in
      let data := DataBlock.cut (-1) data in
      let length := length - 1 in
      if negb val then
        Decoded InvalidContentsError (DataBlock.cut (- length) data) None
      else
        let bits := decodeBitString_loop data (Z.to_nat length) 0 in
        let bits := YString.substr 0 (length * 8 - unused) bits in
        Decoded length (DataBlock.cut (- length) data) (Some bits).

(** ASNLib::decodeOctetString. *)
Definition decodeOctetString (db : DataBlock) (strVal : bool) (tagCheck : bool)
  : decoded DataBlock :=
  if DataBlock.length db <? 2 then Decoded InvalidLengthOrTag db None
  else if tagCheck && negb (db.[0] =? OCTET_STRING) then
    Decoded InvalidLengthOrTag db None
  else
    let db := if tagCheck then DataBlock.cut (-1) db else db in
    let '(length, db) := decodeLength db in
    if length <? 0 then Decoded length db None
    else if to_uint32 length >? DataBlock.length db then
      Decoded InvalidLengthOrTag db None
    else if negb strVal then Decoded InvalidContentsError db None
    else
      Decoded length (DataBlock.cut (- length) db)
        (Some (take (Z.to_nat length) db)).

(** ASNLib::encodeOctetString. *)
Definition encodeOctetString (strVal : DataBlock) (tagCheck : bool) : DataBlock :=
  let data := if tagCheck then OCTET_STRING :: buildLength strVal else [] in
  DataBlock.append data strVal.

(** ASNLib::decodeNull; there is no output value. *)
Definition decodeNull (data : DataBlock) (tagCheck : bool) : decoded unit :=
  if tagCheck && (DataBlock.length data <? 2) then
    Decoded InvalidLengthOrTag data None
  else if tagCheck && negb (data.[0] =? NULL_ID) then
    Decoded InvalidLengthOrTag data None
  else
    let data := if tagCheck then DataBlock.cut (-1) data else data in
    let '(length, data) := decodeLength data in
    if negb (length =? 0) then Decoded InvalidLengthOrTag data None
    else Decoded length data (Some tt).

(** ASNLib::encodeNull. *)
Definition encodeNull (tagCheck : bool) : DataBlock :=
  if tagCheck then [NULL_ID; 0] else [].

(** The [while (j < length)] loop of decodeOID; [longNo] is an
    [unsigned int]. *)
Fixpoint decodeOID_loop (data : DataBlock) (n : nat) (j length : Z)
    (oid : string) (longNo : Z) : string :=
  match n with
  | O => oid
  | S n' =>
      if (j =? 0) && (data.[j] =? 0x2b) then
        decodeOID_loop data n' (j + 1) length (oid +:+ "1.3.")%string longNo
      else
        let byte := to_uint8 data.[j] in
        let longNo := to_uint32 (longNo + Z.land byte (Z.lnot ASN_BIT8)) in
        if Z.land byte ASN_BIT8 =? ASN_BIT8 then
          decodeOID_loop data n' (j + 1) length oid (to_uint32 (Z.shiftl longNo 7))
        else
          let oid := (oid +:+ YString.of_Z longNo)%string in
          let oid := if negb (j =? length - 1) then (oid +:+ ".")%string else oid in
          decodeOID_loop data n' (j + 1) length oid 0
  end.

(** ASNLib::decodeOID; [obj] tells whether the output pointer is not
    null.  On a zero length the code only clears its local copy of the
    pointer and returns. *)
Definition decodeOID (data : DataBlock) (obj : bool) (tagCheck : bool)
  : decoded string :=
  if DataBlock.length data <? 2 then Decoded InvalidLengthOrTag data None
  else if tagCheck && negb (data.[0] =? OBJECT_ID) then
    Decoded InvalidLengthOrTag data None
  else
    let data := if tagCheck then DataBlock.cut (-1) data else data in
    let '(length, data) := decodeLength data in
    if length <? 0 then Decoded length data None
    else if to_uint32 length >? DataBlock.length data then
      Decoded InvalidLengthOrTag data None
    else if length =? 0 then Decoded length data None
    else
      let oid := decodeOID_loop data (Z.to_nat length) 0 length EmptyString 0 in
      let data := DataBlock.cut (- length) data in
      if negb obj then Decoded InvalidContentsError data None
      else Decoded length data (Some oid).

(** The [while (val != 0)] loop of ASNObjId::toDataBlock, inserting the
    seven-bit groups of [val] with the continuation bit in front of [db];
    [val] is a positive [int], so five turns are enough. *)
Fixpoint toDataBlock_loop (n : nat) (val : Z) (db : DataBlock) : DataBlock :=
  match n with
  | O => db
  | S n' =>
      if negb (val =? 0) then
        let v := Z.lor (Z.land (to_uint8 val) 0x7f) 0x80 in
        toDataBlock_loop n' (Z.shiftr val 7) (DataBlock.insert db [v])
      else db
  end.

(** One subidentifier of ASNObjId::toDataBlock. *)
Definition toDataBlock_id (s : string) : DataBlock :=
  let val := YString.toInteger 0 10 s in
  if val <? 128 then [to_uint8 val]
  else
    let v := Z.land (to_uint8 val) 0x7f in
    toDataBlock_loop 5 (Z.shiftr val 7) [v].

(** ASNObjId::toDataBlock followed by ASNObjId::getIds: the bytes of the
    subidentifiers of the dotted text [m_value]. *)
Definition getIds (m_value : string) : DataBlock :=
  List.concat (List.map toDataBlock_id (YString.split "." false m_value)).

(** ASNLib::encodeOID; the object identifier is its dotted text. *)
Definition encodeOID (obj : string) (tagCheck : bool) : DataBlock :=
  let cont := getIds obj in
  if DataBlock.length cont =? 0 then []
  else
    let '(cont, contents) :=
      if (cont.[0] =? 1) && (cont.[1] =? 3)
      then (DataBlock.cut (-2) cont, [0x2b])
      else (cont, []) in
    let contents := DataBlock.append contents cont in
    let data := if tagCheck then OBJECT_ID :: buildLength contents else [] in
    DataBlock.append data contents.

(** ASNLib::decodeReal: the value is not decoded; the encoding is
    skipped, 0 is returned and nothing is stored through [realVal]. *)
Definition decodeReal (db : DataBlock) (realVal : bool) (tagCheck : bool)
  : decoded unit :=
  if DataBlock.length db <? 2 then Decoded InvalidLengthOrTag db None
  else if tagCheck && negb (db.[0] =? REAL) then Decoded InvalidLengthOrTag db None
  else
    let db := if tagCheck then DataBlock.cut (-1) db else db in
    let '(length, db) := decodeLength db in
    if length <? 0 then Decoded length db None
    else if to_uint32 length >? DataBlock.length db then
      Decoded InvalidLengthOrTag db None
    else Decoded 0 (DataBlock.cut (- length) db) None.

(** The copy loop of decodeString: [var += (char)(data[i] & 0x7f)]. *)
Fixpoint decodeString_loop (data : DataBlock) (n : nat) (i : Z) : string :=
  match n with
  | O => EmptyString
  | S n' =>
      String (ascii_of_nat (Z.to_nat (Z.land data.[i] 0x7f)))
        (decodeString_loop data n' (i + 1))
  end.

(** ASNLib::decodeString; [str] and [type] tell whether the output
    pointers are not null.  The tag test is the disjunction of four
    inequalities that the code has.  The tag is stored through [type]
    only inside [if (tagCheck)]: without the check nothing is written
    there. *)
Definition decodeString (data : DataBlock) (str type : bool) (tagCheck : bool)
  : decoded (string * option Z) :=
  if DataBlock.length data <? 2 then Decoded InvalidLengthOrTag data None
  else if tagCheck
          && (negb (data.[0] =? NUMERIC_STR) || negb (data.[0] =? PRINTABLE_STR)
              || negb (data.[0] =? IA5_STR) || negb (data.[0] =? VISIBLE_STR)) then
    Decoded InvalidLengthOrTag data None
  else
    let tag := if tagCheck then Some data.[0] else None in
    let data := if tagCheck then DataBlock.cut (-1) data else data in
    let '(length, data) := decodeLength data in
    if length <? 0 then Decoded length data None
    else if to_uint32 length >? DataBlock.length data then
      Decoded InvalidLengthOrTag data None
    else
      let var := decodeString_loop data (Z.to_nat length) 0 in
      let data := DataBlock.cut (- length) data in
      if negb str || negb type then Decoded InvalidContentsError data None
      else Decoded length data (Some (var, tag)).

(** The bytes of a text. *)
Definition bytes_of_string (s : string) : DataBlock :=
  List.map (fun c => Z.of_nat (nat_of_ascii c)) (list_ascii_of_string s).

(** ASNLib::encodeString. *)
Definition encodeString (str : string) (type : Z) (tagCheck : bool) : DataBlock :=
  let tag := to_uint8 type in
  let contents :=
    if (type =? NUMERIC_STR) || (type =? PRINTABLE_STR)
       || (type =? IA5_STR) || (type =? VISIBLE_STR)
    then bytes_of_string str else [] in
  if DataBlock.length contents =? 0 then []
  else
    let data := if tagCheck then tag :: buildLength contents else [] in
    DataBlock.append data contents.

(** ASNLib::decodeSequence: the returned length (or error) and the block
    after the call.  There is no output value, and the length is not
    compared with what is left of the block. *)
Definition decodeSequence (data : DataBlock) (tagCheck : bool) : Z * DataBlock :=
  if DataBlock.length data <? 2 then (InvalidLengthOrTag, data)
  else if tagCheck && negb (data.[0] =? SEQUENCE) then (InvalidLengthOrTag, data)
  else
    let data := if tagCheck then DataBlock.cut (-1) data else data in
    decodeLength data.

(** ASNLib::decodeSet. *)
Definition decodeSet (data : DataBlock) (tagCheck : bool) : Z * DataBlock :=
  if DataBlock.length data <? 2 then (InvalidLengthOrTag, data)
  else if tagCheck && negb (data.[0] =? SET) then (InvalidLengthOrTag, data)
  else
    let data := if tagCheck then DataBlock.cut (-1) data else data in
    decodeLength data.

(** ASNLib::encodeSequence works on the block in place: the number of
    length bytes it put in front, and the block after the call. *)
Definition encodeSequence (data : DataBlock) (tagCheck : bool) : Z * DataBlock :=
  if tagCheck then
    let len := buildLength data in
    let data := DataBlock.insert data len in
    let data := DataBlock.insert data [SEQUENCE] in
    (DataBlock.length len, data)
  else (0, data).

(** ASNLib::encodeSet. *)
Definition encodeSet (data : DataBlock) (tagCheck : bool) : Z * DataBlock :=
  if tagCheck then
    let len := buildLength data in
    let data := DataBlock.insert data len in
    let data := DataBlock.insert data [SET] in
    (DataBlock.length len, data)
  else (0, data).

End ASNLib.

(** ** AsnMib *)

Module AsnMib.

(** The loop of AsnMib::compareTo over the two lists of pieces, and the
    value returned when one of them is at its end; [diff] is an [int]. *)
Fixpoint compareTo_loop (myIDs mibIDs : list string) : Z :=
  match myIDs, mibIDs with
  | str1 :: o1, str2 :: o2 =>
      let diff := to_int32 (YString.toInteger 0 10 str1 - YString.toInteger 0 10 str2) in
      if diff =? 0 then compareTo_loop o1 o2
      else if diff >? 0 then 1
      else -1
  | [], _ => -1
  | _ :: _, [] => 1
  end.

(** AsnMib::compareTo.  An AsnMib is the text of its object identifier,
    which [toString()] returns; [mib] is the other one, or a null
    pointer. *)
Definition compareTo (this : string) (mib : option string) : Z :=
  match mib with
  | None => 1
  | Some other =>
      if String.eqb this other then 0
      else
        compareTo_loop (YString.split "." false this) (YString.split "." false other)
  end.

End AsnMib.

(** ** Texts and values the properties of the codec are stated on *)

(** The text of a list of bits, as encodeBitString takes it and
    decodeBitString gives it: a 1 or a 0 for each bit. *)
Fixpoint bits_text (bs : list bool) : string :=
  match bs with
  | [] => EmptyString
  | b :: bs' => String (if b then "1" else "0")%char (bits_text bs')
  end.

(** The number that a list of bits writes, high bit first. *)
Definition byte_of_bits (c : list bool) : Z :=
  fold_left (fun a (b : bool) => 2 * a + (if b then 1 else 0)) c 0.

(** A text of characters 1 to 127: what a String holds and the mask 0x7f
    of decodeString leaves alone. *)
Definition seven_bit (s : string) : bool :=
  forallb (fun c => let n := Z.of_nat (nat_of_ascii c) in (0 <? n) && (n <? 128))
    (list_ascii_of_string s).

(** A text without the separator of subidentifiers. *)
Definition undotted (s : string) : Prop :=
  Forall (fun c => Ascii.eqb c "." = false) (list_ascii_of_string s).

(** The dotted text of a list of subidentifiers. *)
Fixpoint dotted (ids : list Z) : string :=
  match ids with
  | [] => EmptyString
  | a :: rest =>
      match rest with
      | [] => YString.of_Z a
      | _ => YString.of_Z a +:+ "." +:+ dotted rest
      end
  end.

(** The leading bytes of a subidentifier in base 128: the groups of
    seven bits of [v], the most significant first, each with the
    continuation bit. *)
Fixpoint leading (n : nat) (v : Z) : DataBlock :=
  match n with
  | O => []
  | S n' =>
      if v =? 0 then []
      else leading n' (Z.shiftr v 7) ++ [Z.lor (Z.land v 0x7f) 0x80]
  end.

(** The bytes of a subidentifier: the leading bytes and the last seven
    bits. *)
Definition subidentifier (a : Z) : DataBlock :=
  leading 5 (Z.shiftr a 7) ++ [Z.land a 0x7f].

(** The contents of the encoding of an object identifier: the bytes of
    its subidentifiers, the leading pair 1.3 as one byte. *)
Definition oid_contents (ids : list Z) : DataBlock :=
  if decide (take 2 ids = [1; 3])
  then 0x2b :: List.concat (List.map subidentifier (drop 2 ids))
  else List.concat (List.map subidentifier ids).

(** Lists of subidentifiers that fit an [int]. *)
Definition arcs (a : list Z) : Prop := Forall (fun x => 0 <= x < 2 ^ 31) a.

(** ** SS7 data model *)

(** Modelled from the spec: SS7PointCode::Type (yatesig.h) is not among
    the sources; section 3 names the families ITU and ANSI and "a few
    minor variants", and [Other] stands for "none".  There are
    YSS7_PCTYPE_COUNT = 6 families besides [Other]. *)
Inductive PCType : Type := Other | ITU | ANSI | ANSI8 | China | Japan | Japan5.

#[global] Instance PCType_eq_dec : EqDecision PCType.
Proof. solve_decision. Defined.

(** Modelled from the spec: SS7Label (yatesig.h) is not among the
    sources; section 3: "Label: {type, OPC, DPC, SLS, spare}", the point
    codes kept in their packed form. *)
Record SS7Label : Type := Label {
  lbl_type : PCType;
  lbl_dpc : Z;
  lbl_opc : Z;
  lbl_sls : Z;
  lbl_spare : Z
}.

#[global] Instance SS7Label_eq_dec : EqDecision SS7Label.
Proof. solve_decision. Defined.

(** Modelled from the spec: SS7MSU (yatesig.h) is not among the sources;
    section 3: a byte buffer exposing the service information octet, the
    label and the payload bytes that follow the label. *)
Record SS7MSU : Type := MSU {
  msu_sio : Z;
  msu_label : SS7Label;
  msu_payload : list Z
}.

#[global] Instance SS7MSU_eq_dec : EqDecision SS7MSU.
Proof. solve_decision. Defined.

(** [msu.getSIF()]: the service indicator, the low nibble of the SIO. *)
Definition getSIF (msu : SS7MSU) : Z := Z.land (msu_sio msu) 0x0f.

(** Modelled from the spec: HandledMSU (yatesig.h) is not among the
    sources; section 3 lists its values.  A [bool] converts to [Accepted]
    or [Failure], and a default constructed value is [Rejected]. *)
Inductive HandledMSU : Type :=
  Rejected | Unequipped | Inaccessible | Accepted | Failure | NoAddress.

#[global] Instance HandledMSU_eq_dec : EqDecision HandledMSU.
Proof. solve_decision. Defined.

Definition HandledMSU_of_bool (success : bool) : HandledMSU :=
  if success then Accepted else Failure.

(** Modelled from the spec: the values of the enum SS7Route::State
    (yatesig.h) are not among the sources.  The code compares states as
    numbers and masks them ([state & KnownState], [findRoute] with a set
    of states), so a state is its number and the named values and masks
    are taken as parameters. *)
Class RouteStates : Type := {
  Prohibited : Z;
  Unknown : Z;
  Restricted : Z;
  Congestion : Z;
  Allowed : Z;
  NotProhibited : Z;
  KnownState : Z;
  AnyState : Z
}.

(** The numbering used for concrete evaluation: one bit per known state,
    the masks selecting the states their names say. *)
Definition yatesig_states : RouteStates := {|
  Prohibited := 0x01;
  Restricted := 0x02;
  Congestion := 0x04;
  Allowed := 0x08;
  Unknown := 0x80;
  NotProhibited := 0x7e;
  KnownState := 0x7f;
  AnyState := 0xff
|}.

(** Modelled from the spec: the values of the enum SS7MSU::Services
    (yatesig.h) are not among the sources; section 4.4 names the service
    indicators of Management (SNM) and Maintenance (MTN, MTNS).  The
    code only compares them, so they are parameters. *)
Class Services : Type := {
  SNM : Z;
  MTN : Z;
  MTNS : Z
}.

(** The service indicators of Q.704. *)
Definition q704_services : Services := {| SNM := 0; MTN := 1; MTNS := 2 |}.

(** Networks and user parts are owned by the engine; the router and the
    routes refer to them by address. *)
Abbreviation L3Pointer := nat.
Abbreviation L4Pointer := nat.

(** Modelled from the spec: the class SS7Route is declared in yatesig.h,
    which is not among the sources; section 3: "Route: {family, packed
    DPC, state, ordered list of (network, priority)}".  The fields are the
    ones its methods in router.cpp use: destination, priority, state, the
    shift that [shift()] returns, and the attached networks in the order
    of the list [m_networks]; an entry of that list may hold a null
    pointer. *)
Record SS7Route : Type := Route {
  m_packed : Z;
  m_priority : Z;
  m_state : Z;
  m_shift : Z;
  m_networks : list (option L3Pointer)
}.

Definition set_state (st : Z) (r : SS7Route) : SS7Route :=
  Route (m_packed r) (m_priority r) st (m_shift r) (m_networks r).

(** Modelled from the spec: SS7Layer3 (layer3.cpp, yatesig.h) is not among
    the sources; section 3 gives the interface a network exposes.  A
    network is the answers it gives: [operational(sls)] (with -1 for "any
    link"), [getLocal(type)], its own table of routes per family, and the
    result of [transmitMSU(msu,label,sls)]. *)
Record SS7Layer3 : Type := Layer3 {
  l3_operational : Z -> bool;
  l3_getLocal : PCType -> Z;
  l3_route : PCType -> list SS7Route;
  l3_transmitMSU : SS7MSU -> SS7Label -> Z -> Z
}.

Module Layer3.

(** Modelled from the spec: SS7Layer3::findRoute(type,packed) is not among
    the sources; the route of the network's table with that packed
    destination, none for [Other] or a zero point code. *)
Definition findRoute (type : PCType) (packed : Z) (routes : PCType -> list SS7Route)
  : option SS7Route :=
  if decide (type = Other) then None
  else if packed =? 0 then None
  else List.find (fun r => m_packed r =? packed) (routes type).

(** [findRoute(type,packed,states)]: the route, when its state is among
    [states]. *)
Definition findRoute_states (type : PCType) (packed : Z) (states : Z)
    (routes : PCType -> list SS7Route) : option SS7Route :=
  match findRoute type packed routes with
  | Some route =>
      if negb (Z.land (m_state route) states =? 0) then Some route else None
  | None => None
  end.

(** Modelled from the spec: SS7Layer3::getRoutePriority(type,packed) is
    not among the sources; section 3: the priority of the route, "MAX
    means no route". *)
Definition getRoutePriority (type : PCType) (packed : Z) (l3 : SS7Layer3) : Z :=
  match findRoute type packed (l3_route l3) with
  | Some r => m_priority r
  | None => to_uint32 (-1)
  end.

(** The assignment [r->m_state = state] on the route that
    [findRoute(type,packed)] returned. *)
Fixpoint update_route (packed : Z) (state : Z) (routes : list SS7Route)
  : list SS7Route :=
  match routes with
  | [] => []
  | r :: rest =>
      if m_packed r =? packed then set_state state r :: rest
      else r :: update_route packed state rest
  end.

(** What the assignment does to a route of the table, seen from a later
    look-up: the routes to [packed] carry the new state. *)
Definition restate (packed : Z) (state : Z) (r : SS7Route) : SS7Route :=
  if m_packed r =? packed then set_state state r else r.

Definition setRouteState (type : PCType) (packed : Z) (state : Z) (l3 : SS7Layer3)
  : SS7Layer3 :=
  Layer3 (l3_operational l3) (l3_getLocal l3)
    (fun t => if decide (t = type) then update_route packed state (l3_route l3 t)
              else l3_route l3 t)
    (l3_transmitMSU l3).

End Layer3.

(** Modelled from the spec: ListIterator (yateclass.h) is not among the
    sources; section 8, "Transmit selection": an iteration over a
    snapshot of the list that starts at index [offset mod N] and wraps
    around. *)
Definition ListIterator {A : Type} (l : list A) (offset : Z) : list A :=
  match l with
  | [] => []
  | _ =>
      let k := Z.to_nat (offset mod Z.of_nat (List.length l)) in
      drop k l ++ take k l
  end.

(** Modelled from the spec: SignallingTimer (yatesig.h) is not among the
    sources; section 4.6: an interval and an expiry time, zero while the
    timer is stopped. *)
Record SignallingTimer : Type := Timer {
  t_interval : Z;
  t_timeout : Z
}.

Module SignallingTimer.

Definition started (t : SignallingTimer) : bool := t_timeout t >? 0.
Definition stop (t : SignallingTimer) : SignallingTimer := Timer (t_interval t) 0.
Definition start (time : Z) (t : SignallingTimer) : SignallingTimer :=
  if negb (t_interval t =? 0) then Timer (t_interval t) (time + t_interval t) else t.
Definition timeout (time : Z) (t : SignallingTimer) : bool :=
  started t && (t_timeout t <? time).

End SignallingTimer.

(** ** SS7Route *)

Module SS7Route.

(** The loop of SS7Route::transmitMSU over the iterator: the result, and
    the networks whose [transmitMSU] was called, in order.  A null or
    dead pointer is skipped. *)
Fixpoint transmitMSU_loop (networks : gmap L3Pointer SS7Layer3)
    (iter : list (option L3Pointer)) (msu : SS7MSU) (label : SS7Label) (sls : Z)
  : Z * list L3Pointer :=
  match iter with
  | [] => (-1, [])
  | p :: iter' =>
      match p ≫= (fun q => (fun l3 => (q, l3)) <$> networks !! q) with
      | None => transmitMSU_loop networks iter' msu label sls
      | Some (q, l3) =>
          let res := l3_transmitMSU l3 msu label sls in
          if negb (res =? -1) then (res, [q])
          else
            let '(r, tried) := transmitMSU_loop networks iter' msu label sls in
            (r, q :: tried)
      end
  end.

(** The networks of an iteration that are alive, each with the answer
    its [transmitMSU] gives. *)
Definition answers (networks : gmap L3Pointer SS7Layer3)
    (iter : list (option L3Pointer)) (msu : SS7MSU) (label : SS7Label) (sls : Z)
  : list (L3Pointer * Z) :=
  omap (fun p : option L3Pointer =>
          q ← p; l3 ← networks !! q; Some (q, l3_transmitMSU l3 msu label sls))
       iter.

(** SS7Route::transmitMSU.  The argument [source] is received and not
    looked at. *)
Definition transmitMSU (networks : gmap L3Pointer SS7Layer3) (route : SS7Route)
    (msu : SS7MSU) (label : SS7Label) (sls : Z) (source : option L3Pointer)
  : Z * list L3Pointer :=
  let iter := ListIterator (m_networks route) (Z.shiftr sls (m_shift route)) in
  transmitMSU_loop networks iter msu label sls.

Definition set_networks (l : list (option L3Pointer)) (r : SS7Route) : SS7Route :=
  Route (m_packed r) (m_priority r) (m_state r) (m_shift r) l.

(** [m_networks.remove(p,false)] on the first entry that holds
    [network]. *)
Fixpoint remove_first (network : L3Pointer) (l : list (option L3Pointer))
  : list (option L3Pointer) :=
  match l with
  | [] => []
  | p :: l' =>
      if decide (p = Some network) then l' else p :: remove_first network l'
  end.

(** SS7Route::detach: the returned flag - the list is not empty - and
    the route after the call. *)
Definition detach (network : option L3Pointer) (route : SS7Route) : bool * SS7Route :=
  match network with
  | None => (bool_decide (m_networks route <> []), route)
  | Some n =>
      let l := remove_first n (m_networks route) in
      (bool_decide (l <> []), set_networks l route)
  end.

(** The loop of SS7Route::attach: the new entry goes in front of the
    first network whose priority is not lower, or to the end.  A null
    pointer is passed over.  The code asks every other entry for its
    priority, also a network that is gone; such an entry is passed over
    here, and the properties of [attach] are stated for lists that hold
    none ([all_there]). *)
Fixpoint attach_loop (nets : gmap L3Pointer SS7Layer3) (type : PCType)
    (packed priority : Z) (network : L3Pointer) (l : list (option L3Pointer))
  : list (option L3Pointer) :=
  match l with
  | [] => [Some network]
  | p :: l' =>
      match p ≫= (nets !!.) with
      | Some l3 =>
          if priority <=? Layer3.getRoutePriority type packed l3
          then Some network :: p :: l'
          else p :: attach_loop nets type packed priority network l'
      | None => p :: attach_loop nets type packed priority network l'
      end
  end.

(** SS7Route::attach.  Nothing is done for a null pointer, for a network
    without a route to the destination (its priority is the largest
    [unsigned int]) and, here, for a network that is gone.  A network of
    priority 0 goes to the head of the list. *)
Definition attach (nets : gmap L3Pointer SS7Layer3) (network : option L3Pointer)
    (type : PCType) (route : SS7Route) : SS7Route :=
  match network ≫= (fun n => (fun l3 => (n, l3)) <$> nets !! n) with
  | None => route
  | Some (n, l3) =>
      let priority := Layer3.getRoutePriority type (m_packed route) l3 in
      if priority =? to_uint32 (-1) then route
      else
        let route := (detach (Some n) route).2 in
        if priority =? 0 then set_networks (Some n :: m_networks route) route
        else
          set_networks
            (attach_loop nets type (m_packed route) priority n (m_networks route))
            route
  end.

(** SS7Route::hasNetwork. *)
Definition hasNetwork (network : option L3Pointer) (route : SS7Route) : bool :=
  match network with
  | None => false
  | Some n => existsb (fun p => bool_decide (p = Some n)) (m_networks route)
  end.

(** SS7Route::operational. *)
Definition operational (nets : gmap L3Pointer SS7Layer3) (sls : Z) (route : SS7Route)
  : bool :=
  existsb (fun p => match p ≫= (nets !!.) with
                    | Some l3 => l3_operational l3 sls
                    | None => false
                    end) (m_networks route).

(** The priorities, toward the destination of the route, of the networks
    of a list that are there, in the order of the list. *)
Definition priorities (nets : gmap L3Pointer SS7Layer3) (type : PCType) (packed : Z)
    (l : list (option L3Pointer)) : list Z :=
  omap (fun p : option L3Pointer =>
          l3 ← p ≫= (nets !!.); Some (Layer3.getRoutePriority type packed l3)) l.

(** Every pointer of the list that is not null refers to a network that
    is there. *)
Definition all_there (nets : gmap L3Pointer SS7Layer3) (l : list (option L3Pointer))
  : Prop :=
  Forall (fun p : option L3Pointer =>
            match p with Some q => is_Some (nets !! q) | None => True end) l.

End SS7Route.

(** ** SS7Router *)

Record SS7Router : Type := Router {
  m_changes : Z;
  m_transfer : bool;
  m_phase2 : bool;
  m_started : bool;
  m_isolate : SignallingTimer;
  m_sendUnavail : bool;
  m_sendProhibited : bool;
  m_rxMsu : Z;
  m_txMsu : Z;
  m_fwdMsu : Z;
  m_layer3 : list L3Pointer;
  m_layer4 : list (option L4Pointer);
  m_local : PCType -> Z;
  m_route : PCType -> list SS7Route
}.

(** The engine owns the networks; the router refers to them. *)
Record Engine : Type := MkEngine {
  router : SS7Router;
  networks : gmap L3Pointer SS7Layer3
}.

(** A user part answers [receivedMSU]; while it runs the router is
    unlocked, and it may change the engine (attach or detach parts, which
    moves [m_changes]). *)
Class UserParts : Type := {
  l4_receivedMSU :
    L4Pointer -> SS7MSU -> SS7Label -> option L3Pointer -> Z -> Engine
    -> HandledMSU * Engine
}.

Module SS7Router.

Definition count_rx (r : SS7Router) : SS7Router :=
  Router (m_changes r) (m_transfer r) (m_phase2 r) (m_started r) (m_isolate r)
    (m_sendUnavail r) (m_sendProhibited r) (m_rxMsu r + 1) (m_txMsu r) (m_fwdMsu r)
    (m_layer3 r) (m_layer4 r) (m_local r) (m_route r).

Definition count_tx (fwd : bool) (r : SS7Router) : SS7Router :=
  Router (m_changes r) (m_transfer r) (m_phase2 r) (m_started r) (m_isolate r)
    (m_sendUnavail r) (m_sendProhibited r) (m_rxMsu r) (m_txMsu r + 1)
    (if fwd then m_fwdMsu r + 1 else m_fwdMsu r)
    (m_layer3 r) (m_layer4 r) (m_local r) (m_route r).

Definition set_route (route : PCType -> list SS7Route) (r : SS7Router) : SS7Router :=
  Router (m_changes r) (m_transfer r) (m_phase2 r) (m_started r) (m_isolate r)
    (m_sendUnavail r) (m_sendProhibited r) (m_rxMsu r) (m_txMsu r) (m_fwdMsu r)
    (m_layer3 r) (m_layer4 r) (m_local r) route.

(** [getLocal(type)]: the local point code of the family, 0 for none. *)
Definition getLocal (r : SS7Router) (type : PCType) : Z :=
  if decide (type = Other) then 0 else m_local r type.

(** SS7Router::operational. *)
Definition operational (e : Engine) (sls : Z) : bool :=
  if negb (m_started (router e)) || SignallingTimer.started (m_isolate (router e))
  then false
  else
    existsb
      (fun p => match networks e !! p with
                | Some l3 => l3_operational l3 sls
                | None => false
                end)
      (m_layer3 (router e)).

(** The loop of SS7Router::getDefaultLocal over the networks; [local] is
    what the turn before left.  A pointer to a network that is gone is
    passed over, as in [operational]. *)
Fixpoint getDefaultLocal_loop (nets : gmap L3Pointer SS7Layer3) (type : PCType)
    (l : list L3Pointer) (local : Z) : Z :=
  match l with
  | [] => local
  | p :: l' =>
      match nets !! p with
      | Some l3 =>
          let l := l3_getLocal l3 type in
          if negb (l =? 0) && negb (local =? 0) then 0
          else getDefaultLocal_loop nets type l' l
      | None => getDefaultLocal_loop nets type l' local
      end
  end.

(** SS7Router::getDefaultLocal. *)
Definition getDefaultLocal (e : Engine) (type : PCType) : Z :=
  let local := getLocal (router e) type in
  if local =? 0 then getDefaultLocal_loop (networks e) type (m_layer3 (router e)) local
  else local.

(** SS7Router::routeMSU: the result, the engine with the counters
    moved, and the networks tried. *)
Definition routeMSU (msu : SS7MSU) (label : SS7Label) (network : option L3Pointer)
    (sls : Z) (states : Z) (e : Engine) : Z * Engine * list L3Pointer :=
  let route :=
    Layer3.findRoute_states (lbl_type label) (lbl_dpc label) states
      (m_route (router e)) in
  let '(slsTx, tried) :=
    match route with
    | Some route => SS7Route.transmitMSU (networks e) route msu label sls network
    | None => (-1, [])
    end in
  if slsTx >=? 0 then
    (slsTx, MkEngine (count_tx (bool_decide (is_Some network)) (router e)) (networks e),
     tried)
  else (slsTx, e, tried).

Definition set_layer4 (changes : Z) (l : list (option L4Pointer)) (r : SS7Router)
  : SS7Router :=
  Router changes (m_transfer r) (m_phase2 r) (m_started r) (m_isolate r)
    (m_sendUnavail r) (m_sendProhibited r) (m_rxMsu r) (m_txMsu r) (m_fwdMsu r)
    (m_layer3 r) l (m_local r) (m_route r).

(** SS7Router::attach for a user part (an SS7Layer4), as far as the
    router itself goes: the registration with the engine and the call of
    [service->attach(this)] are left out.  [m_changes] is an [int]. *)
Definition attach_layer4 (service : option L4Pointer) (r : SS7Router) : SS7Router :=
  match service with
  | None => r
  | Some s =>
      if existsb (fun p => bool_decide (p = Some s)) (m_layer4 r) then r
      else set_layer4 (to_int32 (m_changes r + 1)) (m_layer4 r ++ [Some s]) r
  end.

(** The list without its first entry that holds [service]. *)
Fixpoint remove_layer4 (service : L4Pointer) (l : list (option L4Pointer))
  : list (option L4Pointer) :=
  match l with
  | [] => []
  | p :: l' =>
      if decide (p = Some service) then l' else p :: remove_layer4 service l'
  end.

(** SS7Router::detach for a user part: the router, and the pointer
    [m_mngmt] to the management part, which the record above does not
    carry. *)
Definition detach_layer4 (service : option L4Pointer) (r : SS7Router)
    (mngmt : option L4Pointer) : SS7Router * option L4Pointer :=
  match service with
  | None => (r, mngmt)
  | Some s =>
      if existsb (fun p => bool_decide (p = Some s)) (m_layer4 r) then
        (set_layer4 (to_int32 (m_changes r + 1)) (remove_layer4 s (m_layer4 r)) r,
         if decide (mngmt = Some s) then None else mngmt)
      else (r, mngmt)
  end.

(** SS7Router::transmitMSU: management and maintenance MSUs go out on
    routes in any state, the others on routes that are not prohibited. *)
Definition transmitMSU `{RouteStates} `{Services} (msu : SS7MSU) (label : SS7Label)
    (sls : Z) (e : Engine) : Z * Engine * list L3Pointer :=
  let sif := getSIF msu in
  let states :=
    if (sif =? SNM) || (sif =? MTN) || (sif =? MTNS) then AnyState
    else NotProhibited in
  routeMSU msu label None sls states e.

Section ReceivedMSU.
Context `{RouteStates} `{UserParts}.

(** The outcome of the scan of the user parts: a part returned
    [Accepted] or [Failure], or the list was scanned to its end. *)
Inductive scanned : Type :=
  | Returned (handled : HandledMSU) (e : Engine)
  | Scanned (ret : HandledMSU) (e : Engine).

(** The [do ... while (l)] scan of SS7Router::receivedMSU.  [l] is what
    is left of the list in the current pass; the scan starts again from
    the head of [m_layer4] when [m_changes] moved during a call.  Every
    visited entry costs one unit of [fuel]. *)
Fixpoint scan (fuel : nat) (l : list (option L4Pointer)) (ret : HandledMSU)
    (msu : SS7MSU) (label : SS7Label) (network : option L3Pointer) (sls : Z)
    (e : Engine) : option scanned :=
  match fuel with
  | O => None
  | S fuel' =>
      match l with
      | [] => Some (Scanned ret e)
      | None :: l' => scan fuel' l' ret msu label network sls e
      | Some l4 :: l' =>
          let chg := m_changes (router e) in
          let '(handled, e') := l4_receivedMSU l4 msu label network sls e in
          match handled with
          | Accepted | Failure => Some (Returned handled e')
          | _ =>
              let ret' := match handled with Rejected => ret | _ => handled end in
              if negb (chg =? m_changes (router e'))
              then scan fuel' (m_layer4 (router e')) ret' msu label network sls e'
              else scan fuel' l' ret' msu label network sls e'
          end
      end
  end.

(** The user parts are quiet when their [receivedMSU] leaves the
    generation counter of the router alone. *)
Definition quiet : Prop :=
  forall l4 msu label network sls e,
    m_changes (router (l4_receivedMSU l4 msu label network sls e).2)
    = m_changes (router e).

(** The flag [local] of SS7Router::receivedMSU: the destination is the
    local point code of the router, or of the network the MSU came
    from. *)
Definition dpc_is_local (label : SS7Label) (network : option L3Pointer)
    (e : Engine) : bool :=
  let dpc := lbl_dpc label in
  let local := getLocal (router e) (lbl_type label) =? dpc in
  match network ≫= (networks e !!.) with
  | Some l3 => if negb local then l3_getLocal l3 (lbl_type label) =? dpc else local
  | None => local
  end.

(** What SS7Router::receivedMSU does once the scan reached the end of
    the list with the tentative result [ret]. *)
Definition after_scan (ret : HandledMSU) (msu : SS7MSU) (label : SS7Label)
    (network : option L3Pointer) (e : Engine) : HandledMSU * Engine :=
  match ret with
  | Unequipped | Inaccessible =>
      if m_sendUnavail (router e) then (ret, e) else (Failure, e)
  | _ =>
      let local := dpc_is_local label network e in
      if local then
        (if m_sendUnavail (router e) then Unequipped else Failure, e)
      else if m_transfer (router e) then
        let '(slsTx, e', _) :=
          routeMSU msu label network (lbl_sls label) NotProhibited e in
        if slsTx >=? 0 then (Accepted, e')
        else (if m_sendProhibited (router e') then NoAddress else Failure, e')
      else (Failure, e)
  end.

(** SS7Router::receivedMSU. *)
Definition receivedMSU (fuel : nat) (msu : SS7MSU) (label : SS7Label)
    (network : option L3Pointer) (sls : Z) (e : Engine)
  : option (HandledMSU * Engine) :=
  let e := MkEngine (count_rx (router e)) (networks e) in
  match scan fuel (m_layer4 (router e)) Rejected msu label network sls e with
  | None => None
  | Some (Returned handled e') => Some (handled, e')
  | Some (Scanned ret e') => Some (after_scan ret msu label network e')
  end.

End ReceivedMSU.

(** A call of SS7Router::routeChanged, with the route as it is at the
    time of the call.  What routeChanged goes on to advertise is not part
    of this development. *)
Inductive RouterEvent : Type :=
  | RouteChanged (route : SS7Route) (type : PCType).

Section SetRouteSpecificState.
Context `{RouteStates}.

(** The loop of SS7Router::setRouteSpecificState over the networks of the
    route: the best state seen, whether some adjacent network was
    updated, and the networks after the updates. *)
Fixpoint setRouteSpecificState_loop (nl : list (option L3Pointer)) (type : PCType)
    (packedPC srcPC state : Z) (best : Z) (ok : bool)
    (nets : gmap L3Pointer SS7Layer3) : Z * bool * gmap L3Pointer SS7Layer3 :=
  match nl with
  | [] => (best, ok, nets)
  | p :: nl' =>
      match p ≫= (fun q => (fun l3 => (q, l3)) <$> nets !! q) with
      | None => setRouteSpecificState_loop nl' type packedPC srcPC state best ok nets
      | Some (q, l3) =>
          match Layer3.findRoute type packedPC (l3_route l3) with
          | None =>
              setRouteSpecificState_loop nl' type packedPC srcPC state best ok nets
          | Some r =>
              if negb (Layer3.getRoutePriority type srcPC l3 =? 0) then
                if (Z.land (m_state r) KnownState >? best) && l3_operational l3 (-1)
                then setRouteSpecificState_loop nl' type packedPC srcPC state
                       (m_state r) ok nets
                else setRouteSpecificState_loop nl' type packedPC srcPC state
                       best ok nets
              else
                setRouteSpecificState_loop nl' type packedPC srcPC state best true
                  (<[q := Layer3.setRouteState type packedPC state l3]> nets)
          end
      end
  end.

(** SS7Router::setRouteSpecificState: the returned flag, the engine after
    the call and the calls of routeChanged. *)
Definition setRouteSpecificState (type : PCType) (packedPC srcPC state : Z)
    (e : Engine) : bool * Engine * list RouterEvent :=
  if bool_decide (type = Other) || (packedPC =? 0) || (srcPC =? 0) then (false, e, [])
  else
    match Layer3.findRoute type packedPC (m_route (router e)) with
    | None => (false, e, [])
    | Some route =>
        let '(best, ok, nets) :=
          setRouteSpecificState_loop (m_networks route) type packedPC srcPC state
            state false (networks e) in
        if negb ok then (false, MkEngine (router e) nets, [])
        else if negb (best =? m_state route) then
          let table := fun t =>
            if decide (t = type)
            then Layer3.update_route packedPC state (m_route (router e) t)
            else m_route (router e) t in
          (true, MkEngine (set_route table (router e)) nets,
           if negb (state =? Unknown) then [RouteChanged (set_state state route) type]
           else [])
        else (true, MkEngine (router e) nets, [])
    end.

(** The part a network plays in the loop, as read off the network: it
    is passed over when it has no route to the destination ([None]), it
    is the adjacent network that notified when its priority toward
    [srcPC] is zero ([Some None]), and otherwise it competes with its
    sub-state, which counts when it is operational. *)
Definition role (type : PCType) (packedPC srcPC : Z) (l3 : SS7Layer3)
  : option (option (Z * bool)) :=
  match Layer3.findRoute type packedPC (l3_route l3) with
  | None => None
  | Some r =>
      if Layer3.getRoutePriority type srcPC l3 =? 0 then Some None
      else Some (Some (m_state r, l3_operational l3 (-1)))
  end.

(** The network at [q] is alive and is the adjacent one that notified. *)
Definition adjacent (type : PCType) (packedPC srcPC : Z)
    (nets : gmap L3Pointer SS7Layer3) (q : L3Pointer) : bool :=
  match nets !! q with
  | Some l3 => bool_decide (role type packedPC srcPC l3 = Some None)
  | None => false
  end.

(** The sub-state of the network at [q] for the destination. *)
Definition substate (type : PCType) (packedPC : Z)
    (nets : gmap L3Pointer SS7Layer3) (q : L3Pointer) : option Z :=
  l3 ← nets !! q; r ← Layer3.findRoute type packedPC (l3_route l3); Some (m_state r).

(** The sub-states that compete for the best state: those of the
    operational networks of the list with a non-zero priority toward
    [srcPC], in the order of the list. *)
Definition contenders (type : PCType) (packedPC srcPC : Z)
    (nets : gmap L3Pointer SS7Layer3) (nl : list (option L3Pointer)) : list Z :=
  omap (fun p : option L3Pointer =>
          q ← p; l3 ← nets !! q;
          match role type packedPC srcPC l3 with
          | Some (Some (st, true)) => Some st
          | _ => None
          end) nl.

(** One comparison of the loop: a known state above the best so far
    takes its place. *)
Definition better (best st : Z) : Z :=
  if Z.land st KnownState >? best then st else best.

(** The best state the loop ends with. *)
Definition best_state (state : Z) (sts : list Z) : Z := fold_left better sts state.

End SetRouteSpecificState.

End SS7Router.

(** ** SS7Management *)

(** Modelled from the spec: the values of the enum SS7MsgSNM::Type and the
    inhibition flags of SS7Layer2 (yatesig.h) are not among the sources;
    section 4.5 names the message types.  The code only compares them and
    stores them in the first payload byte, so they are parameters. *)
Class SnmCodes : Type := {
  COO : Z; ECO : Z; XCO : Z;
  COA : Z; ECA : Z; XCA : Z;
  CBD : Z; CBA : Z;
  TFP : Z; TFR : Z; TFA : Z; TRA : Z;
  LIN : Z; LUN : Z; LFU : Z; LIA : Z; LID : Z; LUA : Z;
  UPU : Z;
  Inactive : Z;
  Remote : Z
}.

(** The heading codes of Q.704, used for concrete evaluation. *)
Definition q704_codes : SnmCodes := {|
  COO := 0x11; ECO := 0x12; XCO := 0x31;
  COA := 0x21; ECA := 0x22; XCA := 0x41;
  CBD := 0x51; CBA := 0x61;
  TFP := 0x14; TFR := 0x34; TFA := 0x54; TRA := 0x17;
  LIN := 0x16; LUN := 0x26; LFU := 0x66; LIA := 0x36; LID := 0x56; LUA := 0x46;
  UPU := 0x1a;
  Inactive := 0x02;
  Remote := 0x08
|}.

(** The message codes are pairwise different, as the values of an enum
    that the code tells apart are. *)
Definition distinct_codes `{SnmCodes} : Prop :=
  NoDup [COO; ECO; XCO; COA; ECA; XCA; CBD; CBA; TFP; TFR; TFA; TRA;
         LIN; LUN; LFU; LIA; LID; LUA; UPU].

(** What the management entity sees of its surroundings: whether it is
    attached to a router (and at which address), the answers of the
    router to [inhibit(link,setFlags,clrFlags,notLast)] and
    [getSequence(link)], the result of SS7Layer4::transmitMSU, and the
    length of a label of each family. *)
Class ManagementEnv : Type := {
  env_router : option L3Pointer;
  env_inhibit : SS7Label -> Z -> Z -> bool -> bool;
  env_getSequence : SS7Label -> Z;
  env_transmitMSU : SS7MSU -> SS7Label -> Z -> Z;
  env_label_length : PCType -> Z
}.

(** The calls the management entity makes, in order. *)
Inductive MgmtEvent : Type :=
  | EvInhibit (link : SS7Label) (setFlags clrFlags : Z) (notLast : bool)
  | EvRecover (link : SS7Label) (sequence : Z)
  | EvGetSequence (link : SS7Label)
  | EvTransmit (msu : SS7MSU) (label : SS7Label) (sls : Z)
  | EvControl (type : Z).

(** SnmPending: a SignallingMessageTimer (retransmission timer and global
    timer) that is also the label, with the buffered MSU and the link. *)
Record SnmPending : Type := Pending {
  pend_msu : SS7MSU;
  pend_label : SS7Label;
  pend_txSls : Z;
  pend_timer : SignallingTimer;
  pend_global : SignallingTimer
}.

(** Modelled from the spec: SignallingMessageTimerList (yatesig.h) is not
    among the sources; section 3: pending messages are "held in an
    ordered priority queue by next-fire time", and section 4.6. *)
Module SignallingMessageTimerList.

(** The next time a message has something to do: the retransmission
    time, or the global time when that one is running and not later. *)
Definition fireTime (m : SnmPending) : Z :=
  if negb (SignallingTimer.started (pend_global m))
     || (t_timeout (pend_global m) >? t_timeout (pend_timer m))
  then t_timeout (pend_timer m)
  else t_timeout (pend_global m).

Fixpoint insert_ordered (m : SnmPending) (l : list SnmPending) : list SnmPending :=
  match l with
  | [] => [m]
  | crt :: rest =>
      if fireTime m <? fireTime crt then m :: crt :: rest
      else crt :: insert_ordered m rest
  end.

(** The timers of a message as [add] sets them: the retransmission
    timer restarted, the global timer started if it has an interval and
    is not running. *)
Definition restarted (m : SnmPending) (when : Z) : SnmPending :=
  Pending (pend_msu m) (pend_label m) (pend_txSls m)
    (SignallingTimer.start when (SignallingTimer.stop (pend_timer m)))
    (if negb (t_interval (pend_global m) =? 0)
        && negb (SignallingTimer.started (pend_global m))
     then SignallingTimer.start when (pend_global m)
     else pend_global m).

(** [add(m,when)]: set the timers and queue by fire time. *)
Definition add (m : SnmPending) (when : Z) (l : list SnmPending) : list SnmPending :=
  insert_ordered (restarted m when) l.

(** A message is expired at [when] if one of its timers is. *)
Definition expired (when : Z) (m : SnmPending) : bool :=
  SignallingTimer.timeout when (pend_timer m)
  || SignallingTimer.timeout when (pend_global m).

(** [timeout(when)]: the first message, taken out of the list, if it is
    expired. *)
Definition timeout (when : Z) (l : list SnmPending)
  : option (SnmPending * list SnmPending) :=
  match l with
  | [] => None
  | m :: rest => if expired when m then Some (m, rest) else None
  end.

(** The number of expired messages of a list. *)
Definition due (when : Z) (l : list SnmPending) : nat :=
  List.length (List.filter (expired when) l).

End SignallingMessageTimerList.

(** The management entity: its service indicator, the pending messages,
    and the calls made so far. *)
Record Management : Type := Mgmt {
  m_sif : Z;
  m_pending : list SnmPending;
  m_trace : list MgmtEvent
}.

(** The parameters SS7MsgSNM::parse stores in a message, as far as the
    changeover, changeback and inhibit procedures read them back. *)
Record SS7MsgSNM : Type := MsgSNM {
  msg_type : Z;
  msg_sequence : option Z;
  msg_slc : option Z;
  msg_code : option Z
}.

Module SS7Management.

(** Stateful code: a computation reads and writes the management
    entity. *)
Definition M (A : Type) : Type := Management -> A * Management.

Definition ret {A : Type} (a : A) : M A := fun s => (a, s).
Definition bind {A B : Type} (c : M A) (k : A -> M B) : M B :=
  fun s => let '(a, s') := c s in k a s'.
Definition emit (ev : MgmtEvent) : M unit :=
  fun s => (tt, Mgmt (m_sif s) (m_pending s) (m_trace s ++ [ev])).
Definition get_pending : M (list SnmPending) := fun s => (m_pending s, s).
Definition set_pending (l : list SnmPending) : M unit :=
  fun s => (tt, Mgmt (m_sif s) l (m_trace s)).

Notation "x <- c ;; k" := (bind c (fun x => k))
  (at level 100, c at next level, right associativity).
Notation "c ;;; k" := (bind c (fun _ => k))
  (at level 100, right associativity).

Section Management.
Context `{SnmCodes} `{ManagementEnv}.

(** SS7Layer4::transmitMSU, as the management entity calls it. *)
Definition transmitMSU (msu : SS7MSU) (label : SS7Label) (sls : Z) : M Z :=
  emit (EvTransmit msu label sls) ;;; ret (env_transmitMSU msu label sls).

(** SS7Management::inhibit. *)
Definition inhibit (link : SS7Label) (setFlags clrFlags : Z) : M bool :=
  match env_router with
  | Some _ =>
      emit (EvInhibit link setFlags clrFlags false) ;;;
      ret (env_inhibit link setFlags clrFlags false)
  | None => ret false
  end.

(** SS7Management::recover. *)
Definition recover (link : SS7Label) (sequence : Z) : M unit :=
  match env_router with
  | Some _ => emit (EvRecover link sequence)
  | None => ret tt
  end.

(** [router ? router->getSequence(lbl) : -1]. *)
Definition getSequence (link : SS7Label) : M Z :=
  match env_router with
  | Some _ => emit (EvGetSequence link) ;;; ret (env_getSequence link)
  | None => ret (-1)
  end.

(** SS7Management::postpone. *)
Definition postpone (msu : SS7MSU) (label : SS7Label) (txSls : Z)
    (interval global : Z) (when : Z) : M bool :=
  sent <- (if interval =? 0 then ret true
           else r <- transmitMSU msu label txSls ;; ret (r >=? 0)) ;;
  if sent then
    l <- get_pending ;;
    set_pending
      (SignallingMessageTimerList.add
         (Pending msu label txSls (Timer interval 0) (Timer global 0)) when l) ;;;
    ret true
  else ret false.

(** [msu.getData(label.length() + 1 + offs, len)] on the payload: the
    bytes from [offs], provided [len] of them are there. *)
Definition payload_data (msu : SS7MSU) (offs len : Z) : option (list Z) :=
  if offs + len <=? Z.of_nat (List.length (msu_payload msu))
  then Some (drop (Z.to_nat offs) (msu_payload msu))
  else None.

(** SS7Management::timeout(msu,label,txSls,final). *)
Definition timeout (msu : SS7MSU) (label : SS7Label) (txSls : Z) (final : bool)
  : M bool :=
  if negb final then ret true
  else
    match payload_data msu 0 1 with
    | None => ret false
    | Some buf =>
        let b := nth 0 buf 0 in
        (if (b =? COO) || (b =? XCO) || (b =? ECO) then
           inhibit label Inactive 0 ;;; ret tt
         else if b =? ECA then
           transmitMSU msu label txSls ;;; ret tt
         else if b =? CBD then
           inhibit label 0 Inactive ;;; ret tt
         else ret tt) ;;;
        ret true
    end.

(** The test of timerTick for the last timeout of a message: its global
    timer is not running, or it expired. *)
Definition final_due (when : Z) (msg : SnmPending) : bool :=
  negb (SignallingTimer.started (pend_global msg))
  || SignallingTimer.timeout when (pend_global msg).

(** The loop of SS7Management::timerTick.  A message that is queued
    again fires after [when], so every turn removes an expired message
    for good; [fuel] bounds the number of turns. *)
Fixpoint timerTick_loop (fuel : nat) (when : Z) : M bool :=
  match fuel with
  | O => ret false
  | S fuel' =>
      l <- get_pending ;;
      match SignallingMessageTimerList.timeout when l with
      | None => ret true
      | Some (msg, rest) =>
          set_pending rest ;;;
          (if final_due when msg then
             timeout (pend_msu msg) (pend_label msg) (pend_txSls msg) true ;;; ret tt
           else
             again <- timeout (pend_msu msg) (pend_label msg) (pend_txSls msg) false ;;
             if again then
               transmitMSU (pend_msu msg) (pend_label msg) (pend_txSls msg) ;;;
               l' <- get_pending ;;
               set_pending (SignallingMessageTimerList.add msg when l')
             else ret tt) ;;;
          timerTick_loop fuel' when
      end
  end.

(** SS7Management::timerTick; the flag tells that the loop ran to its
    end within the fuel. *)
Definition timerTick (when : Z) : M bool :=
  l <- get_pending ;;
  timerTick_loop (S (List.length l)) when.

(** SS7MsgSNM::parse for the families and types whose payload the code
    reads: [buf] is the payload after the heading code.  There is no
    message for a family without a name. *)
Definition parse (type : Z) (pcType : PCType) (buf : list Z) : option SS7MsgSNM :=
  if decide (pcType = Other) then None
  else
    let len := Z.of_nat (List.length buf) in
    let b0 := nth 0 buf 0 in
    let b1 := nth 1 buf 0 in
    let number :=
      match pcType with
      | ITU => if len >=? 1 then Some b0 else None
      | ANSI =>
          if len >=? 2 then Some (Z.lor (Z.shiftr b0 4) (Z.shiftl b1 4)) else None
      | _ => None
      end in
    let slc :=
      match pcType with
      | ANSI => if len >=? 2 then Some (Z.land b0 0x0f) else None
      | _ => None
      end in
    if len =? 0 then Some (MsgSNM type None None None)
    else if (type =? TFP) || (type =? TFR) || (type =? TFA) then
      Some (MsgSNM type None None None)
    else if (type =? COO) || (type =? COA) then Some (MsgSNM type number slc None)
    else if (type =? CBD) || (type =? CBA) then Some (MsgSNM type None slc number)
    else Some (MsgSNM type None None None).

(** [SS7Label(label,sls,spare)]: the label of the answer, origin and
    destination swapped. *)
Definition reversed (label : SS7Label) (sls spare : Z) : SS7Label :=
  Label (lbl_type label) (lbl_opc label) (lbl_dpc label) sls spare.

(** SnmPending::matches. *)
Definition matches (p : SnmPending) (lbl : SS7Label) : bool :=
  (lbl_opc (pend_label p) =? lbl_dpc lbl)
  && (lbl_dpc (pend_label p) =? lbl_opc lbl)
  && (lbl_sls (pend_label p) =? lbl_sls lbl).

(** The total length of an MSU: SIO, label and payload. *)
Definition msu_length (msu : SS7MSU) : Z :=
  1 + env_label_length (lbl_type (msu_label msu))
  + Z.of_nat (List.length (msu_payload msu)).

(** The scan of the pending list on COA, XCA or ECA: the first pending
    changeover order for the label, and the list without it. *)
Fixpoint take_changeover (len : Z) (label : SS7Label) (l : list SnmPending)
  : option SnmPending * list SnmPending :=
  match l with
  | [] => (None, [])
  | p :: rest =>
      let skip :=
        let '(found, rest') := take_changeover len label rest in
        (found, p :: rest') in
      match payload_data (pend_msu p) 0 (len + 1) with
      | Some ptr =>
          if matches p label then
            let b := nth 0 ptr 0 in
            if (b =? COO) || (b =? XCO) || (b =? ECO) then (Some p, rest) else skip
          else skip
      | None => skip
      end
  end.

(** The scan of the pending list on CBA: the first pending changeback
    declaration with the same length, code bytes and label. *)
Fixpoint take_changeback (msu : SS7MSU) (len : Z) (label : SS7Label)
    (l : list SnmPending) : option SnmPending * list SnmPending :=
  match l with
  | [] => (None, [])
  | p :: rest =>
      let skip :=
        let '(found, rest') := take_changeback msu len label rest in
        (found, p :: rest') in
      if negb (msu_length (pend_msu p) =? msu_length msu) then skip
      else
        match payload_data (pend_msu p) 0 (len + 1) with
        | Some ptr =>
            if negb (nth 0 ptr 0 =? CBD) then skip
            else if negb (bool_decide
                            (take (Z.to_nat len) (drop 1 ptr)
                             = take (Z.to_nat len) (drop 1 (msu_payload msu))))
                    || negb (matches p label) then skip
            else (Some p, rest)
        | None => skip
        end
  end.

(** The payload of the answer to a changeover order: COA and the
    sequence number, in the layout of the family. *)
Definition changeover_ack (type : PCType) (slc seq : Z) : option (list Z) :=
  match type with
  | ITU => Some [COA; to_uint8 seq]
  | ANSI =>
      Some [COA; to_uint8 (Z.lor (Z.land slc 0x0f) (Z.shiftl seq 4));
            to_uint8 (Z.shiftr seq 4)]
  | _ => None
  end.

(** The calls that recover the MSUs in flight, made when the message
    carried a sequence number. *)
Definition recovered (lbl : SS7Label) (msg : SS7MsgSNM) : list MgmtEvent :=
  match msg_sequence msg with
  | Some seq => if seq >=? 0 then [EvRecover lbl seq] else []
  | None => []
  end.

(** The changeover branch of SS7Management::receivedMSU, once the
    payload was found to be there: what is done on COO, XCO or ECO. *)
Definition changeover_order (msu : SS7MSU) (label : SS7Label) (sls when : Z)
    (msg : SS7MsgSNM) : M (option HandledMSU) :=
  let lbl := reversed label (lbl_sls label) 0 in
  ok <- inhibit lbl Inactive 0 ;;
  if ok then
    (match msg_sequence msg with
     | Some seq => if seq >=? 0 then recover lbl seq else ret tt
     | None => ret tt
     end) ;;;
    seq <- getSequence lbl ;;
    if seq >=? 0 then
      match changeover_ack (lbl_type label) (default sls (msg_slc msg)) seq with
      | Some data =>
          r <- transmitMSU (MSU (msu_sio msu) lbl data) lbl sls ;;
          ret (Some (HandledMSU_of_bool (r >=? 0)))
      | None => ret (Some Failure)
      end
    else
      b <- postpone (MSU (msu_sio msu) lbl [ECA]) lbl sls 0 200 when ;;
      ret (Some (HandledMSU_of_bool b))
  else ret (Some Accepted).

(** SS7Management::receivedMSU.  [network] is the network the MSU came
    from, with its address; [when] is the time of the call.  The result
    is [None] where the code dereferences a null network.  The branches
    for TFP, TFR, TFA, TRA and UPU hand the message to the control
    interface of the router, which is outside these files: they are
    recorded as one event. *)
Definition receivedMSU (msu : SS7MSU) (label : SS7Label)
    (network : option (L3Pointer * SS7Layer3)) (sls : Z) (when : Z)
  : M (option HandledMSU) :=
  fun s =>
  let foreign :=
    match network with
    | Some (_, l3) =>
        let local := l3_getLocal l3 (lbl_type label) in
        negb (local =? 0) && negb (lbl_dpc label =? local)
    | None => false
    end in
  if negb (getSIF msu =? m_sif s) then (Some Rejected, s)
  else if foreign then (Some Rejected, s)
  else if bool_decide (is_Some env_router) && bool_decide (network = None)
  then (None, s)
  else
    let len := Z.of_nat (List.length (msu_payload msu)) in
    match payload_data msu 0 1 with
    | None => (Some Failure, s)
    | Some buf =>
        match parse (nth 0 buf 0) (lbl_type label) (drop 1 buf) with
        | None => (Some Failure, s)
        | Some msg =>
            let type := msg_type msg in
            let lbl := reversed label (lbl_sls label) 0 in
            let answer (c : M bool) : M (option HandledMSU) :=
              b <- c ;; ret (Some (HandledMSU_of_bool b)) in
            let done : M (option HandledMSU) := ret (Some Accepted) in
            (if (type =? TFP) || (type =? TFR) || (type =? TFA) then
               emit (EvControl type) ;;; done
             else if type =? TRA then
               emit (EvControl type) ;;; done
             else if (type =? COO) || (type =? XCO) || (type =? ECO) then
               if len =? 0 then ret (Some Failure)
               else
                 match payload_data msu 1 (len - 1) with
                 | None => ret (Some Failure)
                 | Some _ => changeover_order msu label sls when msg
                 end
             else if (type =? COA) || (type =? XCA) || (type =? ECA) then
               if len =? 0 then ret (Some Failure)
               else
                 l <- get_pending ;;
                 let '(pend, l') := take_changeover (len - 1) label l in
                 set_pending l' ;;;
                 match pend with
                 | Some pend =>
                     inhibit (pend_label pend) Inactive 0 ;;;
                     (match msg_sequence msg with
                      | Some seq =>
                          if seq >=? 0 then recover (pend_label pend) seq else ret tt
                      | None => ret tt
                      end) ;;;
                     done
                 | None => done
                 end
             else if type =? CBD then
               if len =? 0 then ret (Some Failure)
               else
                 match payload_data msu 1 (len - 1) with
                 | None => ret (Some Failure)
                 | Some code =>
                     ok <- inhibit lbl 0 Inactive ;;
                     if ok then
                       answer (r <- transmitMSU (MSU (msu_sio msu) lbl (CBA :: code)) lbl sls ;;
                               ret (r >=? 0))
                     else done
                 end
             else if type =? CBA then
               if len =? 0 then ret (Some Failure)
               else
                 l <- get_pending ;;
                 let '(pend, l') := take_changeback msu (len - 1) label l in
                 set_pending l' ;;;
                 match pend with
                 | Some pend => inhibit (pend_label pend) 0 Inactive ;;; done
                 | None => done
                 end
             else if type =? LIN then
               match env_router with
               | Some _ =>
                   emit (EvInhibit lbl Remote 0 true) ;;;
                   let data := if env_inhibit lbl Remote 0 true then LIA else LID in
                   answer (r <- transmitMSU (MSU (msu_sio msu) lbl [data]) lbl sls ;;
                           ret (r >=? 0))
               | None => done
               end
             else if (type =? LUN) || (type =? LFU) then
               match env_router with
               | Some _ =>
                   emit (EvInhibit lbl 0 Remote false) ;;;
                   if env_inhibit lbl 0 Remote false then
                     answer (r <- transmitMSU (MSU (msu_sio msu) lbl [LUA]) lbl sls ;;
                             ret (r >=? 0))
                   else done
               | None => done
               end
             else if type =? UPU then
               emit (EvControl type) ;;; done
             else done) s
        end
    end.

End Management.

End SS7Management.


(** ** SS7Maintenance *)

(** Modelled from the spec: the values of the enum SS7MsgMTN::Type
    (yatesig.h) are not among the sources; section 4.5 names the two
    messages of the signalling link test.  The code only compares them
    and stores them in the first payload byte, so they are parameters. *)
Class MtnCodes : Type := {
  SLTM : Z;
  SLTA : Z
}.

(** The heading codes of Q.707. *)
Definition q707_codes : MtnCodes := {| SLTM := 0x11; SLTA := 0x21 |}.

Module SS7Maintenance.

Section Maintenance.
Context `{Services} `{MtnCodes} `{ManagementEnv}.

(** SS7Maintenance::receivedMSU.  [sif] is the service indicator of the
    entity; the result comes with the calls of SS7Layer4::transmitMSU
    made.  A [bool] returned where a HandledMSU is expected is Accepted
    or Failure. *)
Definition receivedMSU (sif : Z) (msu : SS7MSU) (label : SS7Label)
    (network : option (L3Pointer * SS7Layer3)) (sls : Z)
  : HandledMSU * list MgmtEvent :=
  let foreign :=
    match network with
    | Some (_, l3) =>
        let local := l3_getLocal l3 (lbl_type label) in
        negb (local =? 0) && negb (lbl_dpc label =? local)
    | None => false
    end in
  if negb (getSIF msu =? sif) && negb (getSIF msu =? MTNS) then (Rejected, [])
  else if foreign then (Rejected, [])
  else
    match SS7Management.payload_data msu 0 2 with
    | None => (Failure, [])
    | Some s =>
        let len := to_uint8 (Z.shiftr (nth 1 s 0) 4) in
        match SS7Management.payload_data msu 2 len with
        | None => (Failure, [])
        | Some t =>
            if nth 0 s 0 =? SLTM then
              let lbl := SS7Management.reversed label (lbl_sls label) 0 in
              let answer :=
                MSU (msu_sio msu) lbl
                  (SLTA :: to_uint8 (Z.shiftl len 4) :: take (Z.to_nat len) t) in
              (HandledMSU_of_bool (env_transmitMSU answer lbl (lbl_sls lbl) >=? 0),
               [EvTransmit answer lbl (lbl_sls lbl)])
            else if nth 0 s 0 =? SLTA then (Accepted, [])
            else (Failure, [])
        end
    end.

End Maintenance.

End SS7Maintenance.

(** ** Values the properties of the router are stated on *)

(** Two neighbours in a list are both not zero. *)
Fixpoint neighbours_set (l : list Z) : bool :=
  match l with
  | x :: ((y :: _) as l') => (negb (x =? 0) && negb (y =? 0)) || neighbours_set l'
  | _ => false
  end.

(** * The scenarios of the specification, for concrete evaluation *)

Module Scenario.

(** The packed ITU point codes 1-2-3, 5-5-5 and 3-4-5. *)
Definition pc_1_2_3 : Z := 2067.
Definition pc_5_5_5 : Z := 10285.
Definition pc_3_4_5 : Z := 6181.

Definition itu (routes : list SS7Route) : PCType -> list SS7Route :=
  fun t => if decide (t = ITU) then routes else [].

(** Network N: operational, adjacent to 5-5-5, queues every MSU on the
    link that was asked for. *)
Definition N : SS7Layer3 :=
  Layer3 (fun _ => true) (fun _ => 0)
    (itu [Route pc_5_5_5 0 (@Allowed yatesig_states) 0 []])
    (fun _ _ sls => sls).

(** Network M: operational, adjacent to 3-4-5, refuses every MSU. *)
Definition M : SS7Layer3 :=
  Layer3 (fun _ => true) (fun _ => 0)
    (itu [Route pc_3_4_5 0 (@Allowed yatesig_states) 0 []])
    (fun _ _ _ => -1).

(** N lives at address 0 and M at address 1. *)
Definition nets : gmap L3Pointer SS7Layer3 := <[0%nat := N]> (<[1%nat := M]> ∅).

Definition route_5_5_5 : SS7Route :=
  Route pc_5_5_5 0 (@Allowed yatesig_states) 0 [Some 0%nat].

(** "STP forward": transfer=yes, local=ITU,1-2-3, a route to 5-5-5 via N,
    one user part, restart completed. *)
Definition stp : SS7Router :=
  Router 0 true false true (Timer 1000 0) true true 0 0 0
    [0%nat; 1%nat] [Some 0%nat]
    (fun t => if decide (t = ITU) then pc_1_2_3 else 0)
    (itu [route_5_5_5]).

(** The same node with transfer=no. *)
Definition sn : SS7Router :=
  Router 0 false false true (Timer 1000 0) true true 0 0 0
    [0%nat; 1%nat] [Some 0%nat]
    (fun t => if decide (t = ITU) then pc_1_2_3 else 0)
    (itu [route_5_5_5]).

(** Network L: operational, adjacent to 5-5-5 and with a route of
    priority 10 to 7-7-7, which it knows as Allowed. *)
Definition pc_7_7_7 : Z := 14399.

Definition L : SS7Layer3 :=
  Layer3 (fun _ => true) (fun _ => 0)
    (itu [Route pc_5_5_5 0 (@Allowed yatesig_states) 0 [];
          Route pc_7_7_7 10 (@Allowed yatesig_states) 0 []])
    (fun _ _ sls => sls).

Definition route_7_7_7 : SS7Route :=
  Route pc_7_7_7 10 (@Allowed yatesig_states) 0 [Some 2%nat].

(** A node that reaches 7-7-7 through L, which lives at address 2. *)
Definition via_L : Engine :=
  MkEngine
    (Router 0 true false true (Timer 1000 0) true true 0 0 0
       [2%nat] [Some 0%nat]
       (fun t => if decide (t = ITU) then pc_1_2_3 else 0)
       (itu [route_7_7_7]))
    (<[2%nat := L]> ∅).

(** The management entity of the node 1-2-3, attached to a router at
    address 9; the surroundings differ in what the router answers. *)
Definition surroundings (inhibit : bool) (sequence : Z) (transmit : Z)
  : ManagementEnv :=
  {| env_router := Some 9%nat;
     env_inhibit := fun _ _ _ _ => inhibit;
     env_getSequence := fun _ => sequence;
     env_transmitMSU := fun _ _ _ => transmit;
     env_label_length := fun t => match t with ITU => 4 | _ => 7 end |}.

(** The router refuses to inhibit the link. *)
Definition refusing : ManagementEnv := surroundings false 17 3.
(** The router inhibits and reports the send sequence 17. *)
Definition with_sequence : ManagementEnv := surroundings true 17 3.
(** The router inhibits and has no sequence to report. *)
Definition without_sequence : ManagementEnv := surroundings true (-1) 3.
(** The network below refuses every MSU. *)
Definition link_down : ManagementEnv := surroundings true 17 (-1).
(** The management entity is attached to no router; nothing is asked of
    the answers below. *)
Definition unattached : ManagementEnv :=
  {| env_router := None;
     env_inhibit := fun _ _ _ _ => true;
     env_getSequence := fun _ => 17;
     env_transmitMSU := fun _ _ _ => 3;
     env_label_length := fun t => match t with ITU => 4 | _ => 7 end |}.

(** "Changeover": a COO with sequence 42 from 5-5-5 on link 3. *)
Definition label_from_5_5_5 : SS7Label := Label ITU pc_1_2_3 pc_5_5_5 3 0.
Definition coo_42 : SS7MSU := MSU 0x80 label_from_5_5_5 [0x11; 42].
Definition idle : Management := Mgmt 0 [] [].

(** A changeback declaration to 5-5-5 on link 3, to be postponed. *)
Definition label_to_5_5_5_link3 : SS7Label := Label ITU pc_5_5_5 pc_1_2_3 3 0.
Definition cbd_7 : SS7MSU := MSU 0x80 label_to_5_5_5_link3 [0x51; 7].

(** 5-5-5 reports the state of 7-7-7 to that node: Unknown, and
    Prohibited. *)
Definition report_unknown : bool * Engine * list SS7Router.RouterEvent :=
  @SS7Router.setRouteSpecificState yatesig_states ITU pc_7_7_7 pc_5_5_5
    (@Unknown yatesig_states) via_L.

Definition report_prohibited : bool * Engine * list SS7Router.RouterEvent :=
  @SS7Router.setRouteSpecificState yatesig_states ITU pc_7_7_7 pc_5_5_5
    (@Prohibited yatesig_states) via_L.

(** The changeback declaration is postponed at 5000 ms with an interval
    of 1000 ms and a global time of 2000 ms; then the timer ticks at
    6001 ms and at 7001 ms. *)
Definition postponed : Management :=
  (@SS7Management.postpone with_sequence cbd_7 label_to_5_5_5_link3 3 1000 2000 5000
     idle).2.

Definition ticked_6001 : Management :=
  (@SS7Management.timerTick q704_codes with_sequence 6001 postponed).2.

Definition ticked_7001 : Management :=
  (@SS7Management.timerTick q704_codes with_sequence 7001 ticked_6001).2.

(** A user part that rejects everything and leaves the engine alone. *)
Definition rejecting : UserParts :=
  {| l4_receivedMSU := fun _ _ _ _ _ e => (Rejected, e) |}.

(** An ISUP MSU (service indicator 5) from 3-4-5 to 5-5-5. *)
Definition label_to_5_5_5 : SS7Label := Label ITU pc_5_5_5 pc_3_4_5 3 0.
Definition isup_to_5_5_5 : SS7MSU := MSU 0x85 label_to_5_5_5 [0x01; 0x00].

(** Network K: operational, with a route of priority 20 to 7-7-7. *)
Definition K : SS7Layer3 :=
  Layer3 (fun _ => true) (fun _ => 0)
    (itu [Route pc_7_7_7 20 (@Allowed yatesig_states) 0 []])
    (fun _ _ sls => sls).

(** L lives at address 2 and K at address 3. *)
Definition nets_7_7_7 : gmap L3Pointer SS7Layer3 :=
  <[2%nat := L]> (<[3%nat := K]> ∅).

(** Network D, at address 4: operational, with a route of priority 10
    to 7-7-7, and refusing every MSU. *)
Definition D : SS7Layer3 :=
  Layer3 (fun _ => true) (fun _ => 0)
    (itu [Route pc_7_7_7 10 (@Allowed yatesig_states) 0 []])
    (fun _ _ _ => -1).

Definition nets_7_7_7_D : gmap L3Pointer SS7Layer3 := <[4%nat := D]> nets_7_7_7.

(** The route to 7-7-7 through D and then K. *)
Definition route_7_7_7_D_K : SS7Route :=
  Route pc_7_7_7 10 (@Allowed yatesig_states) 0 [Some 4%nat; Some 3%nat].

(** An ISUP MSU from 3-4-5 to 7-7-7. *)
Definition label_to_7_7_7 : SS7Label := Label ITU pc_7_7_7 pc_3_4_5 3 0.
Definition isup_to_7_7_7 : SS7MSU := MSU 0x85 label_to_7_7_7 [0x01; 0x00].

(** The route to 7-7-7 while only K is attached. *)
Definition route_7_7_7_via_K : SS7Route :=
  Route pc_7_7_7 20 (@Allowed yatesig_states) 0 [Some 3%nat].

(** The STP once 5-5-5 is known as prohibited. *)
Definition stp_prohibited : Engine :=
  MkEngine
    (Router 0 true false true (Timer 1000 0) true true 0 0 0
       [0%nat; 1%nat] [Some 0%nat]
       (fun t => if decide (t = ITU) then pc_1_2_3 else 0)
       (itu [Route pc_5_5_5 0 (@Prohibited yatesig_states) 0 [Some 0%nat]]))
    nets.

(** The acknowledgement of the changeback declaration, a changeover
    order to 5-5-5 with its acknowledgement, and a link inhibit request,
    the answers coming from 5-5-5 on link 3. *)
Definition cba_7 : SS7MSU := MSU 0x80 label_from_5_5_5 [0x61; 7].
Definition coo_to_5_5_5 : SS7MSU := MSU 0x80 label_to_5_5_5_link3 [0x11; 42].
Definition lin : SS7MSU := MSU 0x80 label_from_5_5_5 [0x16].

(** A signalling link test message from 5-5-5: a pattern of two bytes,
    spare bits in the length byte, and one byte after the pattern. *)
Definition sltm : SS7MSU := MSU 0x81 label_from_5_5_5 [0x11; 0x2f; 0xAA; 0xBB; 0xCC].

End Scenario.

(** * The statements of the specification that the code does not meet *)

Module Spec.

(** "No bytes are consumed on error": whenever the decoder returns a
    negative code, the block is as it was. *)
Definition no_bytes_consumed_on_error {A : Type}
    (decode : DataBlock -> ASNLib.decoded A) : Prop :=
  forall data : DataBlock,
    ASNLib.code (decode data) < 0 -> ASNLib.rest (decode data) = data.

(** The greatest of a list of states, if there is one. *)
Definition max_state (sts : list Z) : option Z :=
  match sts with
  | [] => None
  | st :: sts => Some (foldr Z.max st sts)
  end.

(** The sub-states, after the call, of the networks of the route whose
    link is operational. *)
Definition operational_substates (type : PCType) (packedPC : Z)
    (nets : gmap L3Pointer SS7Layer3) (nl : list (option L3Pointer)) : list Z :=
  omap (fun p : option L3Pointer =>
          q ← p; l3 ← nets !! q;
          if l3_operational l3 (-1) then SS7Router.substate type packedPC nets q
          else None) nl.

(** Claim C3 as it is written, for a call that finds [route]: sub-states
    change only on networks whose priority toward [srcPC] is zero, the
    state of the route becomes the maximum sub-state among the
    operational networks, and routeChanged is called exactly when that
    differs from the previous state of the route. *)
Definition aggregate_is_maximum `{RouteStates} (type : PCType)
    (packedPC srcPC state : Z) (e : Engine) (route : SS7Route) : Prop :=
  let call := SS7Router.setRouteSpecificState type packedPC srcPC state e in
  let e' := call.1.2 in
  let aggregate :=
    max_state (operational_substates type packedPC (networks e') (m_networks route)) in
  (forall q l3,
     networks e !! q = Some l3 ->
     SS7Router.substate type packedPC (networks e') q
       <> SS7Router.substate type packedPC (networks e) q ->
     Layer3.getRoutePriority type srcPC l3 = 0)
  /\ m_state <$> Layer3.findRoute type packedPC (m_route (router e')) = aggregate
  /\ (call.2 <> [] <-> aggregate <> Some (m_state route)).

(** Claim C5 as it is written, for postpone: with a non-zero interval
    the MSU is transmitted once and is queued with the two deadlines. *)
Definition postpone_transmits_and_queues `{SnmCodes} `{ManagementEnv}
    (msu : SS7MSU) (label : SS7Label) (txSls interval global when : Z)
    (s : Management) : Prop :=
  0 < interval ->
  let s' := (SS7Management.postpone msu label txSls interval global when s).2 in
  m_trace s' = m_trace s ++ [EvTransmit msu label txSls]
  /\ exists p,
      p ∈ m_pending s' /\ pend_msu p = msu
      /\ t_interval (pend_timer p) = interval
      /\ t_interval (pend_global p) = global.

(** Claim C4 as it is written, for a received changeover order: the link
    of the reversed label is inhibited, and then a COA carrying the
    sequence of the router is transmitted when the router reports one, or
    else an ECA is postponed with the deadline of 200 ms. *)
Definition changeover_answered `{SnmCodes} `{ManagementEnv}
    (msu : SS7MSU) (label : SS7Label) (network : option (L3Pointer * SS7Layer3))
    (sls when : Z) (s : Management) : Prop :=
  let s' := (SS7Management.receivedMSU msu label network sls when s).2 in
  let lbl := SS7Management.reversed label (lbl_sls label) 0 in
  EvInhibit lbl Inactive 0 false ∈ m_trace s'
  /\ (if env_getSequence lbl >=? 0
      then exists data,
          EvTransmit (MSU (msu_sio msu) lbl (COA :: data)) lbl sls ∈ m_trace s'
      else exists p,
          p ∈ m_pending s' /\ pend_msu p = MSU (msu_sio msu) lbl [ECA]
          /\ t_interval (pend_global p) = 200).

End Spec.

(** * Properties of the BER codec *)

Section ASNLibFacts.
Import ASNLib.

(** [cut] never makes a block longer. *)
Lemma cut_length (len : Z) (d : DataBlock) :
  DataBlock.length (DataBlock.cut len d) <= DataBlock.length d.
Proof.
  unfold DataBlock.cut, DataBlock.length.
  repeat case_match; simpl; rewrite ?length_drop, ?length_take; lia.
Qed.

(** Cutting [n] leading bytes of a longer block drops them. *)
Lemma cut_front (n : nat) (d : DataBlock) :
  (0 < n < List.length d)%nat -> DataBlock.cut (- Z.of_nat n) d = drop n d.
Proof.
  intros Hn. unfold DataBlock.cut, DataBlock.length.
  repeat case_match; try lia.
  by rewrite Z.opp_involutive, Nat2Z.id.
Qed.

(** decodeLength never makes the block longer. *)
Lemma decodeLength_length (data : DataBlock) :
  DataBlock.length (decodeLength data).2 <= DataBlock.length data.
Proof.
  unfold decodeLength.
  repeat case_match; simpl; try lia; apply cut_length.
Qed.

(** Claim C8: encodeOID of "1.3.6.1.2.1.1.1.0" produces exactly the
    bytes 06 08 2B 06 01 02 01 01 01 00 - the leading pair 1.3 as the
    single byte 0x2B, the other subidentifiers in base 128 - and decodeOID
    of these bytes returns the dotted text, consuming all of them. *)
Theorem C8_encodeOID_mib2_sysDescr :
  encodeOID "1.3.6.1.2.1.1.1.0" true
    = [0x06; 0x08; 0x2B; 0x06; 0x01; 0x02; 0x01; 0x01; 0x01; 0x00]
  /\ getIds "1.3.6.1.2.1.1.1.0" = [1; 3; 6; 1; 2; 1; 1; 1; 0]
  /\ decodeOID (encodeOID "1.3.6.1.2.1.1.1.0" true) true true
     = Decoded 8 [] (Some "1.3.6.1.2.1.1.1.0"%string).
Proof. repeat apply conj; vm_compute; reflexivity. Qed.

(** The shortcut in general: when the subidentifiers start with 1 and 3,
    the contents start with 0x2B and go on with the bytes of the others. *)
Lemma encodeOID_iso3_prefix (obj : string) (ids : DataBlock) :
  getIds obj = 1 :: 3 :: ids -> encodeOID obj false = 0x2b :: ids.
Proof.
  intros Hids. unfold encodeOID. rewrite Hids.
  destruct ids as [|i ids]; [reflexivity|].
  destruct (Z.eqb_spec (DataBlock.length (1 :: 3 :: i :: ids)) 0) as [E|_].
  { unfold DataBlock.length in E. simpl in E. lia. }
  change ((1 :: 3 :: i :: ids).[0]) with 1.
  assert (H1 : (1 :: 3 :: i :: ids).[1] = 3).
  { unfold DataBlock.index, DataBlock.at_, DataBlock.length.
    simpl List.length.
    destruct (Z.ltb_spec 1 (Z.of_nat (S (S (S (List.length ids)))))); [reflexivity | lia]. }
  rewrite H1. change (-2) with (- Z.of_nat 2).
  rewrite cut_front by (simpl; lia). reflexivity.
Qed.

(** A subidentifier of 128 or more is written in base 128: the loop of
    ASNObjId::toDataBlock puts a byte with the continuation bit 0x80 in
    front of what it has, for each group of seven bits. *)
Lemma toDataBlock_loop_step (n : nat) (val : Z) (db : DataBlock) :
  val <> 0 ->
  toDataBlock_loop (S n) val db
  = toDataBlock_loop n (Z.shiftr val 7)
      (Z.lor (Z.land (to_uint8 val) 0x7f) 0x80 :: db).
Proof.
  intros Hval. simpl. destruct (val =? 0) eqn:E; [lia | reflexivity].
Qed.

(** Case analysis on the integer comparisons of a goal. *)
Ltac zbool :=
  repeat match goal with
    | |- context [?a >? ?b] => rewrite (Z.gtb_ltb a b)
    | |- context [?a >=? ?b] => rewrite (Z.geb_leb a b)
    | |- context [?a <? ?b] => destruct (Z.ltb_spec a b); try lia
    | |- context [?a <=? ?b] => destruct (Z.leb_spec a b); try lia
    | |- context [?a =? ?b] => destruct (Z.eqb_spec a b); try lia
    end.

Lemma length_cons (x : Z) (d : DataBlock) :
  DataBlock.length (x :: d) = 1 + DataBlock.length d.
Proof. unfold DataBlock.length. simpl List.length. lia. Qed.

Lemma length_nonneg (d : DataBlock) : 0 <= DataBlock.length d.
Proof. unfold DataBlock.length. lia. Qed.

Lemma index_head (x : Z) (d : DataBlock) : (x :: d).[0] = x.
Proof.
  unfold DataBlock.index, DataBlock.at_. rewrite length_cons.
  pose proof (length_nonneg d). simpl. zbool; reflexivity.
Qed.

(** [cut(-1)] takes the first byte away. *)
Lemma cut_head (x : Z) (d : DataBlock) : DataBlock.cut (-1) (x :: d) = d.
Proof.
  unfold DataBlock.cut. rewrite length_cons.
  pose proof (length_nonneg d). simpl Z.abs.
  destruct d as [|y d]; [reflexivity|].
  rewrite length_cons in *. pose proof (length_nonneg d).
  zbool; reflexivity.
Qed.

(** The short form of a length: one byte below 128. *)
Lemma decodeLength_short (l : Z) (d : DataBlock) :
  0 <= l < 128 -> decodeLength (l :: d) = (l, d).
Proof.
  intros Hl. unfold decodeLength. rewrite index_head, cut_head.
  unfold to_uint8. rewrite Z.mod_small by lia.
  assert (Hland : Z.land l ASN_LONG_LENGTH = 0).
  { apply Z.bits_inj'. intros n Hn. rewrite Z.land_spec, Z.bits_0.
    destruct (Z.eq_dec n 7) as [->|Hne].
    - replace (Z.testbit l 7) with false; [reflexivity|].
      symmetry. apply Z.bits_above_log2; [lia|].
      destruct (Z.eq_dec l 0) as [->|]; [simpl; lia|].
      apply Z.log2_lt_pow2; lia.
    - replace (Z.testbit ASN_LONG_LENGTH n) with false; [apply andb_false_r|].
      symmetry. change ASN_LONG_LENGTH with (2 ^ 7). apply Z.pow2_bits_false. lia. }
  rewrite Hland. reflexivity.
Qed.

(** The decoder gives back what encodeBoolean wrote, and consumes
    exactly that. *)
Lemma decodeBoolean_encodeBoolean (val : bool) (tail : DataBlock) :
  decodeBoolean (encodeBoolean val true ++ tail) true true
  = Decoded 1 tail (Some val).
Proof.
  unfold encodeBoolean, DataBlock.append, decodeBoolean. simpl app.
  rewrite !length_cons, index_head, cut_head.
  pose proof (length_nonneg tail).
  destruct (Z.ltb_spec (1 + (1 + (1 + DataBlock.length tail))) 2); [lia|].
  change (BOOLEAN =? BOOLEAN) with true. simpl negb. simpl andb. cbv iota.
  rewrite decodeLength_short by lia.
  rewrite length_cons, index_head, cut_head.
  change (to_uint32 1) with 1.
  destruct (Z.ltb_spec 1 0); [lia|].
  rewrite Z.gtb_ltb.
  destruct (Z.ltb_spec (1 + DataBlock.length tail) 1); [lia|].
  destruct val; reflexivity.
Qed.

(** The same for NULL. *)
Lemma decodeNull_encodeNull : decodeNull (encodeNull true) true = Decoded 0 [] (Some tt).
Proof. reflexivity. Qed.

(** No value with the top bit set loses a byte in encodeInteger: the
    loop looks for nine leading bits that read 0 1111 1111, which start
    with a zero. *)
Lemma encodeInteger_strip_negative (intVal : Z) :
  2 ^ 63 <= intVal < 2 ^ 64 -> encodeInteger_strip 8 intVal 8 = 8.
Proof.
  intros Hv. cbn [encodeInteger_strip].
  assert (Hmsb : Z.land (encodeInteger_msb intVal 8) 0x1FF = intVal / 2 ^ 55).
  { unfold encodeInteger_msb, to_uint16.
    change ((8 - 1) * 8 - 1) with 55. rewrite Z.shiftr_div_pow2 by lia.
    change 0x1FF with (Z.ones 9). rewrite Z.land_ones by lia.
    assert (256 <= intVal / 2 ^ 55 < 512).
    { split; [apply Z.div_le_lower_bound | apply Z.div_lt_upper_bound]; lia. }
    rewrite (Z.mod_small _ 65536) by lia. apply Z.mod_small. lia. }
  rewrite Hmsb.
  assert (256 <= intVal / 2 ^ 55).
  { apply Z.div_le_lower_bound; lia. }
  destruct (Z.eqb_spec (intVal / 2 ^ 55) 0); [lia|].
  destruct (Z.eqb_spec (intVal / 2 ^ 55) 255); [lia|].
  reflexivity.
Qed.

(** Claim C7, evaluated on the code: encodeInteger(128) is 02 02 00 80 as
    the claim says, but -1 and -128 keep all eight bytes (02 08 FF .. FF
    and 02 08 FF .. 80) instead of 02 01 FF and 02 01 80, because the
    stripping loop tests the nine leading bits against 0xFF and not
    0x1FF.  Each of the three encodings decodes back to the value. *)
Theorem C7_encodeInteger_keeps_leading_ff :
  encodeInteger (to_uint64 (-1)) true
    = [0x02; 0x08; 0xFF; 0xFF; 0xFF; 0xFF; 0xFF; 0xFF; 0xFF; 0xFF]
  /\ encodeInteger 128 true = [0x02; 0x02; 0x00; 0x80]
  /\ encodeInteger (to_uint64 (-128)) true
     = [0x02; 0x08; 0xFF; 0xFF; 0xFF; 0xFF; 0xFF; 0xFF; 0xFF; 0x80]
  /\ decodeInteger (encodeInteger (to_uint64 (-1)) true) 8 true
     = Decoded 8 [] (Some (to_uint64 (-1)))
  /\ decodeInteger (encodeInteger 128 true) 8 true = Decoded 2 [] (Some 128)
  /\ decodeInteger (encodeInteger (to_uint64 (-128)) true) 8 true
     = Decoded 8 [] (Some (to_uint64 (-128)))
  /\ decodeInteger [0x02; 0x01; 0xFF] 8 true = Decoded 1 [] (Some (to_uint64 (-1)))
  /\ decodeInteger [0x02; 0x01; 0x80] 8 true = Decoded 1 [] (Some (to_uint64 (-128))).
Proof. repeat apply conj; vm_compute; reflexivity. Qed.

(** The same wrong constant strips a leading 0x7F that is followed by a
    set bit, which turns a positive value into a negative one. *)
Lemma encodeInteger_flips_sign :
  encodeInteger 0x7F80 true = [0x02; 0x01; 0x80]
  /\ decodeInteger (encodeInteger 0x7F80 true) 8 true
     = Decoded 1 [] (Some (to_uint64 (-128))).
Proof. split; vm_compute; reflexivity. Qed.

(** A bit string whose length is a multiple of eight gets the count of
    unused bits 8, and eight padding bits. *)
Lemma encodeBitString_unused_8 (val : string) :
  YString.length val mod 8 = 0 ->
  exists bytes, encodeBitString val false = 8 :: bytes.
Proof.
  intros Hlen. unfold encodeBitString. rewrite Hlen.
  eexists. reflexivity.
Qed.

(** Claim C6, evaluated on the code: the eight bits 10101010 are encoded
    as 03 03 08 AA 00, with 8 unused bits, which decodeBitString rejects
    with InvalidLengthOrTag after it consumed the tag and the length; a
    BOOLEAN on the other hand comes back. *)
Theorem C6_bit_string_round_trip_fails :
  encodeBitString "10101010" true = [0x03; 0x03; 0x08; 0xAA; 0x00]
  /\ decodeBitString (encodeBitString "10101010" true) true true
     = Decoded InvalidLengthOrTag [0x08; 0xAA; 0x00] None
  /\ decodeBitString (encodeBitString "" true) true true
     = Decoded InvalidLengthOrTag [0x08; 0x00] None
  /\ decodeBitString (encodeBitString "101" true) true true
     = Decoded 1 [] (Some "101"%string)
  /\ (forall val tail, decodeBoolean (encodeBoolean val true ++ tail) true true
                       = Decoded 1 tail (Some val)).
Proof.
  split; [vm_compute; reflexivity|].
  split; [vm_compute; reflexivity|].
  split; [vm_compute; reflexivity|].
  split; [vm_compute; reflexivity|].
  apply decodeBoolean_encodeBoolean.
Qed.

(** With the tag check on, decodeString rejects every block: no tag
    differs from none of the four string tags. *)
Lemma decodeString_rejects (data : DataBlock) (str type : bool) :
  decodeString data str type true = Decoded InvalidLengthOrTag data None.
Proof.
  unfold decodeString.
  destruct (DataBlock.length data <? 2); [reflexivity|].
  destruct (Z.eqb_spec data.[0] NUMERIC_STR) as [E|]; [|reflexivity].
  rewrite E. reflexivity.
Qed.

(** decodeLength gives the block back when it refuses the first byte. *)
Lemma decodeLength_refused (data : DataBlock) :
  length_refused data = true -> decodeLength data = (InvalidLengthOrTag, data).
Proof.
  unfold length_refused, decodeLength. cbv zeta.
  intros [Hlong Hcount]%andb_true_iff. rewrite Hlong.
  apply orb_true_iff in Hcount as [-> | Hgt]; [reflexivity|].
  rewrite Hgt. by case_match.
Qed.

(** Cutting leading bytes of a block that has some makes it shorter. *)
Lemma cut_front_shorter (n : Z) (d : DataBlock) :
  0 < n -> d <> [] -> DataBlock.length (DataBlock.cut (- n) d) < DataBlock.length d.
Proof.
  intros Hn Hd. unfold DataBlock.cut, DataBlock.length.
  destruct d as [|x d]; [done|].
  repeat case_match; simpl List.length; rewrite ?length_drop; simpl List.length; lia.
Qed.

(** In every other case decodeLength cuts at least the first byte; an
    empty block is always refused. *)
Lemma decodeLength_shorter (data : DataBlock) :
  length_refused data = false ->
  DataBlock.length (decodeLength data).2 < DataBlock.length data.
Proof.
  intros Href.
  assert (Hd : data <> []) by (intros ->; discriminate Href).
  unfold length_refused in Href. unfold decodeLength. cbv zeta in *.
  destruct (negb (Z.land (to_uint8 data.[0]) ASN_LONG_LENGTH =? 0)).
  - simpl in Href. apply orb_false_iff in Href as [-> ->]. cbn [snd].
    replace (- to_uint8 (Z.land (to_uint8 data.[0]) (Z.lnot ASN_LONG_LENGTH)) - 1)
      with (- (to_uint8 (Z.land (to_uint8 data.[0]) (Z.lnot ASN_LONG_LENGTH)) + 1))
      by lia.
    apply cut_front_shorter; [|done].
    unfold to_uint8 at 1.
    pose proof (Z.mod_pos_bound (Z.land (to_uint8 data.[0]) (Z.lnot ASN_LONG_LENGTH)) 256).
    lia.
  - cbn [snd]. by apply (cut_front_shorter 1).
Qed.

(** After the first two tests: the tag is cut when it is checked, the
    length is read, and unless nothing was cut the block is shorter. *)
Lemma framing_shorter (tagCheck : bool) (data data' : DataBlock) (length : Z) :
  2 <= DataBlock.length data ->
  (if tagCheck then true else negb (length_refused data)) = true ->
  decodeLength (if tagCheck then DataBlock.cut (-1) data else data) = (length, data') ->
  DataBlock.length data' < DataBlock.length data.
Proof.
  intros Hlen Hcut E.
  pose proof (decodeLength_length (if tagCheck then DataBlock.cut (-1) data else data))
    as Hle.
  destruct tagCheck.
  - rewrite E in Hle. cbn [snd] in Hle.
    assert (Hd : data <> []).
    { intros ->. unfold DataBlock.length in Hlen. simpl in Hlen. lia. }
    pose proof (cut_front_shorter 1 data eq_refl Hd) as Hs.
    change (- (1)) with (-1) in Hs. lia.
  - apply negb_true_iff in Hcut.
    pose proof (decodeLength_shorter data Hcut) as Hs. rewrite E in Hs. exact Hs.
Qed.

(** The bound of [cut_length] for every cut in the goal. *)
Ltac cut_bounds :=
  repeat match goal with
    | |- context [DataBlock.cut ?n ?d] =>
        lazymatch goal with
        | _ : DataBlock.length (DataBlock.cut n d) <= DataBlock.length d |- _ => fail
        | _ => pose proof (cut_length n d)
        end
    end.

(** A decoder that returns before it cuts gives the block back. *)
Ltac before_cut H :=
  unfold returns_before_cut in H;
  match goal with
  | |- context [DataBlock.length ?d <? 2] =>
      destruct (DataBlock.length d <? 2); [reflexivity|]
  end;
  cbn [orb] in H;
  match goal with
  | |- context [if ?t && _ then _ else _] =>
      destruct t;
      [ cbn [andb]; rewrite H; reflexivity
      | cbn [andb]; cbv iota; rewrite (decodeLength_refused _ H); reflexivity ]
  end.

(** A decoder that went on to cut leaves a shorter block. *)
Ltac after_cut H :=
  unfold returns_before_cut in H;
  let Hlen := fresh "Hlen" in
  apply orb_false_iff in H as [Hlen H];
  rewrite Hlen; apply Z.ltb_ge in Hlen;
  match goal with
  | |- context [if ?t && _ then _ else _] =>
      let E := fresh "E" in
      let Hs := fresh "Hs" in
      destruct t;
      [ rewrite H | ]; cbn [andb]; cbv iota;
      match goal with
      | |- context [decodeLength ?d] =>
          destruct (decodeLength d) as [length data'] eqn:E
      end;
      [ pose proof (framing_shorter true _ _ _ Hlen eq_refl E) as Hs
      | pose proof (framing_shorter false _ _ _ Hlen
                      ltac:(rewrite H; reflexivity) E) as Hs ];
      repeat case_match; cbn [rest]; cut_bounds; lia
  end.

(** The two cases of a statement on what a decoder leaves. *)
Ltac settle :=
  match goal with
  | |- (if ?b then _ else _) =>
      let H := fresh "H" in
      destruct b eqn:H
  end.

(** decodeInteger, and the sized decoders on top of it. *)
Lemma decodeInteger_cut (data : DataBlock) (bytes : Z) (tagCheck : bool) :
  if returns_before_cut (negb (data.[0] =? INTEGER)) data tagCheck
  then decodeInteger data bytes tagCheck = Decoded InvalidLengthOrTag data None
  else DataBlock.length (rest (decodeInteger data bytes tagCheck))
       < DataBlock.length data.
Proof. settle; unfold decodeInteger; [before_cut H | after_cut H]. Qed.

Lemma decodeSized_cut (cast : Z -> Z) (bytes : Z) (data : DataBlock)
    (intVal tagCheck : bool) :
  if returns_before_cut (negb (data.[0] =? INTEGER)) data tagCheck
  then decodeSized cast bytes data intVal tagCheck
       = Decoded (if intVal then InvalidLengthOrTag else InvalidContentsError) data None
  else DataBlock.length (rest (decodeSized cast bytes data intVal tagCheck))
       < DataBlock.length data.
Proof.
  pose proof (decodeInteger_cut data bytes tagCheck) as Hint.
  unfold decodeSized. cbv zeta.
  destruct (returns_before_cut _ data tagCheck).
  - rewrite Hint. by destruct intVal.
  - by destruct intVal.
Qed.

(** Claim C9, the claim as stated refuted: decodeBoolean reads the tag 01
    and the length 02, refuses the length with InvalidLengthOrTag, and
    leaves 00 00 of the block 01 02 00 00. *)
Lemma C9_counterexample_tag_and_length_consumed :
  code (decodeBoolean [0x01; 0x02; 0x00; 0x00] true true) = InvalidLengthOrTag
  /\ rest (decodeBoolean [0x01; 0x02; 0x00; 0x00] true true) = [0x00; 0x00]
  /\ ~ Spec.no_bytes_consumed_on_error (fun data => decodeBoolean data true true).
Proof.
  split; [reflexivity|]. split; [reflexivity|].
  intros Hclaim. specialize (Hclaim [0x01; 0x02; 0x00; 0x00]).
  discriminate Hclaim. reflexivity.
Qed.

(** Claim C9, amended: each of decodeBoolean, decodeInteger, the sized
    decoders decodeUINT8 to decodeINT64, decodeBitString,
    decodeOctetString, decodeOID, decodeReal, decodeString, decodeSequence
    and decodeSet leaves the block unchanged exactly when it returns
    before it has cut anything - the block has fewer than two bytes, or
    the tag is checked and refused (by decodeString with the check:
    always), or the tag is not checked and decodeLength refuses the first
    byte.  decodeNull tests the size of the block only when the tag is
    checked, and decodeLength alone gives the block back exactly when it
    refuses the first byte.  The code is then InvalidLengthOrTag, or
    InvalidContentsError from a sized decoder called with a null pointer.
    In every other case, error or success, the block is strictly shorter
    after the call: what was cut before a later error stays cut. *)
Theorem C9_unchanged_when_rejected_before_cut (data : DataBlock) (out tagCheck : bool) :
  let before (tag : Z) : bool :=
    returns_before_cut (negb (data.[0] =? tag)) data tagCheck in
  let verdict (A : Type) (b : bool) (err : Z) (r : decoded A) : Prop :=
    if b then r = Decoded err data None
    else DataBlock.length (rest r) < DataBlock.length data in
  let framed (b : bool) (r : Z * DataBlock) : Prop :=
    if b then r = (InvalidLengthOrTag, data)
    else DataBlock.length r.2 < DataBlock.length data in
  framed (length_refused data) (decodeLength data)
  /\ verdict bool (before BOOLEAN) InvalidLengthOrTag (decodeBoolean data out tagCheck)
  /\ (forall bytes : Z,
        verdict Z (before INTEGER) InvalidLengthOrTag (decodeInteger data bytes tagCheck))
  /\ Forall (fun decode : DataBlock -> bool -> bool -> decoded Z =>
               verdict Z (before INTEGER)
                 (if out then InvalidLengthOrTag else InvalidContentsError)
                 (decode data out tagCheck))
       [decodeUINT8; decodeUINT16; decodeUINT32; decodeUINT64;
        decodeINT8; decodeINT16; decodeINT32; decodeINT64]
  /\ verdict string (before BIT_STRING) InvalidLengthOrTag
       (decodeBitString data out tagCheck)
  /\ verdict DataBlock (before OCTET_STRING) InvalidLengthOrTag
       (decodeOctetString data out tagCheck)
  /\ verdict string (before OBJECT_ID) InvalidLengthOrTag (decodeOID data out tagCheck)
  /\ verdict unit (before REAL) InvalidLengthOrTag (decodeReal data out tagCheck)
  /\ (forall type : bool,
        verdict (string * option Z)%type (returns_before_cut true data tagCheck)
          InvalidLengthOrTag (decodeString data out type tagCheck))
  /\ framed (before SEQUENCE) (decodeSequence data tagCheck)
  /\ framed (before SET) (decodeSet data tagCheck)
  /\ verdict unit
       (if tagCheck then (DataBlock.length data <? 2) || negb (data.[0] =? NULL_ID)
        else length_refused data)
       InvalidLengthOrTag (decodeNull data tagCheck).
Proof.
  intros before verdict framed. subst before verdict framed. cbv beta.
  repeat apply conj.
  - settle; [by apply decodeLength_refused | by apply decodeLength_shorter].
  - settle; unfold decodeBoolean; [before_cut H | after_cut H].
  - intros bytes. apply decodeInteger_cut.
  - repeat apply Forall_cons_2; [..|apply Forall_nil_2]; apply decodeSized_cut.
  - settle; unfold decodeBitString; [before_cut H | after_cut H].
  - settle; unfold decodeOctetString; [before_cut H | after_cut H].
  - settle; unfold decodeOID; [before_cut H | after_cut H].
  - settle; unfold decodeReal; [before_cut H | after_cut H].
  - intros type. unfold returns_before_cut. destruct tagCheck.
    + rewrite orb_true_r. apply decodeString_rejects.
    + settle; unfold decodeString.
      * destruct (DataBlock.length data <? 2); [reflexivity|].
        cbn [orb andb] in *. cbv iota.
        rewrite (decodeLength_refused _ H). reflexivity.
      * apply orb_false_iff in H as [Hlen H]. rewrite Hlen. apply Z.ltb_ge in Hlen.
        cbn [andb]. cbv iota.
        destruct (decodeLength data) as [length data'] eqn:E.
        pose proof (framing_shorter false _ _ _ Hlen
                      ltac:(rewrite H; reflexivity) E).
        repeat case_match; cbn [rest]; cut_bounds; lia.
  - settle; unfold decodeSequence; [before_cut H|].
    unfold returns_before_cut in H. apply orb_false_iff in H as [Hlen H].
    rewrite Hlen. apply Z.ltb_ge in Hlen.
    destruct tagCheck; [rewrite H|]; cbn [andb]; cbv iota.
    + destruct (decodeLength (DataBlock.cut (-1) data)) as [length data'] eqn:E.
      apply (framing_shorter true _ _ _ Hlen eq_refl E).
    + by apply decodeLength_shorter.
  - settle; unfold decodeSet; [before_cut H|].
    unfold returns_before_cut in H. apply orb_false_iff in H as [Hlen H].
    rewrite Hlen. apply Z.ltb_ge in Hlen.
    destruct tagCheck; [rewrite H|]; cbn [andb]; cbv iota.
    + destruct (decodeLength (DataBlock.cut (-1) data)) as [length data'] eqn:E.
      apply (framing_shorter true _ _ _ Hlen eq_refl E).
    + by apply decodeLength_shorter.
  - unfold decodeNull. destruct tagCheck; cbn [andb]; cbv iota.
    + destruct (DataBlock.length data <? 2) eqn:Hlen; [reflexivity|].
      apply Z.ltb_ge in Hlen. cbn [orb].
      destruct (negb (data.[0] =? NULL_ID)); [reflexivity|].
      destruct (decodeLength (DataBlock.cut (-1) data)) as [length data'] eqn:E.
      pose proof (framing_shorter true _ _ _ Hlen eq_refl E).
      by case_match.
    + settle.
      * rewrite (decodeLength_refused _ H). reflexivity.
      * pose proof (decodeLength_shorter data H) as Hs.
        destruct (decodeLength data) as [length data']. by case_match.
Qed.

(** The amended claim at work: a length announcing nine length bytes, a
    block with the wrong tag and a block of one byte come back as they
    were; the block of the counterexample, and the one byte that
    decodeNull reads as a length without the tag check, do not. *)
Lemma C9_unchanged_when_rejected_before_cut_witness :
  decodeLength [0x89; 0x01] = (InvalidLengthOrTag, [0x89; 0x01])
  /\ decodeBoolean [0x02; 0x01; 0x01] true true
     = Decoded InvalidLengthOrTag [0x02; 0x01; 0x01] None
  /\ decodeUINT8 [0x02] false false = Decoded InvalidContentsError [0x02] None
  /\ DataBlock.length (rest (decodeBoolean [0x01; 0x02; 0x00; 0x00] true true))
     < DataBlock.length [0x01; 0x02; 0x00; 0x00]
  /\ DataBlock.length (rest (decodeNull [0x05] false)) < DataBlock.length [0x05].
Proof.
  repeat apply conj.
  - by destruct (C9_unchanged_when_rejected_before_cut [0x89; 0x01] true true)
      as (H & _).
  - by destruct (C9_unchanged_when_rejected_before_cut [0x02; 0x01; 0x01] true true)
      as (_ & H & _).
  - destruct (C9_unchanged_when_rejected_before_cut [0x02] false false)
      as (_ & _ & _ & H & _).
    apply Forall_cons_1 in H as [H _]. exact H.
  - by destruct (C9_unchanged_when_rejected_before_cut [0x01; 0x02; 0x00; 0x00]
                   true true) as (_ & H & _).
  - by destruct (C9_unchanged_when_rejected_before_cut [0x05] false false)
      as (_ & _ & _ & _ & _ & _ & _ & _ & _ & _ & _ & H).
Defined.

End ASNLibFacts.

(** * Properties of the router *)

Section RouterFacts.
Context `{RouteStates} `{UserParts}.

(** Claim C10: SS7Router::operational(sls) is false whenever the restart
    has not completed or the isolation timer runs, whatever the networks
    say; otherwise it is true exactly when some attached network reports
    operational(sls). *)
Theorem C10_operational_iff (e : Engine) (sls : Z) :
  SS7Router.operational e sls = true
  <-> m_started (router e) = true
      /\ SignallingTimer.started (m_isolate (router e)) = false
      /\ exists (p : L3Pointer) (l3 : SS7Layer3),
           p ∈ m_layer3 (router e) /\ networks e !! p = Some l3
           /\ l3_operational l3 sls = true.
Proof.
  unfold SS7Router.operational.
  destruct (m_started (router e)), (SignallingTimer.started (m_isolate (router e)));
    simpl; try (split; [discriminate | intros (? & ? & _); discriminate]).
  rewrite existsb_exists. split.
  - intros (p & Hin & Hop). do 2 (split; [reflexivity|]).
    destruct (networks e !! p) as [l3|] eqn:E; [|discriminate].
    exists p, l3. by rewrite list_elem_of_In.
  - intros (_ & _ & p & l3 & Hin & Hl3 & Hop).
    exists p. rewrite <- list_elem_of_In. by rewrite Hl3.
Qed.

(** The started STP of the scenario is operational through N, and a
    router whose restart has not completed is not. *)
Lemma C10_operational_iff_witness :
  SS7Router.operational (MkEngine Scenario.stp Scenario.nets) 3 = true.
Proof.
  apply C10_operational_iff.
  split; [reflexivity|]. split; [reflexivity|].
  exists 0%nat, Scenario.N.
  split; [apply list_elem_of_here|]. split; reflexivity.
Defined.

(** routeMSU only moves the counters of the router. *)
Lemma routeMSU_flags msu label network sls states e :
  let e' := (SS7Router.routeMSU msu label network sls states e).1.2 in
  m_sendProhibited (router e') = m_sendProhibited (router e)
  /\ m_transfer (router e') = m_transfer (router e)
  /\ networks e' = networks e.
Proof.
  unfold SS7Router.routeMSU.
  destruct (Layer3.findRoute_states _ _ _ _) as [route|];
    [destruct (SS7Route.transmitMSU _ _ _ _ _ _) as [slsTx tried]|];
    destruct (_ >=? 0); simpl; auto.
Qed.

(** Claim C1: when the scan of the user parts ends without Accepted or
    Failure, no tentative Unequipped or Inaccessible remains and the DPC
    is not local, receivedMSU returns Failure if transfer is off; if it
    is on, it returns Accepted exactly when routeMSU with the SLS of the
    label and NotProhibited is non-negative, and otherwise NoAddress
    when sendProhibited is set and Failure when it is not. *)
Theorem C1_receivedMSU_transit (fuel : nat) (msu : SS7MSU) (label : SS7Label)
    (network : option L3Pointer) (sls : Z) (e e1 : Engine) (ret : HandledMSU) :
  SS7Router.scan fuel (m_layer4 (router e)) Rejected msu label network sls
    (MkEngine (SS7Router.count_rx (router e)) (networks e)) = Some (SS7Router.Scanned ret e1) ->
  ret <> Unequipped -> ret <> Inaccessible ->
  SS7Router.dpc_is_local label network e1 = false ->
  let routed := SS7Router.routeMSU msu label network (lbl_sls label) NotProhibited e1 in
  let result := fst <$> SS7Router.receivedMSU fuel msu label network sls e in
  (m_transfer (router e1) = false -> result = Some Failure)
  /\ (m_transfer (router e1) = true ->
      (result = Some Accepted <-> 0 <= routed.1.1)
      /\ (routed.1.1 < 0 ->
          result = Some (if m_sendProhibited (router e1) then NoAddress else Failure))).
Proof.
  intros Hscan Hu Hi Hlocal routed result.
  unfold result, SS7Router.receivedMSU. simpl router. simpl networks.
  change (m_layer4 (SS7Router.count_rx (router e))) with (m_layer4 (router e)).
  rewrite Hscan. simpl.
  assert (Hafter : SS7Router.after_scan ret msu label network e1
    = if m_transfer (router e1)
      then (if routed.1.1 >=? 0 then Accepted
            else if m_sendProhibited (router routed.1.2) then NoAddress else Failure,
            routed.1.2)
      else (Failure, e1)).
  { unfold SS7Router.after_scan. rewrite Hlocal. fold routed.
    destruct routed as [[slsTx e2] tried]. simpl.
    destruct ret; try contradiction; destruct (m_transfer (router e1));
      try reflexivity; destruct (slsTx >=? 0); reflexivity. }
  rewrite Hafter.
  pose proof (routeMSU_flags msu label network (lbl_sls label) NotProhibited e1)
    as (Hsp & _ & _).
  fold routed in Hsp. rewrite Hsp.
  split; intros Ht; rewrite Ht; [reflexivity|]. simpl.
  destruct (Z.geb_spec routed.1.1 0) as [Hge|Hlt].
  - split; [split; [lia | reflexivity] | lia].
  - split; [|reflexivity].
    split; [|lia]. destruct (m_sendProhibited (router e1)); discriminate.
Qed.

(** With quiet user parts the scan reaches the end of the list, or a
    part that answers Accepted or Failure, within one unit of fuel per
    entry and one more. *)
Lemma scan_terminates (Hquiet : SS7Router.quiet) (l : list (option L4Pointer))
    (ret : HandledMSU) msu label network sls (e : Engine) :
  is_Some (SS7Router.scan (S (List.length l)) l ret msu label network sls e).
Proof.
  revert ret e. induction l as [|[l4|] l IH]; intros ret e.
  - eexists. reflexivity.
  - change (S (List.length (Some l4 :: l))) with (S (S (List.length l))).
    remember (S (List.length l)) as fuel eqn:Hfuel. clear Hfuel.
    cbn [SS7Router.scan].
    pose proof (Hquiet l4 msu label network sls e) as Hq.
    destruct (l4_receivedMSU l4 msu label network sls e) as [handled e'].
    simpl in Hq.
    destruct handled; try (eexists; reflexivity);
      rewrite Hq, Z.eqb_refl; apply IH.
  - change (S (List.length (None :: l))) with (S (S (List.length l))).
    remember (S (List.length l)) as fuel eqn:Hfuel. clear Hfuel.
    cbn [SS7Router.scan]. apply IH.
Qed.

(** SS7Route::transmitMSU does not depend on the network the MSU came
    from. *)
Lemma transmitMSU_source_ignored nets route msu label sls (source : option L3Pointer) :
  SS7Route.transmitMSU nets route msu label sls source
  = SS7Route.transmitMSU nets route msu label sls None.
Proof. reflexivity. Qed.

(** The loop of SS7Route::transmitMSU tries the live networks of the
    iteration in order, stops at the first answer other than -1 and
    returns it; it returns -1 when every one of them answered -1. *)
Lemma transmitMSU_loop_first nets iter msu label sls :
  let ans := SS7Route.answers nets iter msu label sls in
  let r := (SS7Route.transmitMSU_loop nets iter msu label sls).1 in
  let tried := (SS7Route.transmitMSU_loop nets iter msu label sls).2 in
  tried = (take (List.length tried) ans).*1
  /\ (r = -1 -> tried = ans.*1 /\ Forall (fun qa => qa.2 = -1) ans)
  /\ (r <> -1 ->
      exists q pre, tried = pre.*1 ++ [q] /\ ans !! List.length pre = Some (q, r)
                    /\ pre = take (List.length pre) ans
                    /\ Forall (fun qa => qa.2 = -1) pre).
Proof.
  induction iter as [|p iter IH]; simpl.
  - split; [reflexivity|]. split; [intros _; split; [reflexivity | constructor] | lia].
  - unfold SS7Route.answers. cbn [omap list_omap SS7Route.transmitMSU_loop].
    destruct p as [q|]; simpl; [|exact IH].
    destruct (nets !! q) as [l3|] eqn:Hq; simpl; [|exact IH].
    fold (SS7Route.answers nets iter msu label sls).
    destruct (Z.eqb_spec (l3_transmitMSU l3 msu label sls) (-1)) as [Ha|Ha]; simpl.
    + destruct IH as (IH1 & IH2 & IH3).
      destruct (SS7Route.transmitMSU_loop nets iter msu label sls) as [r tried].
      simpl in *. split; [by f_equal|]. split.
      * intros Hr. destruct (IH2 Hr) as [-> Hall]. split; [reflexivity|].
        constructor; [exact Ha | exact Hall].
      * intros Hr. destruct (IH3 Hr) as (q' & pre & -> & Hlook & Hpre & Hall).
        exists q', ((q, l3_transmitMSU l3 msu label sls) :: pre).
        simpl. split; [reflexivity|]. split; [exact Hlook|].
        split; [by f_equal | constructor; [exact Ha | exact Hall]].
    + split; [reflexivity|]. split; [contradiction|].
      intros _. exists q, []. simpl. repeat apply conj; try reflexivity. constructor.
Qed.

(** The iteration starts at the entry [offset mod N] of the list. *)
Lemma ListIterator_head {A : Type} (l : list A) (offset : Z) :
  l <> [] ->
  head (ListIterator l offset) = l !! Z.to_nat (offset mod Z.of_nat (List.length l)).
Proof.
  intros Hl. unfold ListIterator. destruct l as [|x l]; [contradiction|].
  set (k := Z.to_nat (offset mod Z.of_nat (List.length (x :: l)))).
  assert (Hk : (k < List.length (x :: l))%nat).
  { unfold k. pose proof (Z.mod_pos_bound offset (Z.of_nat (List.length (x :: l)))).
    simpl List.length in *. lia. }
  destruct (lookup_lt_is_Some_2 (x :: l) k Hk) as [y Hy].
  rewrite Hy. rewrite (drop_S _ _ _ Hy). reflexivity.
Qed.

(** The iteration visits every entry of the list once. *)
Lemma ListIterator_Permutation {A : Type} (l : list A) (offset : Z) :
  ListIterator l offset ≡ₚ l.
Proof.
  unfold ListIterator. destruct l as [|x l]; [reflexivity|].
  rewrite Permutation_app_comm. by rewrite take_drop.
Qed.

End RouterFacts.

(** ** setRouteSpecificState *)

Section SetRouteSpecificStateFacts.
Context `{RouteStates}.
Variables (type : PCType) (packedPC srcPC state : Z).

Local Abbreviation restate := (Layer3.restate packedPC state).

Lemma find_other_restate (q : Z) (routes : list SS7Route) :
  q <> packedPC ->
  restate <$> List.find (fun r => m_packed r =? q) routes
  = List.find (fun r => m_packed r =? q) routes.
Proof.
  intros Hq. destruct (List.find _ routes) as [r|] eqn:Hfind; [|reflexivity].
  apply find_some in Hfind as [_ Hr]. simpl. unfold Layer3.restate.
  destruct (Z.eqb_spec (m_packed r) packedPC); [lia | reflexivity].
Qed.

(** Looking a destination up after [r->m_state = state]: the same
    route, with the new state if it is the one that was assigned to. *)
Lemma find_update_route (q : Z) (routes : list SS7Route) :
  List.find (fun r => m_packed r =? q) (Layer3.update_route packedPC state routes)
  = restate <$> List.find (fun r => m_packed r =? q) routes.
Proof.
  induction routes as [|r routes IH]; [reflexivity|].
  cbn [Layer3.update_route List.find].
  destruct (Z.eqb_spec (m_packed r) packedPC) as [Hp|Hp].
  - cbn [List.find]. change (m_packed (set_state state r)) with (m_packed r).
    destruct (Z.eqb_spec (m_packed r) q) as [Hq|Hq].
    + simpl. unfold Layer3.restate. by rewrite Hp, Z.eqb_refl.
    + symmetry. apply find_other_restate. congruence.
  - cbn [List.find]. destruct (m_packed r =? q); [|exact IH].
    simpl. unfold Layer3.restate. destruct (Z.eqb_spec (m_packed r) packedPC); done.
Qed.

Lemma findRoute_setRouteState (q : Z) (l3 : SS7Layer3) :
  Layer3.findRoute type q (l3_route (Layer3.setRouteState type packedPC state l3))
  = restate <$> Layer3.findRoute type q (l3_route l3).
Proof.
  unfold Layer3.findRoute, Layer3.setRouteState. cbn [l3_route].
  destruct (decide (type = Other)); [reflexivity|].
  destruct (q =? 0); [reflexivity|].
  destruct (decide (type = type)); [|contradiction].
  apply find_update_route.
Qed.

Lemma getRoutePriority_setRouteState (q : Z) (l3 : SS7Layer3) :
  Layer3.getRoutePriority type q (Layer3.setRouteState type packedPC state l3)
  = Layer3.getRoutePriority type q l3.
Proof.
  unfold Layer3.getRoutePriority. rewrite findRoute_setRouteState.
  destruct (Layer3.findRoute type q (l3_route l3)) as [r|]; [|reflexivity].
  simpl. unfold Layer3.restate. by destruct (m_packed r =? packedPC).
Qed.

Lemma findRoute_packed (q : Z) (routes : PCType -> list SS7Route) (r : SS7Route) :
  Layer3.findRoute type q routes = Some r -> m_packed r = q.
Proof.
  unfold Layer3.findRoute. repeat case_match; try discriminate.
  intros Hfind. apply find_some in Hfind as [_ Hq]. lia.
Qed.

(** The adjacent network stays adjacent when its sub-state is set, and
    the sub-state is the new state. *)
Lemma role_setRouteState (l3 : SS7Layer3) :
  SS7Router.role type packedPC srcPC l3 = Some None ->
  SS7Router.role type packedPC srcPC (Layer3.setRouteState type packedPC state l3)
  = Some None
  /\ m_state <$> Layer3.findRoute type packedPC
                   (l3_route (Layer3.setRouteState type packedPC state l3))
     = Some state.
Proof.
  unfold SS7Router.role.
  rewrite getRoutePriority_setRouteState, findRoute_setRouteState.
  destruct (Layer3.findRoute type packedPC (l3_route l3)) as [r|] eqn:Hr;
    [|discriminate].
  apply findRoute_packed in Hr. simpl.
  destruct (Layer3.getRoutePriority type srcPC l3 =? 0); [|discriminate].
  intros _. split; [reflexivity|]. unfold Layer3.restate. by rewrite Hr, Z.eqb_refl.
Qed.

Lemma substate_lookup (nets : gmap L3Pointer SS7Layer3) (q : L3Pointer)
    (l3 : SS7Layer3) :
  nets !! q = Some l3 ->
  SS7Router.substate type packedPC nets q
  = m_state <$> Layer3.findRoute type packedPC (l3_route l3).
Proof.
  intros Hq. unfold SS7Router.substate. rewrite Hq. simpl.
  by destruct (Layer3.findRoute type packedPC (l3_route l3)).
Qed.

Lemma adjacent_lookup (nets : gmap L3Pointer SS7Layer3) (q : L3Pointer)
    (l3 : SS7Layer3) :
  nets !! q = Some l3 ->
  SS7Router.adjacent type packedPC srcPC nets q
  = bool_decide (SS7Router.role type packedPC srcPC l3 = Some None).
Proof. intros Hq. unfold SS7Router.adjacent. by rewrite Hq. Qed.

(** Setting the sub-state of an adjacent network changes neither who is
    adjacent nor who competes. *)
Lemma adjacent_insert (nets : gmap L3Pointer SS7Layer3) (q : L3Pointer)
    (l3 : SS7Layer3) (q' : L3Pointer) :
  nets !! q = Some l3 -> SS7Router.role type packedPC srcPC l3 = Some None ->
  SS7Router.adjacent type packedPC srcPC
    (<[q := Layer3.setRouteState type packedPC state l3]> nets) q'
  = SS7Router.adjacent type packedPC srcPC nets q'.
Proof.
  intros Hq Hrole. unfold SS7Router.adjacent.
  destruct (decide (q = q')) as [<-|Hne].
  - rewrite lookup_insert_eq, Hq.
    destruct (role_setRouteState l3 Hrole) as [-> _]. by rewrite Hrole.
  - by rewrite lookup_insert_ne.
Qed.

Lemma contenders_insert (nets : gmap L3Pointer SS7Layer3) (q : L3Pointer)
    (l3 : SS7Layer3) (nl : list (option L3Pointer)) :
  nets !! q = Some l3 -> SS7Router.role type packedPC srcPC l3 = Some None ->
  SS7Router.contenders type packedPC srcPC
    (<[q := Layer3.setRouteState type packedPC state l3]> nets) nl
  = SS7Router.contenders type packedPC srcPC nets nl.
Proof.
  intros Hq Hrole. unfold SS7Router.contenders.
  induction nl as [|p nl IH]; [reflexivity|].
  cbn [omap list_omap]. rewrite IH. clear IH.
  destruct p as [q'|]; [|reflexivity]. simpl.
  destruct (decide (q = q')) as [<-|Hne].
  - rewrite lookup_insert_eq, Hq. simpl.
    destruct (role_setRouteState l3 Hrole) as [-> _]. by rewrite Hrole.
  - by rewrite lookup_insert_ne.
Qed.

(** What the loop computes, in terms of the networks it starts from. *)
Lemma setRouteSpecificState_loop_spec (nl : list (option L3Pointer)) :
  forall (best : Z) (ok : bool) (nets : gmap L3Pointer SS7Layer3),
  let res :=
    SS7Router.setRouteSpecificState_loop nl type packedPC srcPC state best ok nets in
  res.1.1 = fold_left SS7Router.better
              (SS7Router.contenders type packedPC srcPC nets nl) best
  /\ res.1.2
     = ok || existsb (fun p : option L3Pointer =>
                        match p with
                        | Some q => SS7Router.adjacent type packedPC srcPC nets q
                        | None => false
                        end) nl
  /\ (forall q, ~ (Some q ∈ nl /\ SS7Router.adjacent type packedPC srcPC nets q = true) ->
                res.2 !! q = nets !! q)
  /\ (forall q, Some q ∈ nl -> SS7Router.adjacent type packedPC srcPC nets q = true ->
                SS7Router.substate type packedPC res.2 q = Some state
                /\ SS7Router.adjacent type packedPC srcPC res.2 q = true).
Proof.
  induction nl as [|p nl IH]; intros best ok nets.
  - simpl. rewrite orb_false_r. repeat apply conj; try reflexivity.
    intros q Hin. by apply elem_of_nil in Hin.
  - cbn [SS7Router.setRouteSpecificState_loop].
    unfold SS7Router.contenders. cbn [omap list_omap existsb].
    fold (SS7Router.contenders type packedPC srcPC nets nl).
    destruct p as [q|]; simpl.
    2:{ specialize (IH best ok nets). destruct IH as (IH1 & IH2 & IH3 & IH4).
        repeat apply conj; [exact IH1 | exact IH2 | |].
        - intros q0 Hq0. apply IH3. intros [Hin Hadj]. apply Hq0.
          split; [by apply elem_of_cons; right | exact Hadj].
        - intros q0 Hin Hadj. apply IH4; [|exact Hadj].
          apply elem_of_cons in Hin as [Heq|Hin]; [discriminate | exact Hin]. }
    unfold SS7Router.adjacent at 1. unfold SS7Router.role.
    destruct (nets !! q) as [l3|] eqn:Hq; simpl.
    2:{ specialize (IH best ok nets). destruct IH as (IH1 & IH2 & IH3 & IH4).
        repeat apply conj; [exact IH1 | exact IH2 | |].
        - intros q0 Hq0. apply IH3. intros [Hin Hadj]. apply Hq0.
          split; [by apply elem_of_cons; right | exact Hadj].
        - intros q0 Hin Hadj. apply IH4; [|exact Hadj].
          apply elem_of_cons in Hin as [Heq|Hin]; [|exact Hin].
          injection Heq as ->. unfold SS7Router.adjacent in Hadj.
          rewrite Hq in Hadj. discriminate. }
    destruct (Layer3.findRoute type packedPC (l3_route l3)) as [r|] eqn:Hr.
    2:{ specialize (IH best ok nets). destruct IH as (IH1 & IH2 & IH3 & IH4).
        repeat apply conj; [exact IH1 | exact IH2 | |].
        - intros q0 Hq0. apply IH3. intros [Hin Hadj]. apply Hq0.
          split; [by apply elem_of_cons; right | exact Hadj].
        - intros q0 Hin Hadj. apply IH4; [|exact Hadj].
          apply elem_of_cons in Hin as [Heq|Hin]; [|exact Hin].
          injection Heq as ->. unfold SS7Router.adjacent, SS7Router.role in Hadj.
          rewrite Hq, Hr in Hadj.
          rewrite bool_decide_eq_false_2 in Hadj by discriminate. discriminate. }
    destruct (Layer3.getRoutePriority type srcPC l3 =? 0) eqn:Hprio; simpl.
    + (* the adjacent network: its sub-state is set *)
      assert (Hrole : SS7Router.role type packedPC srcPC l3 = Some None).
      { unfold SS7Router.role. by rewrite Hr, Hprio. }
      rewrite orb_true_r.
      set (nets1 := <[q := Layer3.setRouteState type packedPC state l3]> nets).
      specialize (IH best true nets1). destruct IH as (IH1 & IH2 & IH3 & IH4).
      unfold nets1 in IH1. rewrite (contenders_insert nets q l3 nl Hq Hrole) in IH1.
      assert (Hadj1 : forall q', SS7Router.adjacent type packedPC srcPC nets1 q'
                                 = SS7Router.adjacent type packedPC srcPC nets q').
      { intros q'. by apply adjacent_insert. }
      assert (Hadjq : SS7Router.adjacent type packedPC srcPC nets q = true).
      { unfold SS7Router.adjacent. rewrite Hq. by apply bool_decide_eq_true_2. }
      repeat apply conj; [exact IH1 | exact IH2 | |].
      * intros q0 Hq0.
        assert (Hne : q <> q0).
        { intros <-. apply Hq0. split; [apply list_elem_of_here | exact Hadjq]. }
        rewrite IH3.
        -- unfold nets1. by rewrite lookup_insert_ne.
        -- intros [Hin Hadj]. apply Hq0. rewrite Hadj1 in Hadj.
           split; [by apply elem_of_cons; right | exact Hadj].
      * intros q0 Hin Hadj.
        destruct (decide (Some q0 ∈ nl)) as [Hin'|Hnin].
        -- apply IH4; [exact Hin' | by rewrite Hadj1].
        -- apply elem_of_cons in Hin as [Heq|Hin]; [|contradiction].
           injection Heq as ->.
           assert (Hsame : (SS7Router.setRouteSpecificState_loop nl type packedPC
                              srcPC state best true nets1).2 !! q = nets1 !! q).
           { apply IH3. intros [Hin _]. contradiction. }
           assert (Hlook : (SS7Router.setRouteSpecificState_loop nl type packedPC
                              srcPC state best true nets1).2 !! q
                           = Some (Layer3.setRouteState type packedPC state l3)).
           { rewrite Hsame. unfold nets1. apply lookup_insert_eq. }
           rewrite (substate_lookup _ _ _ Hlook), (adjacent_lookup _ _ _ Hlook).
           destruct (role_setRouteState l3 Hrole) as [Hrole' Hst].
           split; [exact Hst | by apply bool_decide_eq_true_2].
    + (* a network with a priority: it competes when it is operational *)
      assert (Hnadj : SS7Router.adjacent type packedPC srcPC nets q = false).
      { unfold SS7Router.adjacent, SS7Router.role. rewrite Hq, Hr, Hprio.
        by apply bool_decide_eq_false_2. }
      assert (Hrest : forall best',
        let res := SS7Router.setRouteSpecificState_loop nl type packedPC srcPC
                     state best' ok nets in
        best' = fold_left SS7Router.better
                  (match (if l3_operational l3 (-1) then Some (m_state r) else None) with
                   | Some st => [st] | None => [] end) best ->
        res.1.1 = fold_left SS7Router.better
                    (match (if l3_operational l3 (-1) then Some (m_state r) else None) with
                     | Some st => st :: SS7Router.contenders type packedPC srcPC nets nl
                     | None => SS7Router.contenders type packedPC srcPC nets nl
                     end) best
        /\ res.1.2
           = ok || existsb (fun p : option L3Pointer =>
                              match p with
                              | Some q => SS7Router.adjacent type packedPC srcPC nets q
                              | None => false
                              end) nl
        /\ (forall q0, ~ (Some q0 ∈ Some q :: nl
                          /\ SS7Router.adjacent type packedPC srcPC nets q0 = true) ->
                       res.2 !! q0 = nets !! q0)
        /\ (forall q0, Some q0 ∈ Some q :: nl ->
                       SS7Router.adjacent type packedPC srcPC nets q0 = true ->
                       SS7Router.substate type packedPC res.2 q0 = Some state
                       /\ SS7Router.adjacent type packedPC srcPC res.2 q0 = true)).
      { intros best' res Hbest'. unfold res.
        specialize (IH best' ok nets). destruct IH as (IH1 & IH2 & IH3 & IH4).
        repeat apply conj; [| exact IH2 | |].
        - rewrite IH1, Hbest'. by destruct (l3_operational l3 (-1)).
        - intros q0 Hq0. apply IH3. intros [Hin Hadj]. apply Hq0.
          split; [by apply elem_of_cons; right | exact Hadj].
        - intros q0 Hin Hadj. apply IH4; [|exact Hadj].
          apply elem_of_cons in Hin as [Heq|Hin]; [|exact Hin].
          injection Heq as ->. rewrite Hnadj in Hadj. discriminate. }
      destruct (l3_operational l3 (-1)) eqn:Hop.
      * destruct (Z.land (m_state r) KnownState >? best) eqn:Hcmp; simpl;
          apply Hrest; simpl; unfold SS7Router.better; by rewrite Hcmp.
      * rewrite andb_false_r. apply Hrest. reflexivity.
Qed.

Lemma land_le (x y : Z) : 0 <= x -> Z.land x y <= x.
Proof.
  intros Hx. pose proof (Z.sub_land_same_l x y) as Hsub.
  assert (0 <= Z.land x (Z.lnot y)) by (apply Z.land_nonneg; by left).
  lia.
Qed.

(** The best state is the new state or one of the competing sub-states,
    and no competing sub-state, masked with KnownState, is above it. *)
Lemma best_state_maximal (sts : list Z) (best0 : Z) :
  (forall st, st ∈ sts -> 0 <= st) ->
  let best := SS7Router.best_state best0 sts in
  (best = best0 \/ best ∈ sts)
  /\ best0 <= best
  /\ (forall st, st ∈ sts -> Z.land st KnownState <= best).
Proof.
  unfold SS7Router.best_state. revert best0.
  induction sts as [|st sts IH]; intros best0 Hpos; simpl.
  - split; [by left|]. split; [lia|]. intros st Hin. by apply elem_of_nil in Hin.
  - assert (Hst : 0 <= st) by (apply Hpos, list_elem_of_here).
    destruct (IH (SS7Router.better best0 st)) as (Hmem & Hle & Hmax).
    { intros st' Hin. apply Hpos. by apply elem_of_cons; right. }
    pose proof (land_le st KnownState Hst) as Hland.
    assert (Hstep : best0 <= SS7Router.better best0 st
                    /\ Z.land st KnownState <= SS7Router.better best0 st
                    /\ (SS7Router.better best0 st = best0
                        \/ SS7Router.better best0 st = st)).
    { unfold SS7Router.better. rewrite Z.gtb_ltb.
      destruct (Z.ltb_spec best0 (Z.land st KnownState));
        repeat apply conj; try lia; auto. }
    destruct Hstep as (Hs1 & Hs2 & Hs3).
    split; [|split].
    + destruct Hmem as [Hmem|Hmem].
      * destruct Hs3 as [Hs3|Hs3]; rewrite Hmem, Hs3;
          [by left | right; apply list_elem_of_here].
      * right. by apply elem_of_cons; right.
    + lia.
    + intros st' Hin. apply elem_of_cons in Hin as [->|Hin]; [lia | by apply Hmax].
Qed.

End SetRouteSpecificStateFacts.

(** Claim C3, amended: for a call that finds the route, the sub-state is
    set to the new state on the networks of the route that know the
    destination and have priority zero toward srcPC, and no other network
    is touched; the call succeeds exactly when there is such a network;
    and routeChanged is called exactly when, in addition, the new state
    is not Unknown and the best state differs from the previous state of
    the route - the best state being the new state or a competing
    sub-state (of an operational network with a non-zero priority toward
    srcPC), none of which is above it when masked with KnownState. *)
Theorem C3_setRouteSpecificState_adjacent `{RouteStates} (type : PCType)
    (packedPC srcPC state : Z) (e : Engine) (route : SS7Route) :
  type <> Other -> packedPC <> 0 -> srcPC <> 0 ->
  Layer3.findRoute type packedPC (m_route (router e)) = Some route ->
  (forall st, st ∈ SS7Router.contenders type packedPC srcPC (networks e)
                     (m_networks route) -> 0 <= st) ->
  let call := SS7Router.setRouteSpecificState type packedPC srcPC state e in
  let notified q :=
    Some q ∈ m_networks route
    /\ SS7Router.adjacent type packedPC srcPC (networks e) q = true in
  let sts := SS7Router.contenders type packedPC srcPC (networks e) (m_networks route) in
  let best := SS7Router.best_state state sts in
  (forall q, notified q ->
             SS7Router.substate type packedPC (networks call.1.2) q = Some state)
  /\ (forall q, ~ notified q -> networks call.1.2 !! q = networks e !! q)
  /\ (call.1.1 = true <-> exists q, notified q)
  /\ (call.2 <> [] <->
      (exists q, notified q) /\ best <> m_state route /\ state <> Unknown)
  /\ (best = state \/ best ∈ sts)
  /\ state <= best
  /\ (forall st, st ∈ sts -> Z.land st KnownState <= best).
Proof.
  intros Htype Hpacked Hsrc Hroute Hpos call notified sts best.
  pose proof (setRouteSpecificState_loop_spec type packedPC srcPC state
                (m_networks route) state false (networks e)) as Hloop.
  simpl in Hloop. destruct Hloop as (Hbest & Hok & Hother & Hadj).
  fold sts in Hbest. change (fold_left SS7Router.better sts state) with best in Hbest.
  assert (Hex : existsb (fun p : option L3Pointer =>
                           match p with
                           | Some q => SS7Router.adjacent type packedPC srcPC
                                         (networks e) q
                           | None => false
                           end) (m_networks route) = true
                <-> exists q, notified q).
  { rewrite existsb_exists. split.
    - intros ([q|] & Hin & Hq); [|discriminate].
      exists q. split; [by apply list_elem_of_In | exact Hq].
    - intros (q & Hin & Hq). exists (Some q). split; [by apply list_elem_of_In | exact Hq]. }
  unfold call, SS7Router.setRouteSpecificState.
  rewrite bool_decide_eq_false_2 by exact Htype.
  destruct (Z.eqb_spec packedPC 0) as [|_]; [contradiction|].
  destruct (Z.eqb_spec srcPC 0) as [|_]; [contradiction|].
  simpl orb. cbv iota. rewrite Hroute.
  destruct (SS7Router.setRouteSpecificState_loop (m_networks route) type packedPC
              srcPC state state false (networks e)) as [[best' ok] nets'] eqn:Hrun.
  simpl in Hbest, Hok, Hother, Hadj. subst best'.
  pose proof (best_state_maximal sts state Hpos) as (Hmem & Hle & Hmax).
  fold best in Hmem, Hle, Hmax.
  assert (Hnone : ok = false -> ~ exists q, notified q).
  { intros Hfalse Hq. apply Hex in Hq. rewrite Hq in Hok. congruence. }
  assert (Hsome : ok = true -> exists q, notified q).
  { intros Htrue. apply Hex. by rewrite <- Hok. }
  destruct ok; simpl negb; cbv iota.
  - destruct (Z.eqb_spec best (m_state route)) as [Heq|Hne]; simpl negb; cbv iota;
      simpl; (split; [intros q [Hin Hq]; by apply Hadj|]);
      (split; [exact Hother|]);
      (split; [split; [intros _; by apply Hsome | reflexivity]|]);
      (split; [|by repeat apply conj]).
    + split; [intros Hev; by contradiction Hev | intros (_ & Hb & _); contradiction].
    + destruct (Z.eqb_spec state Unknown) as [Hu|Hu]; simpl.
      * split; [intros Hev; by contradiction Hev | intros (_ & _ & Hs); contradiction].
      * split; [intros _; split; [by apply Hsome | by split] | discriminate].
  - simpl. split; [intros q [Hin Hq]; by apply Hadj|].
    split; [exact Hother|].
    split; [split; [discriminate | intros Hq; by destruct (Hnone eq_refl)]|].
    split; [|by repeat apply conj].
    split; [intros Hev; by contradiction Hev|].
    intros (Hq & _). by destruct (Hnone eq_refl).
Qed.

(** Claim C3, the claim as stated refuted: the node reaches 7-7-7 through
    L, which is operational and adjacent to 5-5-5; the route and L's
    sub-state are Allowed.  When 5-5-5 makes the state Unknown, the
    sub-state of L and the state of the route become Unknown, which is
    the maximum over the operational networks and differs from Allowed,
    and routeChanged is not called. *)
Lemma C3_counterexample_unknown_not_notified :
  Scenario.report_unknown.1.1 = true
  /\ Scenario.report_unknown.2 = []
  /\ Spec.max_state (Spec.operational_substates ITU Scenario.pc_7_7_7
                       (networks Scenario.report_unknown.1.2)
                       (m_networks Scenario.route_7_7_7))
     = Some (@Unknown yatesig_states)
  /\ ~ @Spec.aggregate_is_maximum yatesig_states ITU Scenario.pc_7_7_7
         Scenario.pc_5_5_5 (@Unknown yatesig_states) Scenario.via_L
         Scenario.route_7_7_7.
Proof.
  split; [vm_compute; reflexivity|].
  split; [vm_compute; reflexivity|].
  split; [vm_compute; reflexivity|].
  intros (_ & _ & Hiff).
  assert (Hagg : Spec.max_state
            (Spec.operational_substates ITU Scenario.pc_7_7_7
               (networks (@SS7Router.setRouteSpecificState yatesig_states ITU
                  Scenario.pc_7_7_7 Scenario.pc_5_5_5 (@Unknown yatesig_states)
                  Scenario.via_L).1.2) (m_networks Scenario.route_7_7_7))
          <> Some (m_state Scenario.route_7_7_7)).
  { vm_compute. discriminate. }
  apply Hiff in Hagg. apply Hagg. vm_compute. reflexivity.
Qed.

(** The amended claim at work, on the same node: 5-5-5 reports 7-7-7 as
    Prohibited; the sub-state of L is set and routeChanged is called. *)
Lemma C3_setRouteSpecificState_adjacent_witness :
  SS7Router.substate ITU Scenario.pc_7_7_7
    (networks Scenario.report_prohibited.1.2) 2%nat
    = Some (@Prohibited yatesig_states)
  /\ Scenario.report_prohibited.1.1 = true
  /\ Scenario.report_prohibited.2 <> [].
Proof.
  unfold Scenario.report_prohibited.
  destruct (@C3_setRouteSpecificState_adjacent yatesig_states ITU
              Scenario.pc_7_7_7 Scenario.pc_5_5_5 (@Prohibited yatesig_states)
              Scenario.via_L Scenario.route_7_7_7)
    as (Hsub & _ & Hok & Hev & _).
  - discriminate.
  - discriminate.
  - discriminate.
  - vm_compute. reflexivity.
  - intros st Hin. vm_compute in Hin. by apply elem_of_nil in Hin.
  - assert (Hn : Some 2%nat ∈ m_networks Scenario.route_7_7_7
                 /\ SS7Router.adjacent ITU Scenario.pc_7_7_7 Scenario.pc_5_5_5
                      (networks Scenario.via_L) 2%nat = true).
    { split; [apply list_elem_of_here | vm_compute; reflexivity]. }
    split; [by apply Hsub|]. split; [apply Hok; by exists 2%nat|].
    apply Hev. split; [by exists 2%nat|]. split; vm_compute; discriminate.
Defined.

(** Claim C2, evaluated on the code: SS7Route::transmitMSU never looks at
    [source]; on the route to 5-5-5 through N, an MSU that came in from N
    itself is handed to N again, and N's answer is returned. *)
Theorem C2_transmitMSU_tries_source :
  (forall nets route msu label sls (source : option L3Pointer),
     SS7Route.transmitMSU nets route msu label sls source
     = SS7Route.transmitMSU nets route msu label sls None)
  /\ SS7Route.transmitMSU Scenario.nets Scenario.route_5_5_5
       Scenario.isup_to_5_5_5 Scenario.label_to_5_5_5 3 (Some 0%nat)
     = (3, [0%nat]).
Proof. split; [reflexivity | vm_compute; reflexivity]. Qed.

(** The scenarios "STP forward" and "Unknown DPC, SN mode": the ISUP MSU
    for 5-5-5 that came in from M is Accepted by the STP, which forwards
    it through N, and gets Failure from the node that does not
    transfer. *)
Lemma C1_receivedMSU_transit_witness :
  fst <$> @SS7Router.receivedMSU yatesig_states Scenario.rejecting 2
            Scenario.isup_to_5_5_5 Scenario.label_to_5_5_5 (Some 1%nat) 3
            (MkEngine Scenario.stp Scenario.nets) = Some Accepted
  /\ fst <$> @SS7Router.receivedMSU yatesig_states Scenario.rejecting 2
              Scenario.isup_to_5_5_5 Scenario.label_to_5_5_5 (Some 1%nat) 3
              (MkEngine Scenario.sn Scenario.nets) = Some Failure.
Proof.
  split.
  - destruct (@C1_receivedMSU_transit yatesig_states Scenario.rejecting 2
                Scenario.isup_to_5_5_5 Scenario.label_to_5_5_5 (Some 1%nat) 3
                (MkEngine Scenario.stp Scenario.nets)
                (MkEngine (SS7Router.count_rx Scenario.stp) Scenario.nets) Rejected)
      as [_ Hstp];
      [vm_compute; reflexivity | discriminate | discriminate
      | vm_compute; reflexivity |].
    destruct (Hstp eq_refl) as [Hacc _]. apply Hacc. vm_compute. discriminate.
  - destruct (@C1_receivedMSU_transit yatesig_states Scenario.rejecting 2
                Scenario.isup_to_5_5_5 Scenario.label_to_5_5_5 (Some 1%nat) 3
                (MkEngine Scenario.sn Scenario.nets)
                (MkEngine (SS7Router.count_rx Scenario.sn) Scenario.nets) Rejected)
      as [Hsn _];
      [vm_compute; reflexivity | discriminate | discriminate
      | vm_compute; reflexivity |].
    apply Hsn. reflexivity.
Defined.

(** * Properties of the management entity *)

Section ManagementFacts.
Context `{SnmCodes} `{ManagementEnv}.
Import SS7Management.

Local Abbreviation expired := SignallingMessageTimerList.expired.
Local Abbreviation due := SignallingMessageTimerList.due.
Local Abbreviation restarted := SignallingMessageTimerList.restarted.

Lemma insert_ordered_Permutation (m : SnmPending) (l : list SnmPending) :
  SignallingMessageTimerList.insert_ordered m l ≡ₚ m :: l.
Proof.
  induction l as [|crt l IH]; [reflexivity|]. simpl.
  destruct (_ <? _); [reflexivity|]. rewrite IH. apply Permutation_swap.
Qed.

Lemma due_cons (when : Z) (m : SnmPending) (l : list SnmPending) :
  due when (m :: l) = ((if expired when m then 1 else 0) + due when l)%nat.
Proof. unfold due. simpl. by destruct (expired when m). Qed.

Lemma due_insert_ordered (when : Z) (m : SnmPending) (l : list SnmPending) :
  due when (SignallingMessageTimerList.insert_ordered m l) = due when (m :: l).
Proof.
  induction l as [|crt l IH]; [reflexivity|].
  cbn [SignallingMessageTimerList.insert_ordered].
  destruct (_ <? _); [reflexivity|].
  rewrite !due_cons, IH, due_cons. lia.
Qed.

Lemma add_Permutation (m : SnmPending) (when : Z) (l : list SnmPending) :
  SignallingMessageTimerList.add m when l ≡ₚ restarted m when :: l.
Proof. apply insert_ordered_Permutation. Qed.

(** A message that is queued again with a running global timer that has
    not expired is not expired. *)
Lemma restarted_not_expired (m : SnmPending) (when : Z) :
  0 <= t_interval (pend_timer m) -> final_due when m = false ->
  expired when (restarted m when) = false.
Proof.
  intros Hint Hfinal. unfold final_due in Hfinal.
  apply orb_false_elim in Hfinal as [Hstarted Hglobal].
  apply negb_false_iff in Hstarted.
  unfold expired, restarted. cbn [pend_timer pend_global].
  rewrite Hstarted, andb_false_r, Hglobal, orb_false_r.
  unfold SignallingTimer.timeout, SignallingTimer.start, SignallingTimer.stop,
    SignallingTimer.started. cbn [t_interval t_timeout].
  destruct (Z.eqb_spec (t_interval (pend_timer m)) 0); simpl; [reflexivity|].
  apply andb_false_intro2. apply Z.ltb_ge. lia.
Qed.

(** SS7Management::timeout leaves the pending messages alone. *)
Lemma timeout_pending msu label txSls final (s : Management) :
  m_pending (SS7Management.timeout msu label txSls final s).2 = m_pending s
  /\ m_sif (SS7Management.timeout msu label txSls final s).2 = m_sif s.
Proof.
  unfold SS7Management.timeout, inhibit, transmitMSU, bind, ret, emit.
  destruct final; simpl; [|by split].
  destruct (payload_data msu 0 1); [|by split].
  destruct env_router; repeat (case_match; simpl); simplify_eq; by split.
Qed.

(** One turn of the loop of timerTick on a message whose last timeout is
    due: the message leaves the list for good and the final timeout is
    run. *)
Lemma timerTick_loop_final (fuel : nat) (when : Z) (s : Management)
    (msg : SnmPending) (rest : list SnmPending) :
  SignallingMessageTimerList.timeout when (m_pending s) = Some (msg, rest) ->
  final_due when msg = true ->
  timerTick_loop (S fuel) when s
  = timerTick_loop fuel when
      (SS7Management.timeout (pend_msu msg) (pend_label msg) (pend_txSls msg) true
         (Mgmt (m_sif s) rest (m_trace s))).2.
Proof.
  intros Hpop Hfinal. cbn [timerTick_loop].
  unfold bind at 1. unfold get_pending at 1. rewrite Hpop.
  unfold bind at 1. unfold set_pending at 1.
  unfold bind at 1. rewrite Hfinal.
  unfold bind at 1.
  destruct (SS7Management.timeout _ _ _ true _) as [b s']. reflexivity.
Qed.

(** One turn on a message whose global timer still runs: it is
    transmitted again and queued again, timers restarted from [when]. *)
Lemma timerTick_loop_again (fuel : nat) (when : Z) (s : Management)
    (msg : SnmPending) (rest : list SnmPending) :
  SignallingMessageTimerList.timeout when (m_pending s) = Some (msg, rest) ->
  final_due when msg = false ->
  timerTick_loop (S fuel) when s
  = timerTick_loop fuel when
      (Mgmt (m_sif s) (SignallingMessageTimerList.add msg when rest)
         (m_trace s ++ [EvTransmit (pend_msu msg) (pend_label msg) (pend_txSls msg)])).
Proof.
  intros Hpop Hfinal. cbn [timerTick_loop].
  unfold bind at 1. unfold get_pending at 1. rewrite Hpop.
  unfold bind at 1. unfold set_pending at 1.
  unfold bind at 1. rewrite Hfinal. reflexivity.
Qed.

(** The loop stops at a head that is not expired. *)
Lemma timerTick_loop_done (fuel : nat) (when : Z) (s : Management) :
  SignallingMessageTimerList.timeout when (m_pending s) = None ->
  timerTick_loop (S fuel) when s = (true, s).
Proof.
  intros Hpop. cbn [timerTick_loop].
  unfold bind at 1. unfold get_pending at 1. rewrite Hpop. reflexivity.
Qed.

Lemma timeout_head (when : Z) (l : list SnmPending) msg rest :
  SignallingMessageTimerList.timeout when l = Some (msg, rest) ->
  l = msg :: rest /\ expired when msg = true.
Proof.
  unfold SignallingMessageTimerList.timeout. destruct l as [|m l]; [discriminate|].
  fold (expired when m). destruct (expired when m) eqn:E; [|discriminate].
  intros [= <- <-]. by split.
Qed.

(** The loop of timerTick comes to its end once it has more fuel than
    there are expired messages, and leaves no expired message at the head
    of the list. *)
Lemma timerTick_loop_terminates (when : Z) (fuel : nat) :
  forall s : Management,
    Forall (fun m => 0 <= t_interval (pend_timer m)) (m_pending s) ->
    (due when (m_pending s) < fuel)%nat ->
    (timerTick_loop fuel when s).1 = true
    /\ SignallingMessageTimerList.timeout when
         (m_pending (timerTick_loop fuel when s).2) = None.
Proof.
  induction fuel as [|fuel IH]; intros s Hint Hdue; [lia|].
  destruct (SignallingMessageTimerList.timeout when (m_pending s))
    as [[msg rest]|] eqn:Hpop.
  - destruct (timeout_head _ _ _ _ Hpop) as [Hl Hexp].
    rewrite Hl in Hint, Hdue. apply Forall_cons in Hint as [Hmsg Hrest].
    rewrite due_cons, Hexp in Hdue.
    destruct (final_due when msg) eqn:Hfinal.
    + rewrite (timerTick_loop_final _ _ _ _ _ Hpop Hfinal).
      destruct (timeout_pending (pend_msu msg) (pend_label msg) (pend_txSls msg)
                  true (Mgmt (m_sif s) rest (m_trace s))) as [Hp _].
      apply IH; rewrite Hp; simpl; [exact Hrest | lia].
    + rewrite (timerTick_loop_again _ _ _ _ _ Hpop Hfinal).
      apply IH; simpl.
      * rewrite add_Permutation. constructor; [|exact Hrest].
        unfold restarted, SignallingTimer.start, SignallingTimer.stop. simpl.
        by destruct (_ =? 0).
      * unfold SignallingMessageTimerList.add. fold (restarted msg when).
        rewrite due_insert_ordered, due_cons.
        rewrite (restarted_not_expired _ _ Hmsg Hfinal). lia.
  - rewrite (timerTick_loop_done _ _ _ Hpop). by split.
Qed.

Lemma timerTick_eq (when : Z) (s : Management) :
  timerTick when s = timerTick_loop (S (List.length (m_pending s))) when s.
Proof. reflexivity. Qed.

(** What postpone does, case by case. *)
Lemma postpone_cases (msu : SS7MSU) (label : SS7Label)
    (txSls interval global when : Z) (s : Management) :
  let queued trace :=
    Mgmt (m_sif s)
      (SignallingMessageTimerList.add
         (Pending msu label txSls (Timer interval 0) (Timer global 0)) when
         (m_pending s)) trace in
  let sent := m_trace s ++ [EvTransmit msu label txSls] in
  postpone msu label txSls interval global when s
  = if interval =? 0 then (true, queued (m_trace s))
    else if env_transmitMSU msu label txSls >=? 0 then (true, queued sent)
    else (false, Mgmt (m_sif s) (m_pending s) sent).
Proof.
  unfold postpone, transmitMSU, bind, ret, emit, get_pending, set_pending.
  destruct (interval =? 0); simpl.
  - by destruct s.
  - by destruct (_ >=? 0).
Qed.

(** The deadlines of a message that was just queued: the interval and
    the global time, counted from [when]. *)
Lemma add_deadlines (msu : SS7MSU) (label : SS7Label)
    (txSls interval global when : Z) (l : list SnmPending) :
  interval <> 0 -> global <> 0 -> 0 <= when + global ->
  Pending msu label txSls (Timer interval (when + interval))
    (Timer global (when + global))
  ∈ SignallingMessageTimerList.add
      (Pending msu label txSls (Timer interval 0) (Timer global 0)) when l.
Proof.
  intros Hi Hg Hw. rewrite add_Permutation. unfold restarted. simpl.
  unfold SignallingTimer.start, SignallingTimer.stop, SignallingTimer.started.
  simpl. destruct (Z.eqb_spec interval 0); [contradiction|].
  destruct (Z.eqb_spec global 0); [contradiction|]. simpl.
  apply list_elem_of_here.
Qed.

(** SS7MsgSNM::parse keeps the type, and gives a message for every
    family that has a name. *)
Lemma parse_type (type : Z) (pcType : PCType) (buf : list Z) :
  pcType <> Other ->
  exists msg, parse type pcType buf = Some msg /\ msg_type msg = type.
Proof.
  intros Hpc. unfold parse. destruct (decide (pcType = Other)); [contradiction|].
  repeat case_match; eexists; split; reflexivity.
Qed.

Lemma recover_sequence (lbl : SS7Label) (msg : SS7MsgSNM) (r : L3Pointer)
    (s : Management) :
  env_router = Some r ->
  (match msg_sequence msg with
   | Some seq => if seq >=? 0 then recover lbl seq else ret tt
   | None => ret tt
   end) s = (tt, Mgmt (m_sif s) (m_pending s) (m_trace s ++ recovered lbl msg)).
Proof.
  intros Hr. unfold recovered, recover. rewrite Hr.
  destruct (msg_sequence msg) as [seq|]; [destruct (seq >=? 0)|];
    unfold ret, emit; rewrite ?app_nil_r; by destruct s.
Qed.

(** What the changeover branch does, case by case. *)
Lemma changeover_order_cases (msu : SS7MSU) (label : SS7Label) (sls when : Z)
    (msg : SS7MsgSNM) (r : L3Pointer) (s : Management) :
  env_router = Some r ->
  let lbl := reversed label (lbl_sls label) 0 in
  let inhibited := m_trace s ++ [EvInhibit lbl Inactive 0 false] in
  let asked := (inhibited ++ recovered lbl msg) ++ [EvGetSequence lbl] in
  let seq := env_getSequence lbl in
  changeover_order msu label sls when msg s
  = if env_inhibit lbl Inactive 0 false then
      if seq >=? 0 then
        match changeover_ack (lbl_type label) (default sls (msg_slc msg)) seq with
        | Some data =>
            let coa := MSU (msu_sio msu) lbl data in
            (Some (HandledMSU_of_bool (env_transmitMSU coa lbl sls >=? 0)),
             Mgmt (m_sif s) (m_pending s) (asked ++ [EvTransmit coa lbl sls]))
        | None => (Some Failure, Mgmt (m_sif s) (m_pending s) asked)
        end
      else
        (Some Accepted,
         Mgmt (m_sif s)
           (SignallingMessageTimerList.add
              (Pending (MSU (msu_sio msu) lbl [ECA]) lbl sls (Timer 0 0) (Timer 200 0))
              when (m_pending s))
           asked)
    else (Some Accepted, Mgmt (m_sif s) (m_pending s) inhibited).
Proof.
  intros Hrouter lbl inhibited asked seq.
  unfold changeover_order. fold lbl.
  unfold bind at 1. unfold inhibit. rewrite Hrouter.
  unfold bind at 1, emit at 1, ret at 1. cbn [m_sif m_pending m_trace].
  fold inhibited.
  destruct (env_inhibit lbl Inactive 0 false); [|reflexivity].
  unfold bind at 1. rewrite (recover_sequence lbl msg r _ Hrouter).
  unfold bind at 1. unfold getSequence. rewrite Hrouter.
  unfold bind at 1, emit at 1, ret at 1. cbn [m_sif m_pending m_trace].
  fold asked. fold seq.
  destruct (seq >=? 0).
  - destruct (changeover_ack (lbl_type label) (default sls (msg_slc msg)) seq)
      as [data|]; reflexivity.
  - unfold bind at 1. rewrite postpone_cases. reflexivity.
Qed.

(** Without a router nothing is asked, sent or queued. *)
Lemma changeover_order_no_router (msu : SS7MSU) (label : SS7Label) (sls when : Z)
    (msg : SS7MsgSNM) (s : Management) :
  env_router = None ->
  changeover_order msu label sls when msg s = (Some Accepted, s).
Proof.
  intros Hrouter. unfold changeover_order, bind, inhibit. rewrite Hrouter.
  reflexivity.
Qed.

End ManagementFacts.

(** Claim C5, the claim as stated refuted: with the network below down,
    postpone transmits the changeback declaration once, unsuccessfully,
    and does not queue it. *)
Lemma C5_counterexample_not_queued_when_transmit_fails :
  @SS7Management.postpone Scenario.link_down Scenario.cbd_7
     Scenario.label_to_5_5_5_link3 3 1000 2000 5000 Scenario.idle
  = (false,
     Mgmt 0 [] [EvTransmit Scenario.cbd_7 Scenario.label_to_5_5_5_link3 3])
  /\ ~ @Spec.postpone_transmits_and_queues q704_codes Scenario.link_down Scenario.cbd_7
         Scenario.label_to_5_5_5_link3 3 1000 2000 5000 Scenario.idle.
Proof.
  split; [vm_compute; reflexivity|].
  intros Hclaim. destruct Hclaim as (_ & p & Hin & _); [lia|].
  vm_compute in Hin. by apply elem_of_nil in Hin.
Qed.

(** Claim C5, amended: postpone transmits the MSU once when the interval
    is not zero, and queues it - with the retransmission deadline
    [when + interval] and the final deadline [when + global] - when that
    transmission succeeded, or without transmitting when the interval is
    zero; a failed transmission queues nothing.  On a tick the first
    pending message, if one of its timers expired, leaves the queue; when
    its global timer is not running or has expired it gets
    timeout(final=true) and is gone; otherwise it gets
    timeout(final=false), is transmitted again and queued again with its
    interval counted from the tick.  The tick goes on until the first
    pending message is not expired. *)
Theorem C5_postpone_and_timerTick `{SnmCodes} `{ManagementEnv} :
  (forall (msu : SS7MSU) (label : SS7Label) (txSls interval global when : Z)
          (s : Management),
     let queued trace :=
       Mgmt (m_sif s)
         (SignallingMessageTimerList.add
            (Pending msu label txSls (Timer interval 0) (Timer global 0)) when
            (m_pending s)) trace in
     let sent := m_trace s ++ [EvTransmit msu label txSls] in
     SS7Management.postpone msu label txSls interval global when s
     = if interval =? 0 then (true, queued (m_trace s))
       else if env_transmitMSU msu label txSls >=? 0 then (true, queued sent)
       else (false, Mgmt (m_sif s) (m_pending s) sent))
  /\ (forall (msu : SS7MSU) (label : SS7Label) (txSls interval global when : Z)
             (l : list SnmPending),
        interval <> 0 -> global <> 0 -> 0 <= when + global ->
        Pending msu label txSls (Timer interval (when + interval))
          (Timer global (when + global))
        ∈ SignallingMessageTimerList.add
            (Pending msu label txSls (Timer interval 0) (Timer global 0)) when l)
  /\ (forall (fuel : nat) (when : Z) (s : Management) (msg : SnmPending)
             (rest : list SnmPending),
        SignallingMessageTimerList.timeout when (m_pending s) = Some (msg, rest) ->
        SS7Management.final_due when msg = true ->
        let s' := (SS7Management.timeout (pend_msu msg) (pend_label msg)
                     (pend_txSls msg) true (Mgmt (m_sif s) rest (m_trace s))).2 in
        SS7Management.timerTick_loop (S fuel) when s
        = SS7Management.timerTick_loop fuel when s'
        /\ m_pending s' = rest)
  /\ (forall (fuel : nat) (when : Z) (s : Management) (msg : SnmPending)
             (rest : list SnmPending),
        SignallingMessageTimerList.timeout when (m_pending s) = Some (msg, rest) ->
        SS7Management.final_due when msg = false ->
        SS7Management.timerTick_loop (S fuel) when s
        = SS7Management.timerTick_loop fuel when
            (Mgmt (m_sif s) (SignallingMessageTimerList.add msg when rest)
               (m_trace s
                ++ [EvTransmit (pend_msu msg) (pend_label msg) (pend_txSls msg)]))
        /\ SignallingMessageTimerList.add msg when rest ≡ₚ SignallingMessageTimerList.restarted msg when :: rest
        /\ t_interval (pend_timer (SignallingMessageTimerList.restarted msg when)) = t_interval (pend_timer msg))
  /\ (forall (when : Z) (s : Management),
        Forall (fun m => 0 <= t_interval (pend_timer m)) (m_pending s) ->
        (SS7Management.timerTick when s).1 = true
        /\ SignallingMessageTimerList.timeout when
             (m_pending (SS7Management.timerTick when s).2) = None).
Proof.
  repeat apply conj.
  - apply postpone_cases.
  - apply add_deadlines.
  - intros fuel when s msg rest Hpop Hfinal s'. split.
    + by apply timerTick_loop_final.
    + apply timeout_pending.
  - intros fuel when s msg rest Hpop Hfinal. split; [|split].
    + by apply timerTick_loop_again.
    + apply add_Permutation.
    + unfold SignallingMessageTimerList.restarted, SignallingTimer.start, SignallingTimer.stop. simpl.
      by destruct (_ =? 0).
  - intros when s Hint. rewrite timerTick_eq.
    apply timerTick_loop_terminates; [exact Hint|].
    unfold SignallingMessageTimerList.due.
    pose proof (filter_length (SignallingMessageTimerList.expired when) (m_pending s)).
    lia.
Qed.

(** The amended claim at work on a changeback declaration postponed at
    5000 ms with an interval of 1000 ms and a global time of 2000 ms: it
    is transmitted and queued; the tick at 6001 ms transmits it again and
    queues it for 7001 ms; the tick at 7001 ms, past the global deadline
    of 7000 ms, removes it. *)
Lemma C5_postpone_and_timerTick_witness :
  m_pending Scenario.postponed
    = [Pending Scenario.cbd_7 Scenario.label_to_5_5_5_link3 3
         (Timer 1000 6000) (Timer 2000 7000)]
  /\ m_pending Scenario.ticked_6001
     = [Pending Scenario.cbd_7 Scenario.label_to_5_5_5_link3 3
          (Timer 1000 7001) (Timer 2000 7000)]
  /\ m_pending Scenario.ticked_7001 = []
  /\ SignallingMessageTimerList.timeout 7001 (m_pending Scenario.ticked_7001) = None.
Proof.
  destruct (@C5_postpone_and_timerTick q704_codes Scenario.with_sequence)
    as (Hpost & _ & Hfinal & Hagain & Hend).
  set (s1 := Scenario.postponed).
  set (s2 := Scenario.ticked_6001).
  set (s3 := Scenario.ticked_7001).
  assert (H1 : m_pending s1
               = [Pending Scenario.cbd_7 Scenario.label_to_5_5_5_link3 3
                    (Timer 1000 6000) (Timer 2000 7000)]).
  { unfold s1, Scenario.postponed. rewrite Hpost. vm_compute. reflexivity. }
  assert (H2 : m_pending s2
               = [Pending Scenario.cbd_7 Scenario.label_to_5_5_5_link3 3
                    (Timer 1000 7001) (Timer 2000 7000)]).
  { unfold s2, Scenario.ticked_6001. fold s1.
    destruct (Hagain 1%nat 6001 s1
                (Pending Scenario.cbd_7 Scenario.label_to_5_5_5_link3 3
                   (Timer 1000 6000) (Timer 2000 7000)) [])
      as (Hstep & _ & _);
      [rewrite H1; reflexivity | reflexivity |].
    change (@SS7Management.timerTick q704_codes Scenario.with_sequence 6001 s1)
      with (@SS7Management.timerTick_loop q704_codes Scenario.with_sequence 2 6001 s1).
    rewrite Hstep. vm_compute. reflexivity. }
  assert (H3 : m_pending s3 = []).
  { unfold s3, Scenario.ticked_7001. fold s2.
    destruct (Hfinal 1%nat 7001 s2
                (Pending Scenario.cbd_7 Scenario.label_to_5_5_5_link3 3
                   (Timer 1000 7001) (Timer 2000 7000)) [])
      as (Hstep & _);
      [rewrite H2; reflexivity | reflexivity |].
    change (@SS7Management.timerTick q704_codes Scenario.with_sequence 7001 s2)
      with (@SS7Management.timerTick_loop q704_codes Scenario.with_sequence 2 7001 s2).
    rewrite Hstep. vm_compute. reflexivity. }
  split; [exact H1|]. split; [exact H2|]. split; [exact H3|].
  apply (Hend 7001 s2). rewrite H2. repeat constructor. simpl. lia.
Defined.

(** Claim C4, amended: on a changeover order (COO, XCO or ECO) the
    management entity asks the router to inhibit the link of the reversed
    label as Inactive.  If the router refuses, nothing else happens; if
    there is no router, nothing happens at all.  If the router accepts,
    the MSUs in flight are recovered at the received sequence when the
    order carried one, the router is asked for its send sequence, and
    then: with a sequence, a COA carrying it is transmitted (for ITU and
    ANSI labels; nothing is sent for other families); without one, an ECA
    is queued, not transmitted, with no interval and a global time of
    200 ms. *)
Theorem C4_changeover_order `{SnmCodes} `{ManagementEnv}
    (msu : SS7MSU) (label : SS7Label) (network : L3Pointer * SS7Layer3)
    (sls when : Z) (s : Management) (type : Z) (code : list Z)
    (msg : SS7MsgSNM) :
  getSIF msu = m_sif s ->
  l3_getLocal network.2 (lbl_type label) = 0
  \/ lbl_dpc label = l3_getLocal network.2 (lbl_type label) ->
  msu_payload msu = type :: code ->
  SS7Management.parse type (lbl_type label) code = Some msg ->
  type = COO \/ type = XCO \/ type = ECO ->
  type <> TFP /\ type <> TFR /\ type <> TFA /\ type <> TRA ->
  let lbl := SS7Management.reversed label (lbl_sls label) 0 in
  let inhibited := m_trace s ++ [EvInhibit lbl Inactive 0 false] in
  let asked := (inhibited ++ SS7Management.recovered lbl msg) ++ [EvGetSequence lbl] in
  let seq := env_getSequence lbl in
  SS7Management.receivedMSU msu label (Some network) sls when s
  = match env_router with
    | None => (Some Accepted, s)
    | Some _ =>
        if env_inhibit lbl Inactive 0 false then
          if seq >=? 0 then
            match SS7Management.changeover_ack (lbl_type label)
                    (default sls (msg_slc msg)) seq with
            | Some data =>
                let coa := MSU (msu_sio msu) lbl data in
                (Some (HandledMSU_of_bool (env_transmitMSU coa lbl sls >=? 0)),
                 Mgmt (m_sif s) (m_pending s) (asked ++ [EvTransmit coa lbl sls]))
            | None => (Some Failure, Mgmt (m_sif s) (m_pending s) asked)
            end
          else
            (Some Accepted,
             Mgmt (m_sif s)
               (SignallingMessageTimerList.add
                  (Pending (MSU (msu_sio msu) lbl [ECA]) lbl sls (Timer 0 0) (Timer 200 0))
                  when (m_pending s))
               asked)
        else (Some Accepted, Mgmt (m_sif s) (m_pending s) inhibited)
    end.
Proof.
  intros Hsif Hlocal Hpayload Hparse Htype (Hp & Hr & Ha & Ht)
    lbl inhibited asked seq.
  destruct network as [q l3]. simpl in Hlocal.
  assert (Hmsg : msg_type msg = type).
  { assert (Hpc : lbl_type label <> Other).
    { intros Hpc. unfold SS7Management.parse in Hparse. rewrite Hpc in Hparse.
      discriminate. }
    destruct (parse_type type (lbl_type label) code Hpc) as (msg' & Hparse' & Hty).
    congruence. }
  unfold SS7Management.receivedMSU.
  rewrite Hsif, Z.eqb_refl. simpl negb. cbv iota.
  assert (Hforeign : negb (l3_getLocal l3 (lbl_type label) =? 0)
                     && negb (lbl_dpc label =? l3_getLocal l3 (lbl_type label))
                     = false).
  { destruct Hlocal as [-> | ->]; [reflexivity|].
    rewrite Z.eqb_refl. apply andb_false_r. }
  rewrite Hforeign. rewrite andb_false_r.
  unfold SS7Management.payload_data. rewrite Hpayload.
  assert (Hlen : Z.of_nat (List.length (type :: code))
                 = 1 + Z.of_nat (List.length code)).
  { simpl List.length. lia. }
  rewrite Hlen.
  destruct (Z.leb_spec (0 + 1) (1 + Z.of_nat (List.length code))); [|lia].
  change (nth 0 (drop (Z.to_nat 0) (type :: code)) 0) with type.
  change (drop 1 (drop (Z.to_nat 0) (type :: code))) with code.
  rewrite Hparse, Hmsg.
  destruct (Z.eqb_spec type TFP); [contradiction|].
  destruct (Z.eqb_spec type TFR); [contradiction|].
  destruct (Z.eqb_spec type TFA); [contradiction|].
  destruct (Z.eqb_spec type TRA); [contradiction|].
  simpl orb. cbv iota.
  assert (Horder : (type =? COO) || (type =? XCO) || (type =? ECO) = true).
  { destruct Htype as [-> | [-> | ->]]; rewrite Z.eqb_refl;
      rewrite ?orb_true_r; reflexivity. }
  rewrite Horder.
  destruct (Z.eqb_spec (1 + Z.of_nat (List.length code)) 0); [lia|].
  destruct (Z.leb_spec (1 + (1 + Z.of_nat (List.length code) - 1))
              (1 + Z.of_nat (List.length code))); [|lia].
  cbv beta iota.
  destruct env_router as [r|] eqn:Hrouter.
  - apply (changeover_order_cases msu label sls when msg r s Hrouter).
  - by apply changeover_order_no_router.
Qed.

(** Claim C4, the claim as stated refuted: the router refuses to inhibit
    the link of the COO with sequence 42, and although it would report
    the send sequence 17, no COA is transmitted and no ECA is queued: the
    request to inhibit is the only thing that happens. *)
Lemma C4_counterexample_inhibit_refused :
  @SS7Management.receivedMSU q704_codes Scenario.refusing Scenario.coo_42
     Scenario.label_from_5_5_5 (Some (1%nat, Scenario.M)) 3 1000 Scenario.idle
  = (Some Accepted,
     Mgmt 0 []
       [EvInhibit (Label ITU Scenario.pc_5_5_5 Scenario.pc_1_2_3 3 0)
          (@Inactive q704_codes) 0 false])
  /\ ~ @Spec.changeover_answered q704_codes Scenario.refusing Scenario.coo_42
         Scenario.label_from_5_5_5 (Some (1%nat, Scenario.M)) 3 1000 Scenario.idle.
Proof.
  assert (Hrun :
    @SS7Management.receivedMSU q704_codes Scenario.refusing Scenario.coo_42
       Scenario.label_from_5_5_5 (Some (1%nat, Scenario.M)) 3 1000 Scenario.idle
    = (Some Accepted,
       Mgmt 0 []
         [EvInhibit (Label ITU Scenario.pc_5_5_5 Scenario.pc_1_2_3 3 0)
            (@Inactive q704_codes) 0 false])).
  { vm_compute. reflexivity. }
  split; [exact Hrun|].
  intros Hclaim. unfold Spec.changeover_answered in Hclaim. cbv zeta in Hclaim.
  rewrite Hrun in Hclaim. destruct Hclaim as (_ & Hanswer).
  change (env_getSequence _ >=? 0) with true in Hanswer. cbv iota in Hanswer.
  destruct Hanswer as (data & Hin).
  apply list_elem_of_singleton in Hin. discriminate Hin.
Qed.

(** The amended claim at work, the scenario "Changeover": the COO with
    sequence 42 makes the entity inhibit the link, recover at 42, ask for
    the send sequence and transmit a COA with the 17 the router reports;
    when the router has no sequence, the ECA is queued for 200 ms; and an
    entity without a router accepts the COO and does nothing. *)
Lemma C4_changeover_order_witness :
  @SS7Management.receivedMSU q704_codes Scenario.with_sequence Scenario.coo_42
     Scenario.label_from_5_5_5 (Some (1%nat, Scenario.M)) 3 1000 Scenario.idle
  = (Some Accepted,
     Mgmt 0 []
       [EvInhibit (Label ITU Scenario.pc_5_5_5 Scenario.pc_1_2_3 3 0) 0x02 0 false;
        EvRecover (Label ITU Scenario.pc_5_5_5 Scenario.pc_1_2_3 3 0) 42;
        EvGetSequence (Label ITU Scenario.pc_5_5_5 Scenario.pc_1_2_3 3 0);
        EvTransmit
          (MSU 0x80 (Label ITU Scenario.pc_5_5_5 Scenario.pc_1_2_3 3 0) [0x21; 17])
          (Label ITU Scenario.pc_5_5_5 Scenario.pc_1_2_3 3 0) 3])
  /\ m_pending
       (@SS7Management.receivedMSU q704_codes Scenario.without_sequence
          Scenario.coo_42 Scenario.label_from_5_5_5 (Some (1%nat, Scenario.M))
          3 1000 Scenario.idle).2
     = [Pending (MSU 0x80 (Label ITU Scenario.pc_5_5_5 Scenario.pc_1_2_3 3 0) [0x22])
          (Label ITU Scenario.pc_5_5_5 Scenario.pc_1_2_3 3 0) 3
          (Timer 0 0) (Timer 200 1200)]
  /\ @SS7Management.receivedMSU q704_codes Scenario.unattached Scenario.coo_42
       Scenario.label_from_5_5_5 (Some (1%nat, Scenario.M)) 3 1000 Scenario.idle
     = (Some Accepted, Scenario.idle).
Proof.
  pose proof (@C4_changeover_order q704_codes Scenario.with_sequence Scenario.coo_42
                Scenario.label_from_5_5_5 (1%nat, Scenario.M) 3 1000 Scenario.idle
                0x11 [42] (MsgSNM 0x11 (Some 42) None None)
                eq_refl (or_introl eq_refl) eq_refl eq_refl
                (or_introl eq_refl)
                ltac:(repeat apply conj; discriminate)) as Hwith.
  pose proof (@C4_changeover_order q704_codes Scenario.without_sequence Scenario.coo_42
                Scenario.label_from_5_5_5 (1%nat, Scenario.M) 3 1000 Scenario.idle
                0x11 [42] (MsgSNM 0x11 (Some 42) None None)
                eq_refl (or_introl eq_refl) eq_refl eq_refl
                (or_introl eq_refl)
                ltac:(repeat apply conj; discriminate)) as Hwithout.
  pose proof (@C4_changeover_order q704_codes Scenario.unattached Scenario.coo_42
                Scenario.label_from_5_5_5 (1%nat, Scenario.M) 3 1000 Scenario.idle
                0x11 [42] (MsgSNM 0x11 (Some 42) None None)
                eq_refl (or_introl eq_refl) eq_refl eq_refl
                (or_introl eq_refl)
                ltac:(repeat apply conj; discriminate)) as Hnone.
  cbv zeta in Hwith, Hwithout, Hnone.
  split; [|split].
  - rewrite Hwith. vm_compute. reflexivity.
  - rewrite Hwithout. vm_compute. reflexivity.
  - rewrite Hnone. reflexivity.
Defined.

(** * More of the BER codec: round trips and edges *)

Section CodecRoundTrips.
Import ASNLib.

Lemma cut_app_front (pre tail : DataBlock) :
  DataBlock.cut (- DataBlock.length pre) (pre ++ tail) = tail.
Proof.
  unfold DataBlock.cut, DataBlock.length. rewrite length_app.
  destruct (Z.eqb_spec (- Z.of_nat (List.length pre)) 0) as [E|E].
  { destruct pre; [reflexivity | simpl in E; lia]. }
  destruct (Z.geb_spec (Z.abs (- Z.of_nat (List.length pre)))
              (Z.of_nat (List.length pre + List.length tail))) as [G|G].
  { destruct tail; [reflexivity | simpl in G; lia]. }
  destruct (Z.ltb_spec (- Z.of_nat (List.length pre)) 0); [|lia].
  rewrite Z.opp_involutive, Nat2Z.id. apply drop_app_length.
Qed.

(** The length bytes written for a length [L]: the short form below 128,
    and otherwise the count byte and the bytes of [L], high byte first. *)
Lemma buildLength_bytes (data : DataBlock) :
  let L := DataBlock.length data in
  L < 2 ^ 31 ->
  buildLength data =
    if L <? 128 then [L]
    else if L <? 2 ^ 8 then [0x81; L]
    else if L <? 2 ^ 16 then [0x82; L / 2 ^ 8; L mod 2 ^ 8]
    else if L <? 2 ^ 24 then [0x83; L / 2 ^ 16; L / 2 ^ 8 mod 2 ^ 8; L mod 2 ^ 8]
    else [0x84; L / 2 ^ 24; L / 2 ^ 16 mod 2 ^ 8; L / 2 ^ 8 mod 2 ^ 8; L mod 2 ^ 8].
Proof.
  intros L HL. pose proof (length_nonneg data) as H0. fold L in H0.
  unfold buildLength. fold L.
  destruct (Z.ltb_spec L 0); [lia|].
  change ASN_LONG_LENGTH with 128.
  destruct (Z.ltb_spec L 128).
  { unfold to_uint8. rewrite Z.mod_small by lia. reflexivity. }
  assert (Hint : to_int32 L = L).
  { unfold to_int32, to_uint32. rewrite Z.mod_small by lia.
    destruct (Z.ltb_spec L 2147483648); [reflexivity | lia]. }
  rewrite Hint. cbn [buildLength_loop DataBlock.insert app].
  change 0xFF with (Z.ones 8).
  rewrite !Z.land_ones, !Z.shiftr_shiftr, !Z.shiftr_div_pow2 by lia.
  unfold to_uint8. rewrite !Z.mod_mod by lia.
  change (8 + 8) with 16. change (16 + 8) with 24. change (8 + (8 + 8)) with 24.
  change (256) with (2 ^ 8).
  assert (P8 : 0 < L / 2 ^ 8 <-> 2 ^ 8 <= L) by (Z.div_mod_to_equations; lia).
  assert (P16 : 0 < L / 2 ^ 16 <-> 2 ^ 16 <= L) by (Z.div_mod_to_equations; lia).
  assert (P24 : 0 < L / 2 ^ 24 <-> 2 ^ 24 <= L) by (Z.div_mod_to_equations; lia).
  assert (B8 : L < 2 ^ 16 -> L / 2 ^ 8 < 2 ^ 8) by (intros; apply Z.div_lt_upper_bound; lia).
  assert (B16 : L < 2 ^ 24 -> L / 2 ^ 16 < 2 ^ 8) by (intros; apply Z.div_lt_upper_bound; lia).
  assert (B24 : L / 2 ^ 24 < 2 ^ 8) by (apply Z.div_lt_upper_bound; lia).
  assert (N8 : 0 <= L / 2 ^ 8) by (apply Z.div_pos; lia).
  assert (N16 : 0 <= L / 2 ^ 16) by (apply Z.div_pos; lia).
  assert (N24 : 0 <= L / 2 ^ 24) by (apply Z.div_pos; lia).
  rewrite !Z.gtb_ltb.
  destruct (Z.ltb_spec 0 L); [|lia].
  destruct (Z.ltb_spec 0 (L / 2 ^ 8)); destruct (Z.ltb_spec L (2 ^ 8)); try lia.
  2: { cbn [DataBlock.length List.length]. rewrite (Z.mod_small L) by lia. reflexivity. }
  destruct (Z.ltb_spec 0 (L / 2 ^ 16)); destruct (Z.ltb_spec L (2 ^ 16)); try lia.
  2: { cbn [DataBlock.length List.length]. rewrite (Z.mod_small (L / 2 ^ 8)) by lia.
       reflexivity. }
  destruct (Z.ltb_spec 0 (L / 2 ^ 24)); destruct (Z.ltb_spec L (2 ^ 24)); try lia.
  2: { cbn [DataBlock.length List.length]. rewrite (Z.mod_small (L / 2 ^ 16)) by lia.
       reflexivity. }
  cbn [DataBlock.length List.length]. rewrite (Z.mod_small (L / 2 ^ 24)) by lia.
  reflexivity.
Qed.

Lemma index_lookup (d : list Z) (n : nat) (x : Z) :
  d !! n = Some x -> d.[Z.of_nat n] = x.
Proof.
  intros Hl. unfold DataBlock.index, DataBlock.at_, DataBlock.length.
  pose proof (lookup_lt_Some _ _ _ Hl).
  destruct (Z.leb_spec 0 (Z.of_nat n)); [|lia].
  destruct (Z.ltb_spec (Z.of_nat n) (Z.of_nat (List.length d))); [|lia].
  rewrite Nat2Z.id. simpl. by apply nth_lookup_Some.
Qed.

Lemma to_int32_small (x : Z) : 0 <= x < 2 ^ 31 -> to_int32 x = x.
Proof.
  intros Hx. unfold to_int32, to_uint32. rewrite Z.mod_small by lia.
  destruct (Z.ltb_spec x 2147483648); [reflexivity | lia].
Qed.

(** The long form: [k] length bytes after the count byte [0x80 + k]. *)
Lemma decodeLength_long (k : Z) (bytes tail : DataBlock) :
  DataBlock.length bytes = k -> 1 <= k <= 4 ->
  decodeLength ((0x80 + k) :: bytes ++ tail)
  = (decodeLength_loop ((0x80 + k) :: bytes ++ tail) (Z.to_nat k) 0 0, tail).
Proof.
  intros Hlen Hk. unfold decodeLength. rewrite index_head.
  assert (Hcut : DataBlock.cut (- k - 1) ((0x80 + k) :: bytes ++ tail) = tail).
  { replace (- k - 1) with (- DataBlock.length ((0x80 + k) :: bytes)).
    - apply (cut_app_front ((0x80 + k) :: bytes) tail).
    - rewrite length_cons. lia. }
  assert (Hcases : k = 1 \/ k = 2 \/ k = 3 \/ k = 4) by lia.
  clear Hlen.
  destruct Hcases as [-> | [-> | [-> | ->]]].
  - change (to_uint8 (128 + 1)) with 129.
    change (Z.land 129 ASN_LONG_LENGTH =? 0) with false.
    change (to_uint8 (Z.land 129 (Z.lnot ASN_LONG_LENGTH))) with 1.
    cbv beta iota zeta. simpl negb. cbv iota.
    change (1 =? 0) with false. change (1 >? sizeof_int) with false. cbv iota.
    by rewrite Hcut.
  - change (to_uint8 (128 + 2)) with 130.
    change (Z.land 130 ASN_LONG_LENGTH =? 0) with false.
    change (to_uint8 (Z.land 130 (Z.lnot ASN_LONG_LENGTH))) with 2.
    cbv beta iota zeta. simpl negb. cbv iota.
    change (2 =? 0) with false. change (2 >? sizeof_int) with false. cbv iota.
    by rewrite Hcut.
  - change (to_uint8 (128 + 3)) with 131.
    change (Z.land 131 ASN_LONG_LENGTH =? 0) with false.
    change (to_uint8 (Z.land 131 (Z.lnot ASN_LONG_LENGTH))) with 3.
    cbv beta iota zeta. simpl negb. cbv iota.
    change (3 =? 0) with false. change (3 >? sizeof_int) with false. cbv iota.
    by rewrite Hcut.
  - change (to_uint8 (128 + 4)) with 132.
    change (Z.land 132 ASN_LONG_LENGTH =? 0) with false.
    change (to_uint8 (Z.land 132 (Z.lnot ASN_LONG_LENGTH))) with 4.
    cbv beta iota zeta. simpl negb. cbv iota.
    change (4 =? 0) with false. change (4 >? sizeof_int) with false. cbv iota.
    by rewrite Hcut.
Qed.

(** The loop of decodeLength reads the length bytes from left to right. *)
Lemma decodeLength_loop_bytes (bytes pre tail : DataBlock) (i acc : Z) :
  DataBlock.length pre = 1 + i ->
  decodeLength_loop (pre ++ bytes ++ tail) (List.length bytes) i acc
  = fold_left (fun a b => to_int32 (Z.shiftl a 8 + b)) bytes acc.
Proof.
  revert pre i acc. induction bytes as [|b bytes IH]; intros pre i acc Hpre.
  { reflexivity. }
  cbn [List.length decodeLength_loop fold_left].
  assert (Hb : (pre ++ (b :: bytes) ++ tail).[1 + i] = b).
  { rewrite <- Hpre. unfold DataBlock.length. apply index_lookup.
    rewrite lookup_app_r by lia. by rewrite Nat.sub_diag. }
  rewrite Hb.
  replace (pre ++ (b :: bytes) ++ tail) with ((pre ++ [b]) ++ bytes ++ tail)
    by (by rewrite <- app_assoc).
  apply IH. unfold DataBlock.length in *. rewrite length_app. simpl. lia.
Qed.

(** decodeLength reads back what buildLength wrote. *)
Lemma decodeLength_buildLength (data tail : DataBlock) :
  DataBlock.length data < 2 ^ 31 ->
  decodeLength (buildLength data ++ tail) = (DataBlock.length data, tail).
Proof.
  intros HL. rewrite buildLength_bytes by exact HL.
  pose proof (length_nonneg data) as H0.
  set (L := DataBlock.length data) in *.
  assert (Hloop : forall k bytes,
            DataBlock.length bytes = k -> 1 <= k <= 4 ->
            fold_left (fun a b => to_int32 (Z.shiftl a 8 + b)) bytes 0 = L ->
            decodeLength (((0x80 + k) :: bytes) ++ tail) = (L, tail)).
  { intros k bytes Hk Hr Hfold.
    change (((0x80 + k) :: bytes) ++ tail) with ((0x80 + k) :: bytes ++ tail).
    rewrite (decodeLength_long k bytes tail Hk Hr). f_equal.
    replace (Z.to_nat k) with (List.length bytes)
      by (unfold DataBlock.length in Hk; lia).
    rewrite <- Hfold.
    apply (decodeLength_loop_bytes bytes [0x80 + k] tail 0 0). reflexivity. }
  destruct (Z.ltb_spec L 128).
  { apply decodeLength_short. lia. }
  destruct (Z.ltb_spec L (2 ^ 8)).
  { apply (Hloop 1 [L]); [reflexivity | lia |].
    cbn [fold_left]. rewrite !Z.shiftl_mul_pow2 by lia.
    rewrite !to_int32_small; lia. }
  destruct (Z.ltb_spec L (2 ^ 16)).
  { apply (Hloop 2 [L / 2 ^ 8; L mod 2 ^ 8]); [reflexivity | lia |].
    cbn [fold_left]. rewrite !Z.shiftl_mul_pow2 by lia.
    repeat rewrite to_int32_small; Z.div_mod_to_equations; lia. }
  destruct (Z.ltb_spec L (2 ^ 24)).
  { apply (Hloop 3 [L / 2 ^ 16; L / 2 ^ 8 mod 2 ^ 8; L mod 2 ^ 8]);
      [reflexivity | lia |].
    cbn [fold_left]. rewrite !Z.shiftl_mul_pow2 by lia.
    repeat rewrite to_int32_small; Z.div_mod_to_equations; lia. }
  apply (Hloop 4 [L / 2 ^ 24; L / 2 ^ 16 mod 2 ^ 8; L / 2 ^ 8 mod 2 ^ 8; L mod 2 ^ 8]);
    [reflexivity | lia |].
  cbn [fold_left]. rewrite !Z.shiftl_mul_pow2 by lia.
  repeat rewrite to_int32_small; Z.div_mod_to_equations; lia.
Qed.

Lemma to_uint32_small (x : Z) : 0 <= x < 2 ^ 32 -> to_uint32 x = x.
Proof. intros Hx. unfold to_uint32. apply Z.mod_small. lia. Qed.

Lemma length_app_Z (d e : DataBlock) :
  DataBlock.length (d ++ e) = DataBlock.length d + DataBlock.length e.
Proof. unfold DataBlock.length. rewrite length_app. lia. Qed.

Lemma buildLength_length (data : DataBlock) :
  DataBlock.length data < 2 ^ 31 -> 1 <= DataBlock.length (buildLength data).
Proof.
  intros HL. rewrite buildLength_bytes by exact HL.
  repeat case_match; unfold DataBlock.length; simpl; lia.
Qed.

(** Extra X1: for a block of fewer than 2^31 bytes, decodeLength reads
    back, from the bytes that buildLength wrote, the length of the block,
    and consumes exactly these bytes, whatever follows them; buildLength
    writes one byte for a length below 128 and at most five otherwise. *)
Theorem length_round_trip (data tail : DataBlock) :
  DataBlock.length data < 2 ^ 31 ->
  decodeLength (buildLength data ++ tail) = (DataBlock.length data, tail)
  /\ 1 <= DataBlock.length (buildLength data) <= 5
  /\ (DataBlock.length data < 128 -> buildLength data = [DataBlock.length data]).
Proof.
  intros HL. split; [by apply decodeLength_buildLength|].
  rewrite buildLength_bytes by exact HL.
  split; [|intros Hs; by destruct (Z.ltb_spec (DataBlock.length data) 128); [|lia]].
  repeat case_match; unfold DataBlock.length; simpl; lia.
Qed.

(** A block of 200 bytes takes the long form 81 C8. *)
Lemma length_round_trip_witness :
  decodeLength (buildLength (replicate 200 0) ++ [7]) = (200, [7]).
Proof.
  apply (length_round_trip (replicate 200 0) [7]). vm_compute. reflexivity.
Defined.

(** Extra X2: an OCTET STRING of fewer than 2^31 bytes comes back from
    decodeOctetString as encodeOctetString wrote it (with the tag), and
    the decoder consumes exactly the encoding and leaves what follows. *)
Theorem octet_string_round_trip (strVal tail : DataBlock) :
  DataBlock.length strVal < 2 ^ 31 ->
  decodeOctetString (encodeOctetString strVal true ++ tail) true true
  = Decoded (DataBlock.length strVal) tail (Some strVal).
Proof.
  intros HL. pose proof (length_nonneg strVal) as H0.
  pose proof (length_nonneg tail) as H1.
  pose proof (buildLength_length strVal HL) as H2.
  unfold encodeOctetString, DataBlock.append, decodeOctetString.
  rewrite <- !app_assoc. rewrite <- !app_comm_cons.
  rewrite length_cons, !length_app_Z, index_head, cut_head.
  destruct (Z.ltb_spec (1 + (DataBlock.length (buildLength strVal)
                             + (DataBlock.length strVal + DataBlock.length tail))) 2);
    [lia|].
  change (OCTET_STRING =? OCTET_STRING) with true. simpl negb. simpl andb. cbv iota.
  rewrite decodeLength_buildLength by exact HL.
  destruct (Z.ltb_spec (DataBlock.length strVal) 0); [lia|].
  rewrite to_uint32_small by lia. rewrite length_app_Z, Z.gtb_ltb.
  destruct (Z.ltb_spec (DataBlock.length strVal + DataBlock.length tail)
              (DataBlock.length strVal)); [lia|].
  simpl negb. cbv iota.
  rewrite cut_app_front. unfold DataBlock.length. rewrite Nat2Z.id.
  by rewrite take_app_length.
Qed.

Lemma octet_string_round_trip_witness :
  decodeOctetString (encodeOctetString [0xDE; 0xAD] true ++ [0x05; 0x00]) true true
  = Decoded 2 [0x05; 0x00] (Some [0xDE; 0xAD]).
Proof.
  apply (octet_string_round_trip [0xDE; 0xAD] [0x05; 0x00]). vm_compute. reflexivity.
Defined.

(** The loop of decodeInteger shifts the bytes in from left to right. *)
Lemma decodeInteger_loop_bytes (bytes pre tail : DataBlock) (j acc : Z) :
  DataBlock.length pre = j ->
  decodeInteger_loop (pre ++ bytes ++ tail) (List.length bytes) j acc
  = fold_left (fun a b => Z.lor (to_uint64 (Z.shiftl a 8)) (to_uint64 b)) bytes acc.
Proof.
  revert pre j acc. induction bytes as [|b bytes IH]; intros pre j acc Hpre.
  { reflexivity. }
  cbn [List.length decodeInteger_loop fold_left].
  assert (Hb : (pre ++ (b :: bytes) ++ tail).[j] = b).
  { rewrite <- Hpre. unfold DataBlock.length. apply index_lookup.
    rewrite lookup_app_r by lia. by rewrite Nat.sub_diag. }
  rewrite Hb.
  replace (pre ++ (b :: bytes) ++ tail) with ((pre ++ [b]) ++ bytes ++ tail)
    by (by rewrite <- app_assoc).
  apply IH. unfold DataBlock.length in *. rewrite length_app. simpl. lia.
Qed.

Lemma encodeInteger_contents_length (n : nat) (v : Z) :
  List.length (encodeInteger_contents n v) = n.
Proof. induction n as [|n IH]; [reflexivity|]. simpl. by rewrite IH. Qed.

(** A byte put below a value shifted left by eight bits adds to it. *)
Lemma lor_shifted_byte (a b : Z) :
  0 <= a -> 0 <= b < 256 ->
  Z.lor (to_uint64 (Z.shiftl a 8)) (to_uint64 b) = (a * 256) mod 2 ^ 64 + b.
Proof.
  intros Ha Hb. unfold to_uint64. change 18446744073709551616 with (2 ^ 64).
  rewrite (Z.mod_small b) by lia. rewrite Z.shiftl_mul_pow2 by lia.
  change (2 ^ 8) with 256.
  rewrite <- Z.lxor_lor, <- Z.add_nocarry_lxor; try reflexivity.
  all: apply Z.bits_inj'; intros n Hn; rewrite Z.land_spec, Z.bits_0.
  all: destruct (Z.lt_ge_cases n 8).
  all: try (rewrite Z.mod_pow2_bits_low by lia;
            change 256 with (2 ^ 8); rewrite Z.mul_pow2_bits_low by lia; reflexivity).
  all: rewrite (Z.bits_above_log2 b n); [apply andb_false_r | lia |].
  all: destruct (Z.eq_dec b 0) as [->|]; [simpl; lia|].
  all: apply Z.log2_lt_pow2; [lia|]; apply Z.lt_le_trans with (2 ^ 8); [lia|].
  all: apply Z.pow_le_mono_r; lia.
Qed.

(** Shifting in the [n] low bytes of [v], high byte first, on 64 bits. *)
Lemma fold_contents (n : nat) (v acc : Z) :
  0 <= v -> 0 <= acc < 2 ^ 64 ->
  fold_left (fun a b => Z.lor (to_uint64 (Z.shiftl a 8)) (to_uint64 b))
    (encodeInteger_contents n v) acc
  = (acc * 2 ^ (8 * Z.of_nat n) + v mod 2 ^ (8 * Z.of_nat n)) mod 2 ^ 64.
Proof.
  intros Hv. revert acc. induction n as [|n IH]; intros acc Hacc.
  { simpl. rewrite Z.mod_1_r, Z.mul_1_r, Z.add_0_r. symmetry. apply Z.mod_small. lia. }
  cbn [encodeInteger_contents fold_left].
  set (P := 2 ^ (8 * Z.of_nat n)).
  assert (HP : 0 < P) by (apply Z.pow_pos_nonneg; lia).
  assert (HP' : 2 ^ (8 * Z.of_nat (S n)) = 256 * P).
  { unfold P. replace (8 * Z.of_nat (S n)) with (8 + 8 * Z.of_nat n) by lia.
    rewrite Z.pow_add_r by lia. reflexivity. }
  set (byte := to_uint8 (Z.shiftr v (Z.of_nat n * 8))).
  assert (Hbyte : byte = (v / P) mod 256).
  { unfold byte, to_uint8, P. rewrite Z.shiftr_div_pow2 by lia.
    by rewrite (Z.mul_comm (Z.of_nat n)). }
  assert (Hb : 0 <= byte < 256) by (rewrite Hbyte; apply Z.mod_pos_bound; lia).
  rewrite lor_shifted_byte by lia.
  assert (Hm : (acc * 256) mod 2 ^ 64 = (acc mod 2 ^ 56) * 256).
  { change (2 ^ 64) with (2 ^ 56 * 256). by rewrite Z.mul_mod_distr_r by lia. }
  rewrite Hm.
  pose proof (Z.mod_pos_bound acc (2 ^ 56) ltac:(lia)) as Hr.
  rewrite IH by lia. fold P. rewrite HP'. rewrite (Z.mul_comm 256 P).
  rewrite (Z.rem_mul_r v P 256) by lia. rewrite <- Hbyte.
  rewrite (Z.add_comm (v mod P)).
  replace (acc * (P * 256) + (P * byte + v mod P))
    with ((acc mod 2 ^ 56 * 256 + byte) * P + v mod P + (acc / 2 ^ 56 * P) * 2 ^ 64).
  { by rewrite Z_mod_plus_full. }
  rewrite (Z.div_mod acc (2 ^ 56)) at 3 by lia.
  change (2 ^ 64) with (2 ^ 56 * 256). ring.
Qed.

(** The nine bits the stripping loop looks at, when nothing above them
    is set. *)
Lemma encodeInteger_msb_small (v size : Z) :
  2 <= size <= 8 -> 0 <= v < 2 ^ (8 * size - 1) ->
  Z.land (encodeInteger_msb v size) 0x1FF = Z.shiftr v (8 * (size - 1) - 1)
  /\ 0 <= Z.shiftr v (8 * (size - 1) - 1) < 256.
Proof.
  intros Hs Hv. unfold encodeInteger_msb, to_uint16.
  replace ((size - 1) * 8 - 1) with (8 * (size - 1) - 1) by lia.
  set (sh := 8 * (size - 1) - 1).
  assert (Hx : 0 <= Z.shiftr v sh < 256).
  { rewrite Z.shiftr_div_pow2 by lia. split.
    - apply Z.div_pos; [lia | apply Z.pow_pos_nonneg; lia].
    - apply Z.div_lt_upper_bound; [apply Z.pow_pos_nonneg; lia|].
      change 256 with (2 ^ 8). rewrite <- Z.pow_add_r by lia.
      replace (sh + 8) with (8 * size - 1) by lia. lia. }
  split; [|exact Hx].
  change 0x1FF with (Z.ones 9). rewrite Z.land_ones by lia.
  rewrite (Z.mod_small _ 65536) by lia. apply Z.mod_small. lia.
Qed.

(** Away from the values whose bits from [8k - 1] up read 0xFF, the
    stripping loop only drops leading zero bytes that are followed by a
    clear bit: the value fits the bytes that are left as a non-negative
    number. *)
Lemma encodeInteger_strip_fits (n : nat) (v size : Z) :
  (forall k, 1 <= k <= 7 -> Z.shiftr v (8 * k - 1) <> 0xFF) ->
  1 <= size <= 8 -> 0 <= v < 2 ^ (8 * size - 1) ->
  1 <= encodeInteger_strip n v size <= size
  /\ v < 2 ^ (8 * encodeInteger_strip n v size - 1).
Proof.
  intros Hband. revert size. induction n as [|n IH]; intros size Hs Hv.
  { simpl. lia. }
  cbn [encodeInteger_strip].
  destruct (Z.geb_spec (size - 1) 1) as [Hge|Hlt].
  2: { rewrite andb_false_r. lia. }
  rewrite andb_true_r.
  destruct (encodeInteger_msb_small v size ltac:(lia) Hv) as [-> Hx].
  destruct (Z.eqb_spec (Z.shiftr v (8 * (size - 1) - 1)) 0) as [E0|N0].
  { simpl orb. cbv iota.
    assert (Hv' : 0 <= v < 2 ^ (8 * (size - 1) - 1)).
    { split; [lia|]. rewrite Z.shiftr_div_pow2 in E0 by lia.
      assert (0 < 2 ^ (8 * (size - 1) - 1)) by (apply Z.pow_pos_nonneg; lia).
      Z.div_mod_to_equations. lia. }
    destruct (IH (size - 1) ltac:(lia) Hv') as [H1 H2]. split; [lia | exact H2]. }
  destruct (Z.eqb_spec (Z.shiftr v (8 * (size - 1) - 1)) 255) as [E1|N1].
  { exfalso. apply (Hband (size - 1)); [lia | exact E1]. }
  simpl orb. cbv iota. lia.
Qed.

(** The sign test of decodeInteger on a byte. *)
Lemma land_0x80 (x : Z) :
  0 <= x < 256 -> (Z.land x 0x80 =? 0) = (x <? 128).
Proof.
  intros Hx.
  assert (H7 : Z.b2z (Z.testbit x 7) = (x / 2 ^ 7) mod 2) by (apply Z.testbit_spec'; lia).
  destruct (Z.ltb_spec x 128) as [Hlt|Hge].
  - assert (Hbit : Z.testbit x 7 = false).
    { destruct (Z.testbit x 7); [|reflexivity]. simpl in H7.
      Z.div_mod_to_equations. lia. }
    apply Z.eqb_eq. apply Z.bits_inj'. intros n Hn.
    rewrite Z.land_spec, Z.bits_0.
    destruct (Z.eq_dec n 7) as [->|Hne]; [by rewrite Hbit|].
    change 0x80 with (2 ^ 7). rewrite Z.pow2_bits_false by lia. apply andb_false_r.
  - assert (Hbit : Z.testbit x 7 = true).
    { destruct (Z.testbit x 7); [reflexivity|]. simpl in H7.
      Z.div_mod_to_equations. lia. }
    apply Z.eqb_neq. intros E.
    assert (Hc : Z.testbit (Z.land x 0x80) 7 = true).
    { rewrite Z.land_spec, Hbit. reflexivity. }
    rewrite E in Hc. discriminate Hc.
Qed.

Lemma encodeInteger_contents_head (s v : Z) (tail : DataBlock) :
  1 <= s ->
  (encodeInteger_contents (Z.to_nat s) v ++ tail).[0] = (v / 2 ^ (8 * (s - 1))) mod 256.
Proof.
  intros Hs. replace (Z.to_nat s) with (S (Z.to_nat (s - 1))) by lia.
  cbn [encodeInteger_contents app]. rewrite index_head.
  unfold to_uint8. rewrite Z.shiftr_div_pow2 by lia.
  by replace (Z.of_nat (Z.to_nat (s - 1)) * 8) with (8 * (s - 1)) by lia.
Qed.

(** What decodeInteger reads back from encodeInteger, in terms of the
    number [s] of content bytes the stripping loop settled on: the [s] low
    bytes of [v], sign-extended from the top bit of the first of them. *)
Lemma decodeInteger_encodeInteger_size (v s : Z) (tail : DataBlock) :
  0 <= v -> encodeInteger_strip 8 v 8 = s -> 1 <= s <= 8 ->
  decodeInteger (encodeInteger v true ++ tail) 8 true
  = Decoded s tail
      (Some (((if (v / 2 ^ (8 * (s - 1))) mod 256 <? 128 then 0 else 2 ^ 64 - 1)
              * 2 ^ (8 * s) + v mod 2 ^ (8 * s)) mod 2 ^ 64)).
Proof.
  intros Hv Es Hs. unfold encodeInteger. rewrite Es.
  set (contents := encodeInteger_contents (Z.to_nat s) v).
  assert (Hlen : DataBlock.length contents = s).
  { unfold DataBlock.length, contents. rewrite encodeInteger_contents_length. lia. }
  destruct (Z.eqb_spec s 0); [lia|]. rewrite Hlen.
  destruct (Z.eqb_spec s 0); [lia|].
  unfold DataBlock.append, decodeInteger.
  rewrite <- !app_assoc. rewrite <- !app_comm_cons.
  pose proof (length_nonneg tail) as Ht.
  assert (Hbl : 1 <= DataBlock.length (buildLength contents))
    by (apply buildLength_length; lia).
  rewrite length_cons, !length_app_Z, index_head, cut_head, Hlen.
  destruct (Z.ltb_spec (1 + (DataBlock.length (buildLength contents)
                             + (s + DataBlock.length tail))) 2); [lia|].
  change (INTEGER =? INTEGER) with true. simpl negb. simpl andb. cbv iota.
  rewrite decodeLength_buildLength by lia. rewrite Hlen.
  destruct (Z.ltb_spec s 0); [lia|].
  rewrite to_uint32_small by lia. rewrite length_app_Z, Hlen, Z.gtb_ltb.
  destruct (Z.ltb_spec (s + DataBlock.length tail) s); [lia|].
  replace (DataBlock.cut (- s) (contents ++ tail)) with tail
    by (rewrite <- Hlen; symmetry; apply cut_app_front).
  f_equal. f_equal.
  replace (Z.to_nat s) with (List.length contents)
    by (unfold DataBlock.length in Hlen; lia).
  rewrite (decodeInteger_loop_bytes contents [] tail 0) by reflexivity.
  unfold contents. rewrite encodeInteger_contents_head by lia.
  assert (Hpow : 0 < 2 ^ (8 * (s - 1))) by (apply Z.pow_pos_nonneg; lia).
  pose proof (Z.mod_pos_bound (v / 2 ^ (8 * (s - 1))) 256 ltac:(lia)) as Hbyte.
  rewrite land_0x80 by exact Hbyte.
  destruct (Z.ltb_spec ((v / 2 ^ (8 * (s - 1))) mod 256) 128); simpl negb; cbv iota.
  - rewrite fold_contents by lia. by replace (8 * Z.of_nat (Z.to_nat s)) with (8 * s) by lia.
  - rewrite fold_contents by (change (to_uint64 (-1)) with (2 ^ 64 - 1); lia).
    by replace (8 * Z.of_nat (Z.to_nat s)) with (8 * s) by lia.
Qed.

(** Outside the ranges where encodeInteger drops a byte too many, the
    bytes it keeps read back as the value. *)
Lemma encodeInteger_sign_extension (v : Z) :
  0 <= v < 2 ^ 64 ->
  (forall k, 1 <= k <= 7 -> Z.shiftr v (8 * k - 1) <> 0xFF) ->
  let s := encodeInteger_strip 8 v 8 in
  1 <= s <= 8
  /\ ((if (v / 2 ^ (8 * (s - 1))) mod 256 <? 128 then 0 else 2 ^ 64 - 1)
      * 2 ^ (8 * s) + v mod 2 ^ (8 * s)) mod 2 ^ 64 = v.
Proof.
  intros Hv Hband s.
  assert (Hs : 1 <= s <= 8 /\ (v < 2 ^ (8 * s - 1) \/ (s = 8 /\ 2 ^ 63 <= v))).
  { destruct (Z.lt_ge_cases v (2 ^ 63)) as [Hlt|Hge].
    - destruct (encodeInteger_strip_fits 8 v 8 Hband ltac:(lia) ltac:(lia)) as [H1 H2].
      fold s in H1, H2. split; [lia | by left].
    - assert (E : s = 8) by (apply encodeInteger_strip_negative; lia).
      split; [lia | right; split; [exact E | lia]]. }
  destruct Hs as [Hs Hsign]. split; [exact Hs|].
  assert (Hpow : 0 < 2 ^ (8 * (s - 1))) by (apply Z.pow_pos_nonneg; lia).
  destruct Hsign as [Hfit | [E Hneg]].
  - assert (Hsmall : v / 2 ^ (8 * (s - 1)) < 128).
    { apply Z.div_lt_upper_bound; [lia|]. change 128 with (2 ^ 7).
      rewrite <- Z.pow_add_r by lia.
      by replace (8 * (s - 1) + 7) with (8 * s - 1) by lia. }
    assert (0 <= v / 2 ^ (8 * (s - 1))) by (apply Z.div_pos; lia).
    rewrite (Z.mod_small _ 256) by lia.
    destruct (Z.ltb_spec (v / 2 ^ (8 * (s - 1))) 128); [|lia].
    assert (Hle : 2 ^ (8 * s - 1) <= 2 ^ (8 * s)) by (apply Z.pow_le_mono_r; lia).
    assert (Hle' : 2 ^ (8 * s) <= 2 ^ 64) by (apply Z.pow_le_mono_r; lia).
    rewrite Z.mul_0_l, Z.add_0_l, (Z.mod_small v) by lia. apply Z.mod_small. lia.
  - rewrite E. change (8 * (8 - 1)) with 56. change (8 * 8) with 64.
    assert (128 <= v / 2 ^ 56 < 256).
    { split; [apply Z.div_le_lower_bound | apply Z.div_lt_upper_bound]; lia. }
    rewrite (Z.mod_small _ 256) by lia.
    destruct (Z.ltb_spec (v / 2 ^ 56) 128); [lia|].
    rewrite (Z.mod_small v) by lia. rewrite Z.add_comm, Z_mod_plus_full.
    apply Z.mod_small. lia.
Qed.

(** Extra X3: a 64 bit value comes back from decodeInteger as
    encodeInteger wrote it, in one to eight content bytes, provided that
    for no [k] from 1 to 7 its bits from [8k - 1] up read 0xFF - that is,
    the value is outside the seven ranges from [0x7F80 * 2^(8(k-1))] to
    [0x8000 * 2^(8(k-1))]; values with bit 63 set are always outside. *)
Theorem integer_round_trip (v : Z) (tail : DataBlock) :
  0 <= v < 2 ^ 64 ->
  (forall k, 1 <= k <= 7 -> Z.shiftr v (8 * k - 1) <> 0xFF) ->
  exists size, 1 <= size <= 8
    /\ decodeInteger (encodeInteger v true ++ tail) 8 true
       = Decoded size tail (Some v).
Proof.
  intros Hv Hband.
  destruct (encodeInteger_sign_extension v Hv Hband) as [Hs Hval].
  exists (encodeInteger_strip 8 v 8). split; [exact Hs|].
  rewrite (decodeInteger_encodeInteger_size v _ tail) by (try reflexivity; lia).
  cbv zeta in Hval. by rewrite Hval.
Qed.

Lemma integer_round_trip_witness :
  exists size, 1 <= size <= 8
    /\ decodeInteger (encodeInteger 300 true ++ [0x05; 0x00]) 8 true
       = Decoded size [0x05; 0x00] (Some 300).
Proof.
  apply (integer_round_trip 300 [0x05; 0x00]); [lia|].
  intros k Hk.
  assert (Hc : k = 1 \/ k = 2 \/ k = 3 \/ k = 4 \/ k = 5 \/ k = 6 \/ k = 7) by lia.
  destruct Hc as [-> | [-> | [-> | [-> | [-> | [-> | ->]]]]]]; vm_compute; discriminate.
Defined.

(** In the band: the bits of [v] from [8k - 1] up read 0xFF. *)
Lemma band_bounds (v k : Z) :
  1 <= k <= 7 -> Z.shiftr v (8 * k - 1) = 0xFF ->
  255 * 2 ^ (8 * k - 1) <= v < 256 * 2 ^ (8 * k - 1).
Proof.
  intros Hk E. rewrite Z.shiftr_div_pow2 in E by lia.
  assert (0 < 2 ^ (8 * k - 1)) by (apply Z.pow_pos_nonneg; lia).
  Z.div_mod_to_equations. nia.
Qed.

Lemma encodeInteger_strip_band (v k : Z) (n : nat) (size : Z) :
  1 <= k <= 7 -> Z.shiftr v (8 * k - 1) = 0xFF ->
  k <= size <= 8 -> size - k + 1 <= Z.of_nat n ->
  encodeInteger_strip n v size = k.
Proof.
  intros Hk E. pose proof (band_bounds v k Hk E) as Hv.
  assert (Hp : 0 < 2 ^ (8 * k - 1)) by (apply Z.pow_pos_nonneg; lia).
  revert size. induction n as [|n IH]; intros size Hs Hn; [lia|].
  cbn [encodeInteger_strip].
  destruct (Z.geb_spec (size - 1) 1) as [Hge|Hlt].
  2: { rewrite andb_false_r. lia. }
  rewrite andb_true_r.
  destruct (Z.eq_dec size k) as [->|Hne].
  - (* the byte below the dropped 0x7F starts with a set bit *)
    set (x := Z.shiftr v (8 * (k - 1) - 1)).
    assert (Hx : 255 * 256 <= x < 256 * 256).
    { unfold x. rewrite Z.shiftr_div_pow2 by lia.
      assert (Hq : 0 < 2 ^ (8 * (k - 1) - 1)) by (apply Z.pow_pos_nonneg; lia).
      assert (Hpp : 2 ^ (8 * k - 1) = 256 * 2 ^ (8 * (k - 1) - 1)).
      { change 256 with (2 ^ 8). rewrite <- Z.pow_add_r by lia. f_equal. lia. }
      rewrite Hpp in Hv.
      split; [apply Z.div_le_lower_bound | apply Z.div_lt_upper_bound]; lia. }
    assert (Hm : Z.land (encodeInteger_msb v k) 0x1FF = x mod 512).
    { unfold encodeInteger_msb, to_uint16.
      replace ((k - 1) * 8 - 1) with (8 * (k - 1) - 1) by lia. fold x.
      change 0x1FF with (Z.ones 9). rewrite Z.land_ones by lia.
      by rewrite (Z.mod_small x 65536) by lia. }
    rewrite Hm.
    assert (256 <= x mod 512) by (Z.div_mod_to_equations; lia).
    destruct (Z.eqb_spec (x mod 512) 0); [lia|].
    destruct (Z.eqb_spec (x mod 512) 255); [lia|]. reflexivity.
  - assert (Hm : Z.land (encodeInteger_msb v size) 0x1FF
                 = Z.shiftr v (8 * (size - 1) - 1)).
    { apply encodeInteger_msb_small; [lia|]. split; [lia|].
      apply Z.lt_le_trans with (256 * 2 ^ (8 * k - 1)); [lia|].
      change 256 with (2 ^ 8). rewrite <- Z.pow_add_r by lia.
      apply Z.pow_le_mono_r; lia. }
    rewrite Hm.
    destruct (Z.eq_dec size (k + 1)) as [->|Hne'].
    + replace (8 * (k + 1 - 1) - 1) with (8 * k - 1) by lia. rewrite E.
      simpl. replace (k + 1 - 1) with k by lia. apply IH; lia.
    + assert (E0 : Z.shiftr v (8 * (size - 1) - 1) = 0).
      { rewrite Z.shiftr_div_pow2 by lia. apply Z.div_small. split; [lia|].
        apply Z.lt_le_trans with (256 * 2 ^ (8 * k - 1)); [lia|].
        change 256 with (2 ^ 8). rewrite <- Z.pow_add_r by lia.
        apply Z.pow_le_mono_r; lia. }
      rewrite E0. simpl. apply IH; lia.
Qed.

(** Extra X4: when the bits of a value from [8k - 1] up read 0xFF, for
    a [k] from 1 to 7, encodeInteger also drops the byte 0x7F above the
    [k] low bytes, and decodeInteger reads these [k] bytes as a negative
    number: the value comes back lowered by [2^(8k+7)], modulo 2^64. *)
Theorem integer_band_flips_sign (v k : Z) (tail : DataBlock) :
  1 <= k <= 7 -> Z.shiftr v (8 * k - 1) = 0xFF ->
  decodeInteger (encodeInteger v true ++ tail) 8 true
  = Decoded k tail (Some (v + 2 ^ 64 - 2 ^ (8 * k + 7))).
Proof.
  intros Hk E. pose proof (band_bounds v k Hk E) as Hv.
  assert (Hp : 0 < 2 ^ (8 * k - 1)) by (apply Z.pow_pos_nonneg; lia).
  rewrite (decodeInteger_encodeInteger_size v k tail);
    [| lia | apply (encodeInteger_strip_band v k 8 8 Hk E); lia | lia].
  f_equal. f_equal.
  assert (Hq : 0 < 2 ^ (8 * (k - 1))) by (apply Z.pow_pos_nonneg; lia).
  assert (H1 : 2 ^ (8 * k - 1) = 128 * 2 ^ (8 * (k - 1))).
  { change 128 with (2 ^ 7). rewrite <- Z.pow_add_r by lia. f_equal. lia. }
  assert (H2 : 2 ^ (8 * k) = 256 * 2 ^ (8 * (k - 1))).
  { change 256 with (2 ^ 8). rewrite <- Z.pow_add_r by lia. f_equal. lia. }
  assert (H3 : 2 ^ (8 * k + 7) = 128 * 2 ^ (8 * k)).
  { change 128 with (2 ^ 7). rewrite <- Z.pow_add_r by lia. f_equal. lia. }
  assert (H4 : 2 ^ (8 * k) <= 2 ^ 56) by (apply Z.pow_le_mono_r; lia).
  set (Q := 2 ^ (8 * (k - 1))) in *.
  assert (Hd : v / Q = 127 * 256 + (v / Q) mod 256 /\ 128 <= (v / Q) mod 256).
  { rewrite H1 in Hv.
    assert (255 * 128 <= v / Q < 256 * 128).
    { split; [apply Z.div_le_lower_bound | apply Z.div_lt_upper_bound]; lia. }
    Z.div_mod_to_equations. lia. }
  destruct Hd as [Hd Hb].
  destruct (Z.ltb_spec ((v / Q) mod 256) 128); [lia|].
  assert (Hmod : v mod 2 ^ (8 * k) = v - 127 * 2 ^ (8 * k)).
  { rewrite H2. rewrite (Z.mul_comm 256 Q), Z.rem_mul_r by lia.
    pose proof (Z.div_mod v Q ltac:(lia)). lia. }
  rewrite Hmod, H3.
  replace ((2 ^ 64 - 1) * 2 ^ (8 * k) + (v - 127 * 2 ^ (8 * k)))
    with (v + 2 ^ 64 - 128 * 2 ^ (8 * k) + (2 ^ (8 * k) - 1) * 2 ^ 64) by ring.
  rewrite Z_mod_plus_full. apply Z.mod_small.
  rewrite H1, H2 in *. lia.
Qed.

(** 0x7FFF00 is written as FF 00 and comes back as 2^64 - 256. *)
Lemma integer_band_flips_sign_witness :
  decodeInteger (encodeInteger 0x7FFF00 true ++ []) 8 true
  = Decoded 2 [] (Some (0x7FFF00 + 2 ^ 64 - 2 ^ (8 * 2 + 7))).
Proof.
  apply (integer_band_flips_sign 0x7FFF00 2 []); [lia | vm_compute; reflexivity].
Defined.

(** Extra X5: encodeSequence and encodeSet put the tag and the length in
    front of a block of fewer than 2^31 bytes and return the number of
    length bytes, from 1 to 5; decodeSequence and decodeSet take exactly
    these bytes away again and return the length of the block, leaving
    the block itself and what follows it. *)
Theorem sequence_round_trip (data tail : DataBlock) :
  DataBlock.length data < 2 ^ 31 ->
  decodeSequence ((encodeSequence data true).2 ++ tail) true
    = (DataBlock.length data, data ++ tail)
  /\ decodeSet ((encodeSet data true).2 ++ tail) true
     = (DataBlock.length data, data ++ tail)
  /\ 1 <= (encodeSequence data true).1 <= 5
  /\ 1 <= (encodeSet data true).1 <= 5.
Proof.
  intros HL. pose proof (buildLength_length data HL) as Hbl.
  pose proof (length_nonneg data). pose proof (length_nonneg tail).
  assert (Hdec : forall tag,
    (if DataBlock.length ((([tag] ++ buildLength data ++ data)) ++ tail) <? 2
     then (InvalidLengthOrTag, ([tag] ++ buildLength data ++ data) ++ tail)
     else if true && negb ((([tag] ++ buildLength data ++ data) ++ tail).[0] =? tag)
     then (InvalidLengthOrTag, ([tag] ++ buildLength data ++ data) ++ tail)
     else decodeLength (DataBlock.cut (-1) (([tag] ++ buildLength data ++ data) ++ tail)))
    = (DataBlock.length data, data ++ tail)).
  { intros tag. cbn [app]. rewrite index_head, cut_head, length_cons, !length_app_Z.
    rewrite Z.eqb_refl. simpl negb. simpl andb. cbv iota. rewrite <- app_assoc.
    match goal with |- context [?a <? 2] => destruct (Z.ltb_spec a 2) as [Hlt|_] end;
      [lia|].
    by apply decodeLength_buildLength. }
  split; [apply (Hdec SEQUENCE)|]. split; [apply (Hdec SET)|].
  assert (Hfive : DataBlock.length (buildLength data) <= 5).
  { rewrite buildLength_bytes by exact HL.
    repeat case_match; unfold DataBlock.length; simpl; lia. }
  split; cbn [encodeSequence encodeSet fst]; lia.
Qed.

Lemma sequence_round_trip_witness :
  decodeSequence ((encodeSequence [0x05; 0x00] true).2 ++ [0xFF]) true
  = (2, [0x05; 0x00; 0xFF]).
Proof.
  apply (sequence_round_trip [0x05; 0x00] [0xFF]). vm_compute. reflexivity.
Defined.

(** Cutting from the front leaves a suffix. *)
Lemma cut_suffix (len : Z) (d : DataBlock) :
  len <= 0 -> DataBlock.cut len d `suffix_of` d.
Proof.
  intros Hlen. unfold DataBlock.cut.
  destruct (Z.eqb_spec len 0); [reflexivity|].
  destruct (Z.abs len >=? DataBlock.length d); [apply suffix_nil|].
  destruct (Z.ltb_spec len 0); [apply suffix_drop | lia].
Qed.

Lemma decodeLength_suffix (data : DataBlock) :
  (decodeLength data).2 `suffix_of` data.
Proof.
  unfold decodeLength. repeat case_match; simpl; try reflexivity.
  - apply cut_suffix. unfold to_uint8.
    pose proof (Z.mod_pos_bound (Z.land (data.[0] mod 256) (Z.lnot ASN_LONG_LENGTH)) 256).
    lia.
  - by apply cut_suffix.
Qed.

(** What the decoders do to the block after their first two tests: the
    tag is cut when it is checked, and the length is read. *)
Lemma tag_length_suffix (tagCheck : bool) (data data' : DataBlock) (length : Z) :
  decodeLength (if tagCheck then DataBlock.cut (-1) data else data) = (length, data') ->
  data' `suffix_of` data.
Proof.
  intros E.
  pose proof (decodeLength_suffix (if tagCheck then DataBlock.cut (-1) data else data))
    as Hs.
  rewrite E in Hs. simpl in Hs. etrans; [exact Hs|].
  destruct tagCheck; [by apply cut_suffix | reflexivity].
Qed.

Ltac suffix_cases :=
  repeat match goal with
    | |- context [if ?b then _ else _] => destruct b eqn:?
    end; cbn [rest]; try reflexivity.

(** Extra X6: decodeLength, decodeBoolean, decodeInteger,
    decodeOctetString, decodeNull, decodeOID, decodeString, decodeSequence
    and decodeSet only take bytes from the front of the block: whatever
    they return, success or error, the block after the call is a suffix
    of the block before. *)
Theorem decoders_consume_from_the_front :
  (forall data, (decodeLength data).2 `suffix_of` data)
  /\ (forall data val tagCheck, rest (decodeBoolean data val tagCheck) `suffix_of` data)
  /\ (forall data bytes tagCheck, rest (decodeInteger data bytes tagCheck) `suffix_of` data)
  /\ (forall data val tagCheck, rest (decodeOctetString data val tagCheck) `suffix_of` data)
  /\ (forall data tagCheck, rest (decodeNull data tagCheck) `suffix_of` data)
  /\ (forall data obj tagCheck, rest (decodeOID data obj tagCheck) `suffix_of` data)
  /\ (forall data str type tagCheck,
        rest (decodeString data str type tagCheck) `suffix_of` data)
  /\ (forall data tagCheck, (decodeSequence data tagCheck).2 `suffix_of` data)
  /\ (forall data tagCheck, (decodeSet data tagCheck).2 `suffix_of` data).
Proof.
  repeat apply conj.
  - apply decodeLength_suffix.
  - intros data val tagCheck. unfold decodeBoolean.
    destruct (DataBlock.length data <? 2); [reflexivity|].
    destruct (tagCheck && negb (data.[0] =? BOOLEAN)); [reflexivity|].
    destruct (decodeLength _) as [length data'] eqn:E.
    pose proof (tag_length_suffix _ _ _ _ E) as Hs.
    suffix_cases; try exact Hs; (etrans; [|exact Hs]); by apply cut_suffix.
  - intros data bytes tagCheck. unfold decodeInteger.
    destruct (DataBlock.length data <? 2); [reflexivity|].
    destruct (tagCheck && negb (data.[0] =? INTEGER)); [reflexivity|].
    destruct (decodeLength _) as [length data'] eqn:E.
    pose proof (tag_length_suffix _ _ _ _ E) as Hs.
    destruct (Z.ltb_spec length 0); [exact Hs|].
    suffix_cases; try exact Hs; (etrans; [|exact Hs]); apply cut_suffix; lia.
  - intros data val tagCheck. unfold decodeOctetString.
    destruct (DataBlock.length data <? 2); [reflexivity|].
    destruct (tagCheck && negb (data.[0] =? OCTET_STRING)); [reflexivity|].
    destruct (decodeLength _) as [length data'] eqn:E.
    pose proof (tag_length_suffix _ _ _ _ E) as Hs.
    destruct (Z.ltb_spec length 0); [exact Hs|].
    suffix_cases; try exact Hs; (etrans; [|exact Hs]); apply cut_suffix; lia.
  - intros data tagCheck. unfold decodeNull.
    destruct (tagCheck && (DataBlock.length data <? 2)); [reflexivity|].
    destruct (tagCheck && negb (data.[0] =? NULL_ID)); [reflexivity|].
    destruct (decodeLength _) as [length data'] eqn:E.
    pose proof (tag_length_suffix _ _ _ _ E) as Hs.
    suffix_cases; exact Hs.
  - intros data obj tagCheck. unfold decodeOID.
    destruct (DataBlock.length data <? 2); [reflexivity|].
    destruct (tagCheck && negb (data.[0] =? OBJECT_ID)); [reflexivity|].
    destruct (decodeLength _) as [length data'] eqn:E.
    pose proof (tag_length_suffix _ _ _ _ E) as Hs.
    destruct (Z.ltb_spec length 0); [exact Hs|].
    suffix_cases; try exact Hs; (etrans; [|exact Hs]); apply cut_suffix; lia.
  - intros data str type tagCheck. unfold decodeString.
    destruct (DataBlock.length data <? 2); [reflexivity|].
    destruct (tagCheck && _); [reflexivity|].
    destruct (decodeLength _) as [length data'] eqn:E.
    pose proof (tag_length_suffix _ _ _ _ E) as Hs.
    destruct (Z.ltb_spec length 0); [exact Hs|].
    suffix_cases; try exact Hs; (etrans; [|exact Hs]); apply cut_suffix; lia.
  - intros data tagCheck. unfold decodeSequence.
    destruct (DataBlock.length data <? 2); [reflexivity|].
    destruct (tagCheck && negb (data.[0] =? SEQUENCE)); [reflexivity|].
    destruct (decodeLength _) as [length data'] eqn:E.
    exact (tag_length_suffix _ _ _ _ E).
  - intros data tagCheck. unfold decodeSet.
    destruct (DataBlock.length data <? 2); [reflexivity|].
    destruct (tagCheck && negb (data.[0] =? SET)); [reflexivity|].
    destruct (decodeLength _) as [length data'] eqn:E.
    exact (tag_length_suffix _ _ _ _ E).
Qed.

Lemma cut_last (d : DataBlock) (z : Z) : DataBlock.cut 1 (d ++ [z]) = d.
Proof.
  unfold DataBlock.cut. rewrite length_app_Z.
  change (DataBlock.length [z]) with 1. pose proof (length_nonneg d) as Hd.
  change (1 =? 0) with false. change (Z.abs 1) with 1. change (1 <? 0) with false.
  cbv iota.
  destruct (Z.geb_spec 1 (DataBlock.length d + 1)) as [Hge|Hlt].
  { destruct d; [reflexivity|]. rewrite length_cons in Hge.
    pose proof (length_nonneg d). lia. }
  replace (Z.to_nat (DataBlock.length d + 1 - 1)) with (List.length d)
    by (unfold DataBlock.length; lia).
  by rewrite take_app_length.
Qed.

(** Extra X7: decodeBitString is the exception.  On a BIT STRING of
    length zero (03 00) it takes the byte that follows the element for
    the count of unused bits and, when that byte is at most 7, removes
    it, removes the last byte of the block as well ([cut] with a positive
    count), and returns -1 (with an empty text), or InvalidContentsError
    when the output pointer is null. *)
Theorem decodeBitString_empty_eats_neighbours (b z : Z) (tail : DataBlock) (val : bool) :
  0 <= b <= 7 ->
  decodeBitString ([BIT_STRING; 0; b] ++ tail ++ [z]) val true
  = Decoded (if val then -1 else InvalidContentsError) tail
      (if val then Some EmptyString else None).
Proof.
  intros Hb. unfold decodeBitString. cbn [app].
  rewrite !length_cons, index_head, cut_head.
  pose proof (length_nonneg (tail ++ [z])) as Ht.
  match goal with |- context [?a <? 2] => destruct (Z.ltb_spec a 2); [lia|] end.
  change (BIT_STRING =? BIT_STRING) with true. simpl negb. simpl andb. cbv iota.
  rewrite decodeLength_short by lia.
  change (0 <? 0) with false. cbv iota.
  rewrite length_cons, index_head, cut_head.
  change (to_uint32 0) with 0. rewrite !Z.gtb_ltb.
  match goal with |- context [?a <? 0] => destruct (Z.ltb_spec a 0); [lia|] end.
  destruct (Z.ltb_spec 7 b); [lia|].
  change (- (0 - 1)) with 1. rewrite cut_last.
  destruct val; reflexivity.
Qed.

(** An empty BIT STRING followed by a NULL and a BOOLEAN: the tag of the
    NULL and the value of the BOOLEAN are gone. *)
Lemma decodeBitString_empty_eats_neighbours_witness :
  decodeBitString ([BIT_STRING; 0; 0x05] ++ [0x00; 0x01; 0x01] ++ [0xFF]) true true
  = Decoded (-1) [0x00; 0x01; 0x01] (Some EmptyString).
Proof.
  apply (decodeBitString_empty_eats_neighbours 0x05 0xFF [0x00; 0x01; 0x01] true). lia.
Defined.

Lemma decodeString_loop_bytes (s : string) (pre tail : DataBlock) (i : Z) :
  seven_bit s = true -> DataBlock.length pre = i ->
  decodeString_loop (pre ++ bytes_of_string s ++ tail) (String.length s) i = s.
Proof.
  revert pre i. induction s as [|c s IH]; intros pre i H7 Hpre; [reflexivity|].
  unfold seven_bit in H7. cbn [list_ascii_of_string forallb] in H7.
  apply andb_true_iff in H7 as [Hc H7].
  cbn [String.length decodeString_loop].
  change (bytes_of_string (String c s))
    with (Z.of_nat (nat_of_ascii c) :: bytes_of_string s).
  assert (Hb : (pre ++ (Z.of_nat (nat_of_ascii c) :: bytes_of_string s) ++ tail).[i]
               = Z.of_nat (nat_of_ascii c)).
  { rewrite <- Hpre. unfold DataBlock.length. apply index_lookup.
    rewrite lookup_app_r by lia. by rewrite Nat.sub_diag. }
  rewrite Hb. f_equal.
  - apply andb_true_iff in Hc as [_ Hc]. apply Z.ltb_lt in Hc.
    change 0x7f with (Z.ones 7). rewrite Z.land_ones by lia.
    rewrite Z.mod_small by lia. rewrite Nat2Z.id. apply ascii_nat_embedding.
  - replace (pre ++ (Z.of_nat (nat_of_ascii c) :: bytes_of_string s) ++ tail)
      with ((pre ++ [Z.of_nat (nat_of_ascii c)]) ++ bytes_of_string s ++ tail)
      by (by rewrite <- app_assoc).
    apply IH; [exact H7|].
    unfold DataBlock.length in *. rewrite length_app. simpl. lia.
Qed.

Lemma bytes_of_string_length (s : string) :
  DataBlock.length (bytes_of_string s) = YString.length s.
Proof.
  unfold DataBlock.length, YString.length, bytes_of_string. rewrite length_map.
  f_equal. induction s as [|c s IH]; [reflexivity|]. simpl. by rewrite IH.
Qed.

(** Extra X8: a text of 1 to 2^31 - 1 characters, each from 1 to 127,
    that encodeString wrote with one of the four string tags comes back
    from decodeString only when the caller takes the tag away and decodes
    without the tag check (nothing is then stored through [type]); with
    the tag check decodeString refuses the encoding with
    InvalidLengthOrTag and leaves the block as it was. *)
Theorem string_round_trip_without_tag_check (s : string) (type : Z) (tail : DataBlock) :
  type = NUMERIC_STR \/ type = PRINTABLE_STR \/ type = IA5_STR \/ type = VISIBLE_STR ->
  seven_bit s = true -> 0 < YString.length s < 2 ^ 31 ->
  exists coded,
    encodeString s type true = type :: coded
    /\ decodeString (coded ++ tail) true true false
       = Decoded (YString.length s) tail (Some (s, None))
    /\ decodeString (encodeString s type true ++ tail) true true true
       = Decoded InvalidLengthOrTag (encodeString s type true ++ tail) None.
Proof.
  intros Hty H7 Hlen.
  exists (buildLength (bytes_of_string s) ++ bytes_of_string s).
  pose proof (bytes_of_string_length s) as Hb.
  assert (Henc : encodeString s type true
                 = type :: buildLength (bytes_of_string s) ++ bytes_of_string s).
  { unfold encodeString.
    assert (Hsel : (type =? NUMERIC_STR) || (type =? PRINTABLE_STR)
                   || (type =? IA5_STR) || (type =? VISIBLE_STR) = true).
    { destruct Hty as [-> | [-> | [-> | ->]]]; reflexivity. }
    rewrite Hsel, Hb.
    destruct (Z.eqb_spec (YString.length s) 0); [lia|].
    unfold DataBlock.append. f_equal.
    destruct Hty as [-> | [-> | [-> | ->]]]; reflexivity. }
  split; [exact Henc|]. split.
  - unfold decodeString.
    pose proof (buildLength_length (bytes_of_string s) ltac:(lia)) as Hbl.
    pose proof (length_nonneg tail) as Ht.
    rewrite <- app_assoc. rewrite !length_app_Z, Hb.
    match goal with |- context [?a <? 2] => destruct (Z.ltb_spec a 2); [lia|] end.
    simpl andb. cbv iota.
    rewrite decodeLength_buildLength by lia. rewrite Hb.
    destruct (Z.ltb_spec (YString.length s) 0); [lia|].
    rewrite to_uint32_small by lia. rewrite length_app_Z, Hb, Z.gtb_ltb.
    match goal with |- context [?a <? ?b] => destruct (Z.ltb_spec a b); [lia|] end.
    simpl. f_equal.
    + rewrite <- Hb. apply cut_app_front.
    + f_equal. f_equal.
      replace (Z.to_nat (YString.length s)) with (String.length s)
        by (unfold YString.length; lia).
      by apply (decodeString_loop_bytes s [] tail 0).
  - unfold decodeString.
    destruct (DataBlock.length _ <? 2); [reflexivity|].
    destruct (Z.eqb_spec (encodeString s type true ++ tail).[0] NUMERIC_STR) as [E|];
      [|reflexivity].
    rewrite E. reflexivity.
Qed.

Lemma string_round_trip_without_tag_check_witness :
  exists coded,
    encodeString "yate" IA5_STR true = IA5_STR :: coded
    /\ decodeString (coded ++ [0x05; 0x00]) true true false
       = Decoded (YString.length "yate") [0x05; 0x00] (Some ("yate"%string, None))
    /\ decodeString (encodeString "yate" IA5_STR true ++ [0x05; 0x00]) true true true
       = Decoded InvalidLengthOrTag (encodeString "yate" IA5_STR true ++ [0x05; 0x00])
           None.
Proof.
  apply (string_round_trip_without_tag_check "yate" IA5_STR [0x05; 0x00]);
    [right; right; left; reflexivity | reflexivity | vm_compute; split; reflexivity].
Defined.

Lemma bits_text_app (a b : list bool) :
  bits_text (a ++ b) = (bits_text a +:+ bits_text b)%string.
Proof. induction a as [|x a IH]; [reflexivity|]. simpl. by rewrite IH. Qed.

Lemma bits_text_length (bs : list bool) :
  String.length (bits_text bs) = List.length bs.
Proof. induction bs as [|b bs IH]; [reflexivity|]. simpl. by rewrite IH. Qed.

Lemma zeros_bits (n : nat) : zeros n = bits_text (replicate n false).
Proof. induction n as [|n IH]; [reflexivity|]. simpl. by rewrite IH. Qed.

Lemma substring_bits (pre c r : list bool) :
  String.substring (List.length pre) (List.length c) (bits_text (pre ++ c ++ r))
  = bits_text c.
Proof.
  induction pre as [|x pre IH]; [|exact IH].
  simpl app. revert r. induction c as [|y c IH]; intros r.
  - simpl. by destruct (bits_text r).
  - simpl. by rewrite IH.
Qed.

(** One byte of a bit string: eight characters are read as a number in
    base 2, and the number is written back as the same characters. *)
Lemma chunk_round_trip (c : list bool) :
  List.length c = 8%nat ->
  to_uint8 (YString.toInteger 0 2 (bits_text c)) = byte_of_bits c
  /\ decodeBitString_bits 8 (to_uint8 (byte_of_bits c)) = bits_text c.
Proof.
  intros Hc.
  do 8 (destruct c as [|? c]; [discriminate Hc|]).
  destruct c; [|discriminate Hc]. clear Hc.
  repeat match goal with b : bool |- _ => destruct b end;
    split; vm_compute; reflexivity.
Qed.

Lemma bits_text_YString_length (bs : list bool) :
  YString.length (bits_text bs) = Z.of_nat (List.length bs).
Proof. unfold YString.length. by rewrite bits_text_length. Qed.

(** The loop of encodeBitString walks the text eight characters at a
    time. *)
Lemma encodeBitString_loop_chunks (chunks : list (list bool)) :
  Forall (fun c => List.length c = 8%nat) chunks ->
  forall (pre : list bool) (n : nat) (i : Z),
    Z.of_nat (List.length pre) = i -> (List.length chunks <= n)%nat ->
    encodeBitString_loop n i (bits_text (pre ++ concat chunks))
    = map byte_of_bits chunks.
Proof.
  induction 1 as [|c chunks Hc Hall IH]; intros pre n i Hpre Hn.
  - simpl concat. rewrite app_nil_r. destruct n as [|n]; [reflexivity|].
    cbn [encodeBitString_loop]. rewrite bits_text_YString_length.
    destruct (Z.ltb_spec i (Z.of_nat (List.length pre))); [lia | reflexivity].
  - destruct n as [|n]; [simpl in Hn; lia|].
    cbn [encodeBitString_loop concat map]. rewrite bits_text_YString_length.
    rewrite !length_app, Hc.
    destruct (Z.ltb_spec i (Z.of_nat (List.length pre + (8 + List.length (concat chunks)))));
      [|lia].
    f_equal.
    + unfold YString.substr. rewrite bits_text_YString_length.
      rewrite !length_app, Hc.
      destruct (Z.ltb_spec i 0); [lia|].
      rewrite Z.geb_leb.
      destruct (Z.leb_spec (Z.of_nat (List.length pre + (8 + List.length (concat chunks)))) i);
        [lia|].
      simpl orb. cbv iota. change (8 <? 0) with false. cbv iota.
      replace (Z.to_nat i) with (List.length pre) by lia.
      change (Z.to_nat 8) with 8%nat. rewrite <- Hc at 1.
      rewrite substring_bits. by apply chunk_round_trip.
    + replace (pre ++ c ++ concat chunks) with ((pre ++ c) ++ concat chunks)
        by (by rewrite <- app_assoc).
      apply IH; [rewrite length_app, Hc; lia | simpl in Hn; lia].
Qed.

(** The loop of decodeBitString writes eight characters for each byte. *)
Lemma decodeBitString_loop_chunks (chunks : list (list bool)) :
  Forall (fun c => List.length c = 8%nat) chunks ->
  forall (pre tail : DataBlock) (j : Z),
    DataBlock.length pre = j ->
    decodeBitString_loop (pre ++ map byte_of_bits chunks ++ tail) (List.length chunks) j
    = bits_text (concat chunks).
Proof.
  induction 1 as [|c chunks Hc Hall IH]; intros pre tail j Hpre; [reflexivity|].
  cbn [List.length decodeBitString_loop map concat].
  assert (Hb : (pre ++ (byte_of_bits c :: map byte_of_bits chunks) ++ tail).[j]
               = byte_of_bits c).
  { rewrite <- Hpre. unfold DataBlock.length. apply index_lookup.
    rewrite lookup_app_r by lia. by rewrite Nat.sub_diag. }
  rewrite Hb, bits_text_app. f_equal; [by apply chunk_round_trip|].
  replace (pre ++ (byte_of_bits c :: map byte_of_bits chunks) ++ tail)
    with ((pre ++ [byte_of_bits c]) ++ map byte_of_bits chunks ++ tail)
    by (by rewrite <- app_assoc).
  apply IH. unfold DataBlock.length in *. rewrite length_app. simpl. lia.
Qed.

(** A list of [8 m] bits is [m] groups of eight. *)
Lemma chunks_of_eight (m : nat) (bs : list bool) :
  List.length bs = (8 * m)%nat ->
  exists chunks, concat chunks = bs
    /\ Forall (fun c => List.length c = 8%nat) chunks
    /\ List.length chunks = m.
Proof.
  revert bs. induction m as [|m IH]; intros bs Hlen.
  - exists []. destruct bs; [by repeat split | simpl in Hlen; lia].
  - destruct (IH (drop 8 bs)) as (chunks & Hcat & Hall & Hm).
    { rewrite length_drop. lia. }
    exists (take 8 bs :: chunks). simpl. rewrite Hcat, take_drop.
    split; [reflexivity|]. split; [|by rewrite Hm].
    constructor; [|exact Hall]. rewrite length_take. lia.
Qed.

(** What encodeBitString writes for a text of bits whose number is not a
    multiple of eight. *)
Lemma encodeBitString_bytes (bs : list bool) :
  let l := Z.of_nat (List.length bs) in
  l mod 8 <> 0 ->
  exists chunks,
    concat chunks = bs ++ replicate (Z.to_nat (8 - l mod 8)) false
    /\ Forall (fun c => List.length c = 8%nat) chunks
    /\ Z.of_nat (List.length chunks) = l / 8 + 1
    /\ encodeBitString (bits_text bs) false
       = (8 - l mod 8) :: map byte_of_bits chunks.
Proof.
  intros l Hl.
  pose proof (Z.mod_pos_bound l 8 ltac:(lia)) as Hr.
  set (t := 8 - l mod 8) in *.
  set (padded := bs ++ replicate (Z.to_nat t) false).
  assert (Hpad : List.length padded = (8 * Z.to_nat (l / 8 + 1))%nat).
  { unfold padded. rewrite length_app, length_replicate. unfold t, l in *.
    Z.div_mod_to_equations. lia. }
  destruct (chunks_of_eight _ _ Hpad) as (chunks & Hcat & Hall & Hm).
  exists chunks. split; [exact Hcat|]. split; [exact Hall|].
  split. { rewrite Hm. unfold l in *. Z.div_mod_to_equations. lia. }
  unfold encodeBitString, DataBlock.append. cbn [app].
  rewrite bits_text_YString_length. fold l. fold t.
  assert (Ht : to_uint8 t = t) by (unfold to_uint8; apply Z.mod_small; lia).
  rewrite Ht. f_equal.
  rewrite zeros_bits, <- bits_text_app. fold padded.
  rewrite bits_text_length, <- Hcat.
  apply (encodeBitString_loop_chunks chunks Hall [] _ 0); [reflexivity|].
  rewrite Hcat, Hpad, Hm. lia.
Qed.

(** Extra X9: a text of fewer than 2^31 bits whose number is not a
    multiple of eight comes back from decodeBitString as encodeBitString
    wrote it; the returned length is the number of bytes that hold the
    bits, and the decoder leaves what follows the encoding. *)
Theorem bit_string_round_trip (bs : list bool) (tail : DataBlock) :
  Z.of_nat (List.length bs) mod 8 <> 0 ->
  Z.of_nat (List.length bs) < 2 ^ 31 ->
  decodeBitString (encodeBitString (bits_text bs) true ++ tail) true true
  = Decoded (Z.of_nat (List.length bs) / 8 + 1) tail (Some (bits_text bs)).
Proof.
  intros Hl Hsize. set (l := Z.of_nat (List.length bs)) in *.
  pose proof (Z.mod_pos_bound l 8 ltac:(lia)) as Hr.
  destruct (encodeBitString_bytes bs Hl) as (chunks & Hcat & Hall & Hm & Henc).
  fold l in Hcat, Hm, Henc.
  set (t := 8 - l mod 8) in *.
  set (bytes := map byte_of_bits chunks) in *.
  assert (Hbytes : DataBlock.length bytes = l / 8 + 1).
  { unfold DataBlock.length, bytes. rewrite length_map. exact Hm. }
  assert (Hdiv : 0 <= l / 8 < 2 ^ 28) by (unfold l in *; Z.div_mod_to_equations; lia).
  assert (Hfull : encodeBitString (bits_text bs) true
                  = BIT_STRING :: buildLength (t :: bytes) ++ t :: bytes).
  { unfold encodeBitString in Henc |- *. unfold DataBlock.append in *.
    cbn [app] in Henc. rewrite Henc. reflexivity. }
  rewrite Hfull. unfold decodeBitString.
  rewrite <- app_comm_cons, <- app_assoc.
  pose proof (length_nonneg tail) as Htl.
  assert (Hcl : DataBlock.length (t :: bytes) = l / 8 + 2)
    by (rewrite length_cons; lia).
  pose proof (buildLength_length (t :: bytes) ltac:(lia)) as Hbl.
  rewrite length_cons, index_head, cut_head, !length_app_Z, Hcl.
  match goal with |- context [?a <? 2] => destruct (Z.ltb_spec a 2); [lia|] end.
  change (BIT_STRING =? BIT_STRING) with true. simpl negb. simpl andb. cbv iota.
  rewrite decodeLength_buildLength by lia. rewrite Hcl.
  destruct (Z.ltb_spec (l / 8 + 2) 0); [lia|].
  rewrite to_uint32_small by lia.
  rewrite <- app_comm_cons, length_cons, index_head, cut_head, length_app_Z, Hbytes.
  rewrite !Z.gtb_ltb.
  match goal with |- context [?a <? ?b] => destruct (Z.ltb_spec a b); [lia|] end.
  destruct (Z.ltb_spec 7 t); [unfold t in *; lia|].
  simpl negb. cbv iota.
  replace (l / 8 + 2 - 1) with (l / 8 + 1) by lia.
  f_equal.
  - rewrite <- Hbytes. apply cut_app_front.
  - f_equal.
    replace (Z.to_nat (l / 8 + 1)) with (List.length chunks) by lia.
    pose proof (decodeBitString_loop_chunks chunks Hall [] tail 0 eq_refl) as Hd.
    cbn [app] in Hd. fold bytes in Hd. rewrite Hd.
    rewrite Hcat. unfold YString.substr.
    rewrite bits_text_YString_length, length_app, length_replicate.
    change (0 <? 0) with false. rewrite Z.geb_leb.
    match goal with |- context [?a <=? 0] => destruct (Z.leb_spec a 0); [unfold t, l in *; lia|] end.
    simpl orb. cbv iota.
    replace ((l / 8 + 1) * 8 - t) with l by (unfold t, l in *; Z.div_mod_to_equations; lia).
    destruct (Z.ltb_spec l 0); [unfold l in *; lia|].
    change (Z.to_nat 0) with 0%nat. unfold l. rewrite Nat2Z.id.
    apply (substring_bits [] bs).
Qed.

Lemma bit_string_round_trip_witness :
  decodeBitString
    (encodeBitString (bits_text [true; false; true; true; false; false; true; true;
                                 true; false]) true ++ [0x05; 0x00]) true true
  = Decoded (Z.of_nat 10 / 8 + 1) [0x05; 0x00] (Some "1011001110"%string).
Proof.
  apply (bit_string_round_trip
           [true; false; true; true; false; false; true; true; true; false]
           [0x05; 0x00]); vm_compute; [discriminate | reflexivity].
Defined.

End CodecRoundTrips.

(** * More of the BER codec: the sized integers *)

Section SizedIntegers.
Import ASNLib.

Lemma decodeSized_encodeInteger (cast : Z -> Z) (bytes x : Z) (tail : DataBlock)
    (intVal : bool) :
  (forall k, 1 <= k <= 7 -> Z.shiftr (to_uint64 x) (8 * k - 1) <> 0xFF) ->
  cast (to_uint64 x) = x ->
  let r := decodeSized cast bytes (encodeInteger (to_uint64 x) true ++ tail)
             intVal true in
  rest r = tail
  /\ value r = (if intVal then Some x else None)
  /\ (if intVal then 1 <= code r <= 8 else code r = InvalidContentsError).
Proof.
  intros Hband Hcast r.
  assert (Hv : 0 <= to_uint64 x < 2 ^ 64)
    by (unfold to_uint64; apply Z.mod_pos_bound; lia).
  destruct (encodeInteger_sign_extension (to_uint64 x) Hv Hband) as [Hs Hval].
  unfold r, decodeSized.
  change (decodeInteger (encodeInteger (to_uint64 x) true ++ tail) bytes true)
    with (decodeInteger (encodeInteger (to_uint64 x) true ++ tail) 8 true).
  rewrite (decodeInteger_encodeInteger_size (to_uint64 x) _ tail)
    by (try reflexivity; lia).
  cbv zeta in Hval. rewrite Hval.
  destruct intVal; cbn [negb rest value code fmap option_fmap option_map];
    repeat split; try lia. by rewrite Hcast.
Qed.

(** Extra X10: the decoders of the sized integers (decodeINT8 to
    decodeINT64, decodeUINT8 to decodeUINT64) give back every value of
    their type that encodeInteger encoded, outside the ranges where
    encodeInteger drops a byte too many; negative values are never in
    such a range.  With a null output pointer they return
    InvalidContentsError after the integer was taken from the block. *)
Theorem sized_integers_round_trip (x : Z) (tail : DataBlock) :
  (forall k, 1 <= k <= 7 -> Z.shiftr (to_uint64 x) (8 * k - 1) <> 0xFF) ->
  let coded := encodeInteger (to_uint64 x) true ++ tail in
  Forall (fun '(decode, low, high) =>
            low <= x < high ->
            rest (decode coded true true) = tail
            /\ value (decode coded true true) = Some x
            /\ rest (decode coded false true) = tail
            /\ code (decode coded false true) = InvalidContentsError)
    [(decodeINT8, - 2 ^ 7, 2 ^ 7); (decodeINT16, - 2 ^ 15, 2 ^ 15);
     (decodeINT32, - 2 ^ 31, 2 ^ 31); (decodeINT64, - 2 ^ 63, 2 ^ 63);
     (decodeUINT8, 0, 2 ^ 8); (decodeUINT16, 0, 2 ^ 16);
     (decodeUINT32, 0, 2 ^ 32); (decodeUINT64, 0, 2 ^ 64)].
Proof.
  intros Hband coded.
  assert (Hall : forall cast bytes,
             cast (to_uint64 x) = x ->
             rest (decodeSized cast bytes coded true true) = tail
             /\ value (decodeSized cast bytes coded true true) = Some x
             /\ rest (decodeSized cast bytes coded false true) = tail
             /\ code (decodeSized cast bytes coded false true) = InvalidContentsError).
  { intros cast bytes Hcast.
    destruct (decodeSized_encodeInteger cast bytes x tail true Hband Hcast)
      as (H1 & H2 & _).
    destruct (decodeSized_encodeInteger cast bytes x tail false Hband Hcast)
      as (H3 & _ & H4).
    by repeat split. }
  repeat (apply Forall_cons; split; [intros Hx; apply Hall|]); [..|apply Forall_nil_2];
    unfold to_int8, to_int16, to_int32, to_int64, to_uint8, to_uint16, to_uint32,
      to_uint64;
    repeat match goal with
      | |- context [?a <? ?b] => destruct (Z.ltb_spec a b)
      end;
    Z.div_mod_to_equations; lia.
Qed.

End SizedIntegers.

(** The value -5 as an [int8_t], followed by a NULL. *)
Lemma sized_integers_round_trip_witness :
  ASNLib.value
    (ASNLib.decodeINT8 (ASNLib.encodeInteger (to_uint64 (-5)) true ++ [0x05; 0x00])
       true true)
  = Some (-5).
Proof.
  assert (Hband : forall k, 1 <= k <= 7 ->
                    Z.shiftr (to_uint64 (-5)) (8 * k - 1) <> 0xFF).
  { intros k Hk.
    assert (Hc : k = 1 \/ k = 2 \/ k = 3 \/ k = 4 \/ k = 5 \/ k = 6 \/ k = 7) by lia.
    destruct Hc as [-> | [-> | [-> | [-> | [-> | [-> | ->]]]]]]; vm_compute; discriminate. }
  pose proof (sized_integers_round_trip (-5) [0x05; 0x00] Hband) as Hall.
  cbv zeta in Hall. apply Forall_cons in Hall as [Hint8 _].
  apply Hint8. lia.
Defined.

(** * More of the BER codec: booleans, NULL and object identifiers *)

Section BooleanNull.
Import ASNLib.

(** Extra X11: decodeBoolean gives back the value that encodeBoolean
    encoded with its tag, and decodeNull accepts what encodeNull wrote;
    both leave the bytes that followed.  A boolean encoded without the
    tag has no length byte either, while decodeBoolean without the tag
    check still reads one: it never gives the value back with the
    following bytes left in place. *)
Theorem boolean_and_null_round_trip (val : bool) (tail : DataBlock) :
  decodeBoolean (encodeBoolean val true ++ tail) true true = Decoded 1 tail (Some val)
  /\ decodeNull (encodeNull true ++ tail) true = Decoded 0 tail (Some tt)
  /\ (let untagged := decodeBoolean (encodeBoolean val false ++ tail) true false in
      value untagged = None \/ rest untagged <> tail).
Proof.
  pose proof (length_nonneg tail) as Ht.
  split; [apply decodeBoolean_encodeBoolean|]. split.
  - unfold encodeNull, decodeNull. cbn [app].
    rewrite !length_cons, index_head, cut_head.
    destruct (Z.ltb_spec (1 + (1 + DataBlock.length tail)) 2); [lia|].
    change (NULL_ID =? NULL_ID) with true. simpl negb. simpl andb. cbv iota.
    rewrite decodeLength_short by lia. reflexivity.
  - cbv zeta. unfold encodeBoolean, DataBlock.append, decodeBoolean. cbn [app].
    rewrite length_cons.
    destruct (Z.ltb_spec (1 + DataBlock.length tail) 2); [by left|].
    cbn [andb]. cbv iota.
    rewrite decodeLength_short by (destruct val; lia).
    destruct val.
    + change (1 <? 0) with false. cbv iota. change (to_uint32 1) with 1.
      rewrite Z.gtb_ltb.
      destruct (Z.ltb_spec (DataBlock.length tail) 1); [lia|].
      change (negb (1 =? 1)) with false. cbn [orb negb]. cbv iota.
      right. cbn [rest]. destruct tail as [|t tail].
      * unfold DataBlock.length in *. simpl in *. lia.
      * rewrite cut_head. intros E. apply (f_equal List.length) in E.
        simpl in E. lia.
    + change (0 <? 0) with false. cbv iota.
      change (negb (0 =? 1)) with true. rewrite orb_true_r. by left.
Qed.

End BooleanNull.

Section ObjectIdentifiers.
Import ASNLib.

(** *** Decimal texts *)

Lemma string_of_uint_undotted (d : Decimal.uint) :
  undotted (NilEmpty.string_of_uint d).
Proof.
  unfold undotted. induction d; simpl; constructor; (reflexivity || assumption).
Qed.

Lemma parse_uint_acc (d : Decimal.uint) (acc : positive) :
  YString.parse_digits 10 (Z.pos acc) (NilEmpty.string_of_uint d)
  = Some (Z.pos (Pos.of_uint_acc d acc)).
Proof.
  revert acc. induction d; intros acc; cbn [NilEmpty.string_of_uint Pos.of_uint_acc];
    [reflexivity|..];
    cbn [YString.parse_digits];
    match goal with
    | |- context [YString.digit_value 10 ?c] =>
        let v := eval vm_compute in (YString.digit_value 10 c) in
        change (YString.digit_value 10 c) with v
    end; cbv iota;
    match goal with
    | |- YString.parse_digits 10 ?x _ = _ =>
        match goal with
        | |- _ = Some (Z.pos (Pos.of_uint_acc _ ?p)) =>
            replace x with (Z.pos p) by lia
        end
    end; apply IHd.
Qed.

Lemma parse_uint (d : Decimal.uint) :
  YString.parse_digits 10 0 (NilEmpty.string_of_uint d) = Some (Z.of_N (Pos.of_uint d)).
Proof.
  induction d; cbn [NilEmpty.string_of_uint Pos.of_uint]; [reflexivity|..];
    cbn [YString.parse_digits];
    match goal with
    | |- context [YString.digit_value 10 ?c] =>
        let v := eval vm_compute in (YString.digit_value 10 c) in
        change (YString.digit_value 10 c) with v
    end; cbv iota; [exact IHd|..];
    match goal with
    | |- YString.parse_digits 10 ?x _ = Some (Z.of_N (N.pos (Pos.of_uint_acc _ ?p))) =>
        change x with (Z.pos p)
    end; apply parse_uint_acc.
Qed.

Lemma of_Z_uint (a : Z) :
  0 <= a -> YString.of_Z a = NilEmpty.string_of_uint (N.to_uint (Z.to_N a)).
Proof.
  intros Ha. unfold YString.of_Z. destruct (Z.ltb_spec a 0); [lia | reflexivity].
Qed.

Lemma of_Z_nonempty (a : Z) : 0 <= a -> YString.of_Z a <> EmptyString.
Proof.
  intros Ha. rewrite of_Z_uint by exact Ha.
  destruct (Z.to_N a) as [|p]; [discriminate|].
  cbn [N.to_uint]. pose proof (DecimalPos.Unsigned.to_uint_nonnil p) as Hn.
  destruct (Pos.to_uint p); [contradiction|..]; discriminate.
Qed.

Lemma of_Z_undotted (a : Z) : 0 <= a -> undotted (YString.of_Z a).
Proof. intros Ha. rewrite of_Z_uint by exact Ha. apply string_of_uint_undotted. Qed.

(** The text of a number is read back as the number. *)
Lemma toInteger_of_Z (a : Z) :
  0 <= a < 2 ^ 31 -> YString.toInteger 0 10 (YString.of_Z a) = a.
Proof.
  intros Ha. pose proof (of_Z_nonempty a ltac:(lia)) as Hne.
  unfold YString.toInteger. destruct (YString.of_Z a) eqn:E; [contradiction|].
  rewrite <- E, of_Z_uint, parse_uint by lia.
  change (Pos.of_uint (N.to_uint (Z.to_N a))) with (N.of_uint (N.to_uint (Z.to_N a))).
  rewrite DecimalN.Unsigned.of_to, Z2N.id by lia.
  unfold to_int32, to_uint32. rewrite Z.mod_small by lia.
  destruct (Z.ltb_spec a 2147483648); [reflexivity | lia].
Qed.


(** *** The split of a dotted text *)

Lemma append_nil_r (s : string) : s +:+ "" = s.
Proof.
  induction s as [|c s IH]; [reflexivity|].
  change (String c s +:+ "") with (String c (s +:+ "")). by rewrite IH.
Qed.

Lemma append_assoc (s t u : string) : (s +:+ t) +:+ u = s +:+ (t +:+ u).
Proof.
  induction s as [|c s IH]; [reflexivity|].
  change ((String c s +:+ t) +:+ u) with (String c ((s +:+ t) +:+ u)).
  by rewrite IH.
Qed.

Lemma split_aux_undotted (cur s r : string) :
  undotted s ->
  YString.split_aux "." cur (s +:+ r) = YString.split_aux "." (cur +:+ s) r.
Proof.
  revert cur. induction s as [|c s IH]; intros cur Hs.
  - by rewrite append_nil_r.
  - unfold undotted in Hs. cbn [list_ascii_of_string] in Hs.
    apply Forall_cons in Hs as [Hc Hs].
    change (String c s +:+ r) with (String c (s +:+ r)).
    cbn [YString.split_aux]. rewrite Hc, (IH _ Hs). f_equal.
    rewrite append_assoc. reflexivity.
Qed.

Lemma split_aux_dotted (cur : string) (a : Z) (rest : list Z) :
  Forall (fun a => 0 <= a) (a :: rest) ->
  YString.split_aux "." cur (dotted (a :: rest))
  = (cur +:+ YString.of_Z a) :: List.map YString.of_Z rest.
Proof.
  revert cur a. induction rest as [|b rest IH]; intros cur a Hall.
  - apply Forall_cons in Hall as [Ha _]. cbn [dotted List.map].
    pose proof (split_aux_undotted cur (YString.of_Z a) "" (of_Z_undotted a Ha)) as Hs.
    rewrite append_nil_r in Hs. exact Hs.
  - apply Forall_cons in Hall as [Ha Hall].
    change (dotted (a :: b :: rest))
      with (YString.of_Z a +:+ String "." (dotted (b :: rest))).
    rewrite split_aux_undotted by (by apply of_Z_undotted).
    cbn [YString.split_aux]. change (Ascii.eqb "." ".") with true. cbv iota.
    rewrite (IH _ _ Hall). reflexivity.
Qed.

Lemma split_dotted (ids : list Z) :
  Forall (fun a => 0 <= a) ids ->
  YString.split "." false (dotted ids) = List.map YString.of_Z ids.
Proof.
  intros Hall. unfold YString.split. destruct ids as [|a rest]; [reflexivity|].
  rewrite split_aux_dotted by exact Hall.
  change ("" +:+ YString.of_Z a) with (YString.of_Z a).
  change (YString.of_Z a :: List.map YString.of_Z rest)
    with (List.map YString.of_Z (a :: rest)).
  induction Hall as [|b l Hb Hl IH]; [reflexivity|].
  cbn [List.map List.filter]. rewrite IH.
  pose proof (of_Z_nonempty b Hb) as Hne.
  destruct (String.eqb_spec (YString.of_Z b) ""); [contradiction | reflexivity].
Qed.


(** *** The bytes of a subidentifier *)

Lemma land_uint8_7f (v : Z) : Z.land (to_uint8 v) 0x7f = Z.land v 0x7f.
Proof.
  unfold to_uint8. change 0x7f with (Z.ones 7). rewrite !Z.land_ones by lia.
  change 256 with (2 ^ 7 * 2). rewrite Z.rem_mul_r by lia.
  Z.div_mod_to_equations; lia.
Qed.

Lemma toDataBlock_loop_leading (n : nat) (v : Z) (db : DataBlock) :
  toDataBlock_loop n v db = leading n v ++ db.
Proof.
  revert v db. induction n as [|n IH]; intros v db; [reflexivity|].
  cbn [toDataBlock_loop leading]. destruct (v =? 0); [reflexivity|].
  simpl negb. cbv iota zeta. rewrite IH, land_uint8_7f.
  unfold DataBlock.insert. by rewrite <- app_assoc.
Qed.

Lemma toDataBlock_id_of_Z (a : Z) :
  0 <= a < 2 ^ 31 -> toDataBlock_id (YString.of_Z a) = subidentifier a.
Proof.
  intros Ha. unfold toDataBlock_id, subidentifier. rewrite toInteger_of_Z by exact Ha.
  cbv zeta. rewrite land_uint8_7f.
  destruct (Z.ltb_spec a 128).
  - replace (Z.shiftr a 7) with 0
      by (rewrite Z.shiftr_div_pow2 by lia; change (2 ^ 7) with 128;
          Z.div_mod_to_equations; lia).
    cbn [leading]. change (0 =? 0) with true. cbv iota. simpl app.
    f_equal. unfold to_uint8. change 0x7f with (Z.ones 7).
    rewrite Z.land_ones by lia. rewrite !Z.mod_small; [reflexivity|..];
      change (2 ^ 7) with 128; lia.
  - apply toDataBlock_loop_leading.
Qed.

Lemma getIds_dotted (ids : list Z) :
  Forall (fun a => 0 <= a < 2 ^ 31) ids ->
  getIds (dotted ids) = List.concat (List.map subidentifier ids).
Proof.
  intros Hall. unfold getIds. rewrite split_dotted.
  - rewrite List.map_map. f_equal.
    induction Hall as [|a l Ha Hl IH]; [reflexivity|].
    cbn [List.map]. by rewrite IH, toDataBlock_id_of_Z.
  - eapply Forall_impl; [exact Hall|]. simpl. lia.
Qed.

Lemma lor_bit7 (g : Z) : 0 <= g < 128 -> Z.lor g 0x80 = g + 128.
Proof.
  intros Hg.
  assert (Hdisjoint : Z.land g 128 = 0).
  { apply Z.bits_inj'. intros i Hi. rewrite Z.land_spec, Z.bits_0.
    destruct (Z.eq_dec i 7) as [-> | Hne].
    - assert (Hbit : Z.testbit g 7 = false).
      { destruct (Z.eq_dec g 0) as [-> | ?]; [apply Z.bits_0|].
        apply Z.bits_above_log2; [lia|]. apply Z.log2_lt_pow2; lia. }
      by rewrite Hbit.
    - change 128 with (2 ^ 7). rewrite Z.pow2_bits_false by lia.
      apply andb_false_r. }
  by rewrite <- Z.lxor_lor, <- Z.add_nocarry_lxor.
Qed.

Lemma leading_bytes (n : nat) (v : Z) :
  0 <= v -> Forall (fun b => 128 <= b < 256) (leading n v).
Proof.
  revert v. induction n as [|n IH]; intros v Hv; [constructor|].
  cbn [leading]. destruct (v =? 0); [constructor|].
  apply Forall_app. split.
  - apply IH. apply Z.shiftr_nonneg. lia.
  - constructor; [|constructor].
    assert (Hg : 0 <= Z.land v 0x7f < 128).
    { change 0x7f with (Z.ones 7). rewrite Z.land_ones by lia.
      change (2 ^ 7) with 128. Z.div_mod_to_equations; lia. }
    rewrite lor_bit7 by exact Hg. lia.
Qed.

Lemma leading_length (n : nat) (v : Z) : (List.length (leading n v) <= n)%nat.
Proof.
  revert v. induction n as [|n IH]; intros v; [reflexivity|].
  cbn [leading]. destruct (v =? 0); [simpl; lia|].
  rewrite length_app. simpl. specialize (IH (Z.shiftr v 7)). lia.
Qed.

Lemma leading_nonempty (n : nat) (v : Z) : v <> 0 -> leading (S n) v <> [].
Proof.
  intros Hv. cbn [leading]. destruct (Z.eqb_spec v 0); [contradiction|].
  by destruct (leading n (Z.shiftr v 7)).
Qed.


(** *** The loop of decodeOID on the bytes of a subidentifier *)

Lemma byte_masks (b : Z) :
  0 <= b < 256 ->
  Z.land b (Z.lnot ASN_BIT8) = b mod 128 /\ Z.land b ASN_BIT8 = 128 * (b / 128).
Proof.
  intros Hb.
  assert (Hall : forallb (fun n => let b := Z.of_nat n in
                            (Z.land b (Z.lnot 128) =? b mod 128)
                            && (Z.land b 128 =? 128 * (b / 128)))
                   (seq 0 256) = true) by (vm_compute; reflexivity).
  rewrite forallb_forall in Hall. specialize (Hall (Z.to_nat b)).
  rewrite Z2Nat.id in Hall by lia.
  apply andb_true_iff in Hall as [H1 H2]; [|apply in_seq; lia].
  split; by apply Z.eqb_eq.
Qed.

Lemma index_middle (pre post : list Z) (b : Z) :
  (pre ++ b :: post).[Z.of_nat (List.length pre)] = b.
Proof.
  apply index_lookup. rewrite lookup_app_r by lia. by rewrite Nat.sub_diag.
Qed.

(** One turn of the loop on a byte with the continuation bit. *)
Lemma decodeOID_loop_continue (pre post : DataBlock) (b : Z) (m : nat)
    (len : Z) (oid : string) (longNo : Z) :
  128 <= b < 256 -> 0 <= longNo -> (longNo + (b - 128)) * 128 < 2 ^ 32 ->
  decodeOID_loop (pre ++ b :: post) (S m) (Z.of_nat (List.length pre)) len oid longNo
  = decodeOID_loop (pre ++ b :: post) m (Z.of_nat (List.length pre) + 1) len oid
      ((longNo + (b - 128)) * 128).
Proof.
  intros Hb Hl Hfit. cbn [decodeOID_loop]. rewrite index_middle.
  destruct (Z.eqb_spec b 0x2b); [lia|]. rewrite andb_false_r.
  assert (Hu : to_uint8 b = b) by (unfold to_uint8; apply Z.mod_small; lia).
  rewrite Hu. destruct (byte_masks b ltac:(lia)) as [-> ->].
  replace (b mod 128) with (b - 128) by (Z.div_mod_to_equations; lia).
  replace (b / 128) with 1 by (Z.div_mod_to_equations; lia).
  change (128 * 1 =? ASN_BIT8) with true. cbv iota.
  f_equal. unfold to_uint32. rewrite (Z.mod_small (longNo + (b - 128))) by lia.
  rewrite Z.shiftl_mul_pow2 by lia. change (2 ^ 7) with 128.
  apply Z.mod_small. lia.
Qed.

(** One turn of the loop on a byte without the continuation bit. *)
Lemma decodeOID_loop_last (pre post : DataBlock) (g : Z) (m : nat)
    (len : Z) (oid : string) (longNo : Z) :
  0 <= g < 128 -> 0 <= longNo -> longNo + g < 2 ^ 32 ->
  pre <> [] \/ g <> 0x2b ->
  decodeOID_loop (pre ++ g :: post) (S m) (Z.of_nat (List.length pre)) len oid longNo
  = decodeOID_loop (pre ++ g :: post) m (Z.of_nat (List.length pre) + 1) len
      (if negb (Z.of_nat (List.length pre) =? len - 1)
       then (oid +:+ YString.of_Z (longNo + g)) +:+ "."
       else oid +:+ YString.of_Z (longNo + g)) 0.
Proof.
  intros Hg Hl Hfit Hfirst. cbn [decodeOID_loop]. rewrite index_middle.
  assert (Hsel : (Z.of_nat (List.length pre) =? 0) && (g =? 0x2b) = false).
  { destruct Hfirst as [Hpre | Hne].
    - destruct pre; [contradiction|]. simpl List.length.
      destruct (Z.eqb_spec (Z.of_nat (S (List.length pre))) 0); [lia | reflexivity].
    - destruct (Z.eqb_spec g 0x2b); [contradiction | apply andb_false_r]. }
  rewrite Hsel.
  assert (Hu : to_uint8 g = g) by (unfold to_uint8; apply Z.mod_small; lia).
  rewrite Hu. destruct (byte_masks g ltac:(lia)) as [-> ->].
  rewrite (Z.mod_small g) by lia.
  replace (g / 128) with 0 by (Z.div_mod_to_equations; lia).
  change (128 * 0 =? ASN_BIT8) with false. cbv iota zeta.
  unfold to_uint32. rewrite Z.mod_small by lia. reflexivity.
Qed.

(** The loop on the leading bytes of a subidentifier. *)
Lemma decodeOID_loop_leading (n : nat) :
  forall (v : Z) (pre post : DataBlock) (m : nat) (len : Z) (oid : string),
    0 <= v < 2 ^ 25 -> v < 2 ^ (7 * Z.of_nat n) ->
    decodeOID_loop (pre ++ leading n v ++ post) (List.length (leading n v) + m)
      (Z.of_nat (List.length pre)) len oid 0
    = decodeOID_loop (pre ++ leading n v ++ post) m
        (Z.of_nat (List.length pre) + Z.of_nat (List.length (leading n v))) len oid
        (v * 128).
Proof.
  induction n as [|n IH]; intros v pre post m len oid Hv Hn.
  - assert (v = 0) as -> by (change (2 ^ (7 * Z.of_nat 0)) with 1 in Hn; lia).
    cbn [leading List.length]. simpl Nat.add. by rewrite Z.add_0_r.
  - cbn [leading]. destruct (Z.eqb_spec v 0) as [-> | Hv0].
    { cbn [List.length]. simpl Nat.add. by rewrite Z.add_0_r. }
    set (hi := Z.shiftr v 7). set (g := Z.land v 0x7f).
    assert (Hg : 0 <= g < 128 /\ v = hi * 128 + g).
    { unfold g, hi. change 0x7f with (Z.ones 7). rewrite Z.land_ones by lia.
      rewrite Z.shiftr_div_pow2 by lia. change (2 ^ 7) with 128.
      Z.div_mod_to_equations; lia. }
    destruct Hg as [Hg Hsplit].
    assert (Hhi : 0 <= hi < 2 ^ 25 /\ hi < 2 ^ (7 * Z.of_nat n)).
    { replace (7 * Z.of_nat (S n)) with (7 * Z.of_nat n + 7) in Hn by lia.
      rewrite Z.pow_add_r in Hn by lia. change (2 ^ 7) with 128 in Hn.
      assert (0 < 2 ^ (7 * Z.of_nat n)) by (apply Z.pow_pos_nonneg; lia). nia. }
    destruct Hhi as [Hhi Hhin].
    rewrite lor_bit7 by exact Hg.
    rewrite <- (app_assoc (leading n hi) [g + 128] post).
    rewrite length_app. simpl List.length.
    replace (List.length (leading n hi) + 1 + m)%nat
      with (List.length (leading n hi) + S m)%nat by lia.
    rewrite (IH hi pre ([g + 128] ++ post) (S m) len oid Hhi Hhin).
    rewrite (app_assoc pre (leading n hi) ([g + 128] ++ post)).
    simpl app. rewrite <- Nat2Z.inj_add, <- length_app.
    rewrite decodeOID_loop_continue by lia.
    f_equal; [rewrite length_app; lia | lia].
Qed.


Lemma subidentifier_length (a : Z) :
  (1 <= List.length (subidentifier a) <= 6)%nat.
Proof.
  unfold subidentifier. rewrite length_app. cbn [List.length].
  pose proof (leading_length 5 (Z.shiftr a 7)). lia.
Qed.

(** The loop on the bytes of a subidentifier: its decimal text is added
    to the identifier, with a dot unless its last byte is the last one
    of the contents. *)
Lemma decodeOID_loop_subidentifier (a : Z) (pre post : DataBlock) (m : nat)
    (len : Z) (oid : string) :
  0 <= a < 2 ^ 31 -> pre <> [] \/ a <> 0x2b ->
  let after := Z.of_nat (List.length pre) + Z.of_nat (List.length (subidentifier a)) in
  decodeOID_loop (pre ++ subidentifier a ++ post)
    (List.length (subidentifier a) + m) (Z.of_nat (List.length pre)) len oid 0
  = decodeOID_loop (pre ++ subidentifier a ++ post) m after len
      (if negb (after - 1 =? len - 1)
       then (oid +:+ YString.of_Z a) +:+ "."
       else oid +:+ YString.of_Z a) 0.
Proof.
  intros Ha Hfirst after. unfold after, subidentifier.
  set (hi := Z.shiftr a 7). set (g := Z.land a 0x7f).
  assert (Hg : 0 <= g < 128 /\ a = hi * 128 + g /\ 0 <= hi < 2 ^ 24).
  { unfold g, hi. change 0x7f with (Z.ones 7). rewrite Z.land_ones by lia.
    rewrite Z.shiftr_div_pow2 by lia. change (2 ^ 7) with 128.
    Z.div_mod_to_equations; lia. }
  destruct Hg as (Hg & Hsplit & Hhi).
  rewrite <- (app_assoc (leading 5 hi) [g] post).
  rewrite length_app. change (List.length [g]) with 1%nat.
  replace (List.length (leading 5 hi) + 1 + m)%nat
    with (List.length (leading 5 hi) + S m)%nat by lia.
  rewrite (decodeOID_loop_leading 5 hi pre ([g] ++ post) (S m) len oid)
    by (try split; try lia; change (2 ^ (7 * Z.of_nat 5)) with (2 ^ 35); lia).
  rewrite (app_assoc pre (leading 5 hi) ([g] ++ post)).
  change ([g] ++ post) with (g :: post). rewrite <- Nat2Z.inj_add, <- length_app.
  rewrite decodeOID_loop_last; [| exact Hg | lia | lia |].
  - replace (hi * 128 + g) with a by lia.
    replace (Z.of_nat (List.length (pre ++ leading 5 hi)) + 1)
      with (Z.of_nat (List.length pre)
            + Z.of_nat (List.length (leading 5 hi) + 1)) by (rewrite length_app; lia).
    replace (Z.of_nat (List.length pre) + Z.of_nat (List.length (leading 5 hi) + 1) - 1)
      with (Z.of_nat (List.length (pre ++ leading 5 hi))) by (rewrite length_app; lia).
    reflexivity.
  - destruct Hfirst as [Hpre | Hne]; [left; by destruct pre|].
    destruct (Z.eq_dec hi 0) as [E | E].
    + right. rewrite E in Hsplit. lia.
    + left. pose proof (leading_nonempty 4 hi E). by destruct pre, (leading 5 hi).
Qed.

Lemma dotted_cons (a b : Z) (rest : list Z) :
  dotted (a :: b :: rest) = (YString.of_Z a +:+ ".") +:+ dotted (b :: rest).
Proof. by rewrite append_assoc. Qed.

Lemma concat_subidentifiers_length (ids : list Z) :
  (List.length ids <= List.length (List.concat (List.map subidentifier ids))
   <= 6 * List.length ids)%nat.
Proof.
  induction ids as [|a ids IH]; [simpl; lia|].
  cbn [List.map List.concat List.length]. rewrite length_app.
  pose proof (subidentifier_length a). lia.
Qed.

(** The loop on the bytes of a list of subidentifiers that ends the
    contents: their dotted text is added to the identifier. *)
Lemma decodeOID_loop_subidentifiers (ids : list Z) :
  forall (pre post : DataBlock) (oid : string),
    Forall (fun a => 0 <= a < 2 ^ 31) ids ->
    pre <> [] \/ head ids <> Some 0x2b ->
    let bytes := List.concat (List.map subidentifier ids) in
    decodeOID_loop (pre ++ bytes ++ post) (List.length bytes)
      (Z.of_nat (List.length pre))
      (Z.of_nat (List.length pre) + Z.of_nat (List.length bytes)) oid 0
    = oid +:+ dotted ids.
Proof.
  induction ids as [|a ids IH]; intros pre post oid Hall Hfirst bytes.
  - unfold bytes. cbn [List.map List.concat List.length decodeOID_loop dotted].
    by rewrite append_nil_r.
  - apply Forall_cons in Hall as [Ha Hall].
    unfold bytes. cbn [List.map List.concat].
    set (rest := List.concat (List.map subidentifier ids)).
    rewrite <- (app_assoc (subidentifier a) rest post).
    rewrite (length_app (subidentifier a) rest).
    rewrite decodeOID_loop_subidentifier;
      [| exact Ha | destruct Hfirst as [? | Hne]; [by left | right; simpl in Hne; congruence]].
    cbv zeta.
    pose proof (subidentifier_length a) as Hlen.
    pose proof (concat_subidentifiers_length ids) as Hrest. fold rest in Hrest.
    destruct ids as [|b ids].
    + assert (rest = []) as -> by (by destruct rest; [|simpl in Hrest; lia]).
      cbn [List.length decodeOID_loop dotted].
      destruct (Z.eqb_spec
                  (Z.of_nat (List.length pre) + Z.of_nat (List.length (subidentifier a)) - 1)
                  (Z.of_nat (List.length pre)
                   + Z.of_nat (List.length (subidentifier a) + 0) - 1)); [reflexivity | lia].
    + destruct (Z.eqb_spec
                  (Z.of_nat (List.length pre) + Z.of_nat (List.length (subidentifier a)) - 1)
                  (Z.of_nat (List.length pre)
                   + Z.of_nat (List.length (subidentifier a) + List.length rest) - 1))
        as [E | _]; [simpl in Hrest; lia|].
      simpl negb. cbv iota.
      rewrite (app_assoc pre (subidentifier a) (rest ++ post)).
      rewrite <- Nat2Z.inj_add, <- length_app.
      replace (Z.of_nat (List.length pre)
               + Z.of_nat (List.length (subidentifier a) + List.length rest))
        with (Z.of_nat (List.length (pre ++ subidentifier a)) + Z.of_nat (List.length rest))
        by (rewrite length_app; lia).
      unfold rest. rewrite IH; [| exact Hall |].
      * rewrite dotted_cons, !append_assoc. reflexivity.
      * left. destruct pre, (subidentifier a); simpl in *; (discriminate || lia).
Qed.


(** *** encodeOID on a dotted text *)

Lemma subidentifier_small (a : Z) : 0 <= a < 128 -> subidentifier a = [a].
Proof.
  intros Ha. unfold subidentifier.
  replace (Z.shiftr a 7) with 0
    by (rewrite Z.shiftr_div_pow2 by lia; change (2 ^ 7) with 128;
        Z.div_mod_to_equations; lia).
  change (leading 5 0) with (@nil Z). cbn [app]. f_equal.
  change 0x7f with (Z.ones 7). rewrite Z.land_ones by lia.
  apply Z.mod_small. change (2 ^ 7) with 128. lia.
Qed.

Lemma subidentifier_big (a : Z) :
  128 <= a -> exists b bs, subidentifier a = b :: bs /\ 128 <= b < 256.
Proof.
  intros Ha. unfold subidentifier.
  assert (Hhi : 0 < Z.shiftr a 7).
  { rewrite Z.shiftr_div_pow2 by lia. change (2 ^ 7) with 128.
    Z.div_mod_to_equations; lia. }
  pose proof (leading_nonempty 4 (Z.shiftr a 7) ltac:(lia)) as Hne.
  pose proof (leading_bytes 5 (Z.shiftr a 7) ltac:(lia)) as Hall.
  destruct (leading 5 (Z.shiftr a 7)) as [|b bs]; [contradiction|].
  apply Forall_cons in Hall as [Hb _]. by exists b, (bs ++ [Z.land a 0x7f]).
Qed.

(** The first byte of the bytes of a subidentifier is below 128 only
    when it is the subidentifier itself. *)
Lemma subidentifier_head (a : Z) :
  0 <= a ->
  exists b bs, subidentifier a = b :: bs /\ 0 <= b < 256 /\ (b < 128 -> a = b /\ bs = []).
Proof.
  intros Ha. destruct (Z.lt_ge_cases a 128).
  - exists a, []. rewrite subidentifier_small by lia. repeat split; lia.
  - destruct (subidentifier_big a ltac:(lia)) as (b & bs & -> & Hb).
    exists b, bs. repeat split; lia.
Qed.

Lemma index_second (x y : Z) (d : DataBlock) : (x :: y :: d).[1] = y.
Proof. apply (index_lookup (x :: y :: d) 1). reflexivity. Qed.

Lemma index_past (x : Z) : [x].[1] = -1.
Proof. reflexivity. Qed.

(** The test of encodeOID for the leading pair 1.3 looks at bytes; on
    the bytes of subidentifiers it finds the subidentifiers 1 and 3. *)
Lemma iso3_test (ids : list Z) :
  Forall (fun a => 0 <= a < 2 ^ 31) ids -> ids <> [] ->
  let cont := List.concat (List.map subidentifier ids) in
  (cont.[0] =? 1) && (cont.[1] =? 3) = bool_decide (take 2 ids = [1; 3]).
Proof.
  intros Hall Hne cont. unfold cont. destruct ids as [|a ids]; [contradiction|].
  apply Forall_cons in Hall as [Ha Hall]. cbn [List.map List.concat].
  destruct (subidentifier_head a ltac:(lia)) as (b & bs & Ea & Hb & Hsmall).
  rewrite Ea. rewrite <- app_comm_cons, index_head.
  destruct (Z.eqb_spec b 1) as [-> | Hb1].
  - destruct (Hsmall ltac:(lia)) as [-> ->]. cbn [app andb].
    destruct ids as [|c ids].
    + cbn [List.map List.concat]. rewrite index_past.
      rewrite bool_decide_eq_false_2 by discriminate. reflexivity.
    + apply Forall_cons in Hall as [Hc Hall]. cbn [List.map List.concat].
      destruct (subidentifier_head c ltac:(lia)) as (d & ds & Ec & Hd & Hsmall').
      rewrite Ec. rewrite <- app_comm_cons, index_second.
      destruct (Z.eqb_spec d 3) as [-> | Hd3].
      * destruct (Hsmall' ltac:(lia)) as [-> _].
        by rewrite bool_decide_eq_true_2.
      * rewrite bool_decide_eq_false_2; [reflexivity|].
        intros [= ->]. rewrite subidentifier_small in Ec by lia. congruence.
  - cbn [andb]. rewrite bool_decide_eq_false_2; [reflexivity|].
    destruct ids; intros [= ->]; rewrite subidentifier_small in Ea by lia; congruence.
Qed.

Lemma oid_contents_length (ids : list Z) :
  ids <> [] ->
  1 <= DataBlock.length (oid_contents ids) <= 6 * Z.of_nat (List.length ids).
Proof.
  intros Hne. unfold oid_contents, DataBlock.length.
  destruct (decide (take 2 ids = [1; 3])) as [E | _].
  - destruct ids as [|a [|b ids]]; try discriminate.
    change (drop 2 (a :: b :: ids)) with ids. cbn [List.length].
    pose proof (concat_subidentifiers_length ids). lia.
  - pose proof (concat_subidentifiers_length ids).
    destruct ids; [contradiction|]. simpl List.length in *. lia.
Qed.

(** encodeOID on the dotted text of a list of subidentifiers. *)
Lemma encodeOID_dotted (ids : list Z) :
  Forall (fun a => 0 <= a < 2 ^ 31) ids -> ids <> [] ->
  encodeOID (dotted ids) true
  = OBJECT_ID :: buildLength (oid_contents ids) ++ oid_contents ids.
Proof.
  intros Hall Hne. unfold encodeOID. rewrite getIds_dotted by exact Hall.
  pose proof (concat_subidentifiers_length ids) as Hlen.
  destruct (Z.eqb_spec (DataBlock.length (List.concat (List.map subidentifier ids))) 0)
    as [E | _].
  { unfold DataBlock.length in E.
    destruct ids; [contradiction | cbn [List.length] in Hlen; lia]. }
  rewrite (iso3_test ids Hall Hne). unfold oid_contents.
  destruct (decide (take 2 ids = [1; 3])) as [E | E].
  - rewrite bool_decide_eq_true_2 by exact E.
    destruct ids as [|a [|b ids]]; try discriminate.
    injection E as -> ->. change (drop 2 (1 :: 3 :: ids)) with ids.
    cbn [List.map List.concat].
    rewrite !subidentifier_small by lia. cbn [app].
    destruct ids as [|c ids].
    + reflexivity.
    + change (-2) with (- Z.of_nat 2). rewrite cut_front.
      * reflexivity.
      * cbn [List.length List.map List.concat]. rewrite length_app.
        pose proof (subidentifier_length c). lia.
  - rewrite bool_decide_eq_false_2 by exact E. reflexivity.
Qed.


(** The loop of decodeOID on the contents that encodeOID wrote. *)
Lemma decodeOID_loop_contents (ids : list Z) (tail : DataBlock) :
  Forall (fun a => 0 <= a < 2 ^ 31) ids -> ids <> [] ->
  head ids <> Some 0x2b -> ids <> [1; 3] ->
  decodeOID_loop (oid_contents ids ++ tail)
    (Z.to_nat (DataBlock.length (oid_contents ids))) 0
    (DataBlock.length (oid_contents ids)) EmptyString 0
  = dotted ids.
Proof.
  intros Hall Hne H43 H13. unfold oid_contents, DataBlock.length.
  destruct (decide (take 2 ids = [1; 3])) as [E | E].
  - destruct ids as [|a [|b ids]]; try discriminate.
    injection E as -> ->. change (drop 2 (1 :: 3 :: ids)) with ids.
    destruct ids as [|c ids]; [contradiction|].
    apply Forall_cons in Hall as [_ Hall]. apply Forall_cons in Hall as [_ Hall].
    set (bytes := List.concat (List.map subidentifier (c :: ids))).
    rewrite Nat2Z.id. cbn [List.length decodeOID_loop].
    rewrite <- app_comm_cons, index_head. change ((0 =? 0) && (43 =? 43)) with true.
    cbv iota.
    pose proof (decodeOID_loop_subidentifiers (c :: ids) [0x2b] tail "1.3." Hall
                  ltac:(left; discriminate)) as Hloop.
    cbv zeta in Hloop. fold bytes in Hloop.
    change ([43] ++ bytes ++ tail) with (43 :: bytes ++ tail) in Hloop.
    change (Z.of_nat (List.length [43])) with (0 + 1) in Hloop.
    replace (Z.of_nat (S (List.length bytes))) with (0 + 1 + Z.of_nat (List.length bytes))
      by lia.
    change ("" +:+ "1.3.") with "1.3.". rewrite Hloop. reflexivity.
  - rewrite Nat2Z.id.
    pose proof (decodeOID_loop_subidentifiers ids [] tail "" Hall
                  ltac:(right; exact H43)) as Hloop.
    cbv zeta in Hloop. cbn [app List.length] in Hloop.
    change (Z.of_nat 0) with 0 in Hloop. rewrite Z.add_0_l in Hloop. exact Hloop.
Qed.

(** Extra X12: decodeOID gives back the dotted text that encodeOID
    encoded, and leaves the bytes that followed, for every list of
    subidentifiers below 2^31 that is not empty, does not start with 43
    and is not the pair 1.3 alone.  The pair 1.3 in front is written as
    the one byte 0x2B; any other first subidentifiers are written as
    they are. *)
Theorem oid_round_trip (ids : list Z) (tail : DataBlock) :
  Forall (fun a => 0 <= a < 2 ^ 31) ids -> ids <> [] ->
  head ids <> Some 0x2b -> ids <> [1; 3] ->
  Z.of_nat (List.length ids) < 2 ^ 28 ->
  exists size,
    1 <= size <= 6 * Z.of_nat (List.length ids)
    /\ decodeOID (encodeOID (dotted ids) true ++ tail) true true
       = Decoded size tail (Some (dotted ids)).
Proof.
  intros Hall Hne H43 H13 Hmany.
  pose proof (oid_contents_length ids Hne) as Hlen.
  exists (DataBlock.length (oid_contents ids)). split; [exact Hlen|].
  assert (HL : DataBlock.length (oid_contents ids) < 2 ^ 31) by lia.
  pose proof (length_nonneg tail) as H1.
  pose proof (buildLength_length (oid_contents ids) HL) as H2.
  rewrite encodeOID_dotted by assumption.
  unfold decodeOID. rewrite <- !app_comm_cons, <- !app_assoc.
  rewrite length_cons, !length_app_Z, index_head, cut_head.
  destruct (Z.ltb_spec (1 + (DataBlock.length (buildLength (oid_contents ids))
                             + (DataBlock.length (oid_contents ids)
                                + DataBlock.length tail))) 2); [lia|].
  change (OBJECT_ID =? OBJECT_ID) with true. simpl negb. simpl andb. cbv iota.
  rewrite decodeLength_buildLength by exact HL.
  destruct (Z.ltb_spec (DataBlock.length (oid_contents ids)) 0); [lia|].
  rewrite to_uint32_small by lia. rewrite length_app_Z, Z.gtb_ltb.
  destruct (Z.ltb_spec (DataBlock.length (oid_contents ids) + DataBlock.length tail)
              (DataBlock.length (oid_contents ids))); [lia|].
  destruct (Z.eqb_spec (DataBlock.length (oid_contents ids)) 0); [lia|].
  rewrite cut_app_front. simpl negb. cbv iota.
  by rewrite decodeOID_loop_contents.
Qed.

(** Extra X13: the identifiers that do not come back.  An identifier
    that starts with the subidentifier 43 is encoded to the same bytes
    as the one that starts with 1.3 instead, so decodeOID cannot tell
    them apart; and the identifier 1.3 alone is read back with a dot
    after it. *)
Theorem oid_round_trip_exceptions (rest : list Z) (tail : DataBlock) :
  Forall (fun a => 0 <= a < 2 ^ 31) rest -> rest <> [] ->
  encodeOID (dotted (43 :: rest)) true = encodeOID (dotted (1 :: 3 :: rest)) true
  /\ decodeOID (encodeOID "1.3" true ++ tail) true true
     = Decoded 1 tail (Some "1.3."%string).
Proof.
  intros Hall Hne. split.
  - rewrite !encodeOID_dotted; try discriminate;
      try (repeat (apply Forall_cons; split; [lia|]); exact Hall).
    unfold oid_contents.
    destruct rest as [|c rest]; [contradiction|].
    rewrite decide_False by (intros [= ? ?]; lia).
    rewrite decide_True by reflexivity.
    change (drop 2 (1 :: 3 :: c :: rest)) with (c :: rest).
    cbn [List.map List.concat]. rewrite (subidentifier_small 43) by lia.
    reflexivity.
  - change (encodeOID "1.3" true) with [OBJECT_ID; 1; 0x2b].
    unfold decodeOID. cbn [app]. rewrite !length_cons, index_head, cut_head.
    pose proof (length_nonneg tail).
    destruct (Z.ltb_spec (1 + (1 + (1 + DataBlock.length tail))) 2); [lia|].
    change (OBJECT_ID =? OBJECT_ID) with true. simpl negb. simpl andb. cbv iota.
    rewrite decodeLength_short by lia.
    change (1 <? 0) with false. cbv iota. change (to_uint32 1) with 1.
    rewrite length_cons, Z.gtb_ltb.
    destruct (Z.ltb_spec (1 + DataBlock.length tail) 1); [lia|].
    change (1 =? 0) with false. cbv iota.
    change (Z.to_nat 1) with 1%nat. cbn [decodeOID_loop]. rewrite index_head.
    change ((0 =? 0) && (43 =? 43)) with true. cbv iota.
    by rewrite cut_head.
Qed.

End ObjectIdentifiers.

(** The identifier of a UCD-SNMP load average entry, with a
    subidentifier of two bytes, followed by a NULL. *)
Lemma oid_round_trip_witness :
  exists size,
    1 <= size <= 48
    /\ ASNLib.decodeOID (ASNLib.encodeOID "1.3.6.1.4.1.2021.10" true ++ [0x05; 0x00])
         true true
       = ASNLib.Decoded size [0x05; 0x00] (Some "1.3.6.1.4.1.2021.10"%string).
Proof.
  apply (oid_round_trip [1; 3; 6; 1; 4; 1; 2021; 10] [0x05; 0x00]).
  - repeat (apply Forall_cons; split; [lia|]). apply Forall_nil_2.
  - discriminate.
  - discriminate.
  - discriminate.
  - reflexivity.
Defined.

(** 43.6.1 is encoded like 1.3.6.1. *)
Lemma oid_round_trip_exceptions_witness :
  ASNLib.encodeOID "43.6.1" true = ASNLib.encodeOID "1.3.6.1" true
  /\ ASNLib.decodeOID (ASNLib.encodeOID "1.3" true ++ [0x05; 0x00]) true true
     = ASNLib.Decoded 1 [0x05; 0x00] (Some "1.3."%string).
Proof.
  apply (oid_round_trip_exceptions [6; 1] [0x05; 0x00]).
  - repeat (apply Forall_cons; split; [lia|]). apply Forall_nil_2.
  - discriminate.
Defined.

(** * The order of the MIB entries *)

Section MibOrder.

Lemma arcs_nonneg (a : list Z) : arcs a -> Forall (fun x => 0 <= x) a.
Proof. intros Ha. eapply Forall_impl; [exact Ha|]. simpl. lia. Qed.

(** Different lists of subidentifiers have different dotted texts. *)
Lemma dotted_inj (a b : list Z) : arcs a -> arcs b -> dotted a = dotted b -> a = b.
Proof.
  intros Ha Hb E.
  assert (Hmap : List.map YString.of_Z a = List.map YString.of_Z b).
  { rewrite <- !split_dotted by (by apply arcs_nonneg). by rewrite E. }
  clear E. revert b Hb Hmap. induction Ha as [|x a Hx Ha IH]; intros b Hb Hmap.
  - by destruct b.
  - destruct b as [|y b]; [discriminate|].
    apply Forall_cons in Hb as [Hy Hb]. injection Hmap as Hxy Hmap.
    f_equal; [|by apply IH].
    by rewrite <- (toInteger_of_Z x Hx), <- (toInteger_of_Z y Hy), Hxy.
Qed.

Lemma compareTo_dotted (a b : list Z) :
  arcs a -> arcs b -> a <> b ->
  AsnMib.compareTo (dotted a) (Some (dotted b))
  = AsnMib.compareTo_loop (List.map YString.of_Z a) (List.map YString.of_Z b).
Proof.
  intros Ha Hb Hne. unfold AsnMib.compareTo.
  destruct (String.eqb_spec (dotted a) (dotted b)) as [E | _].
  - by apply dotted_inj in E.
  - by rewrite !split_dotted by (by apply arcs_nonneg).
Qed.

Lemma compareTo_loop_prefix (p a b : list Z) :
  arcs p ->
  AsnMib.compareTo_loop (List.map YString.of_Z (p ++ a)) (List.map YString.of_Z (p ++ b))
  = AsnMib.compareTo_loop (List.map YString.of_Z a) (List.map YString.of_Z b).
Proof.
  induction 1 as [|x p Hx Hp IH]; [reflexivity|].
  cbn [app List.map AsnMib.compareTo_loop]. rewrite Z.sub_diag.
  change (to_int32 0 =? 0) with true. exact IH.
Qed.

(** Extra X14: AsnMib::compareTo orders object identifiers by the
    numbers of their subidentifiers, not by their text: an identifier is
    equal to itself, smaller than every identifier it is a proper prefix
    of, and of two identifiers that differ first at some place the one
    with the smaller number there is the smaller, whatever follows; the
    answer the other way round is the opposite.  This is for
    identifiers written without leading zeros: 1.03 and 1.3 are each
    smaller than the other. *)
Theorem compareTo_orders_by_number (p s t c : list Z) (x y : Z) :
  arcs p -> arcs s -> arcs t -> arcs c -> 0 <= x < y -> y < 2 ^ 31 -> c <> [] ->
  let cmp a b := AsnMib.compareTo (dotted a) (Some (dotted b)) in
  cmp p p = 0
  /\ cmp p (p ++ c) = -1 /\ cmp (p ++ c) p = 1
  /\ cmp (p ++ x :: s) (p ++ y :: t) = -1 /\ cmp (p ++ y :: t) (p ++ x :: s) = 1
  /\ AsnMib.compareTo "1.03" (Some "1.3"%string) = -1
  /\ AsnMib.compareTo "1.3" (Some "1.03"%string) = -1.
Proof.
  intros Hp Hs Ht Hc Hx Hy Hne cmp. unfold cmp.
  assert (Hxs : arcs (p ++ x :: s)).
  { apply Forall_app. split; [exact Hp|]. apply Forall_cons. split; [lia | exact Hs]. }
  assert (Hyt : arcs (p ++ y :: t)).
  { apply Forall_app. split; [exact Hp|]. apply Forall_cons. split; [lia | exact Ht]. }
  assert (Hpc : arcs (p ++ c)) by (apply Forall_app; by split).
  assert (Hdiff : p ++ x :: s <> p ++ y :: t).
  { intros E. apply app_inv_head in E. injection E as E _. lia. }
  assert (Hlong : p <> p ++ c).
  { intros E. apply (f_equal List.length) in E. rewrite length_app in E.
    destruct c; [contradiction | simpl in E; lia]. }
  repeat apply conj.
  - unfold AsnMib.compareTo. by rewrite String.eqb_refl.
  - rewrite compareTo_dotted by assumption.
    rewrite <- (app_nil_r p) at 1. rewrite compareTo_loop_prefix by exact Hp.
    reflexivity.
  - rewrite compareTo_dotted by (try assumption; congruence).
    rewrite <- (app_nil_r p) at 2. rewrite compareTo_loop_prefix by exact Hp.
    by destruct c.
  - rewrite compareTo_dotted by assumption.
    rewrite compareTo_loop_prefix by exact Hp.
    cbn [List.map AsnMib.compareTo_loop].
    rewrite !toInteger_of_Z by lia.
    unfold to_int32, to_uint32.
    replace ((x - y) mod 4294967296) with (x - y + 4294967296)
      by (Z.div_mod_to_equations; lia).
    destruct (Z.ltb_spec (x - y + 4294967296) 2147483648); [lia|].
    destruct (Z.eqb_spec (x - y + 4294967296 - 4294967296) 0); [lia|].
    rewrite Z.gtb_ltb.
    destruct (Z.ltb_spec 0 (x - y + 4294967296 - 4294967296)); [lia | reflexivity].
  - rewrite compareTo_dotted by (try assumption; congruence).
    rewrite compareTo_loop_prefix by exact Hp.
    cbn [List.map AsnMib.compareTo_loop].
    rewrite !toInteger_of_Z by lia.
    rewrite to_int32_small by lia.
    destruct (Z.eqb_spec (y - x) 0); [lia|].
    rewrite Z.gtb_ltb.
    destruct (Z.ltb_spec 0 (y - x)); [reflexivity | lia].
  - vm_compute. reflexivity.
  - vm_compute. reflexivity.
Qed.

End MibOrder.

(** 1.3.6.9 comes before 1.3.6.10, and 1.3.6 before 1.3.6.1. *)
Lemma compareTo_orders_by_number_witness :
  AsnMib.compareTo "1.3.6.9" (Some "1.3.6.10"%string) = -1
  /\ AsnMib.compareTo "1.3.6" (Some "1.3.6.1"%string) = -1.
Proof.
  destruct (compareTo_orders_by_number [1; 3; 6] [] [] [1] 9 10)
    as (_ & Hprefix & _ & Hless & _).
  - repeat (apply Forall_cons; split; [lia|]). apply Forall_nil_2.
  - apply Forall_nil_2.
  - apply Forall_nil_2.
  - repeat (apply Forall_cons; split; [lia|]). apply Forall_nil_2.
  - lia.
  - lia.
  - discriminate.
  - split; [exact Hless | exact Hprefix].
Defined.

(** * The networks of a route *)

Section RouteLists.
Variables (nets : gmap L3Pointer SS7Layer3) (type : PCType).
Import SS7Route.

Lemma priorities_cons packed p l :
  priorities nets type packed (p :: l)
  = match p ≫= (nets !!.) with
    | Some l3 => Layer3.getRoutePriority type packed l3 :: priorities nets type packed l
    | None => priorities nets type packed l
    end.
Proof. unfold priorities. simpl. by destruct (p ≫= _). Qed.

Lemma priorities_live packed n l3 l :
  nets !! n = Some l3 ->
  priorities nets type packed (Some n :: l)
  = Layer3.getRoutePriority type packed l3 :: priorities nets type packed l.
Proof.
  intros Hn. rewrite priorities_cons.
  change (Some n ≫= (nets !!.)) with (nets !! n). by rewrite Hn.
Qed.

Lemma priorities_remove_first packed n l :
  StronglySorted Z.le (priorities nets type packed l) ->
  StronglySorted Z.le (priorities nets type packed (remove_first n l)).
Proof.
  induction l as [|p l IH]; intros Hs; [exact Hs|].
  cbn [remove_first]. rewrite priorities_cons in Hs.
  destruct (decide (p = Some n)).
  - destruct (p ≫= _); [by apply StronglySorted_inv in Hs as [? _] | exact Hs].
  - rewrite priorities_cons. destruct (p ≫= _) as [l3|]; [|by apply IH].
    apply StronglySorted_inv in Hs as [Hs Hall]. constructor; [by apply IH|].
    clear IH Hs. induction l as [|q l IH]; [constructor|].
    cbn [remove_first]. rewrite priorities_cons in Hall.
    destruct (decide (q = Some n)).
    + destruct (q ≫= _); [by apply Forall_cons in Hall as [_ ?] | exact Hall].
    + rewrite priorities_cons. destruct (q ≫= _); [|by apply IH].
      apply Forall_cons in Hall as [? ?]. constructor; [done | by apply IH].
Qed.

Lemma attach_loop_Permutation packed priority n l :
  attach_loop nets type packed priority n l ≡ₚ Some n :: l.
Proof.
  induction l as [|p l IH]; [reflexivity|]. cbn [attach_loop].
  destruct (p ≫= _) as [l3|]; [destruct (_ <=? _); [reflexivity|]|];
    rewrite IH; apply Permutation_swap.
Qed.

Lemma priorities_Permutation packed l k :
  l ≡ₚ k -> priorities nets type packed l ≡ₚ priorities nets type packed k.
Proof. intros Hp. unfold priorities. by rewrite Hp. Qed.

Lemma attach_loop_sorted packed n l3 l :
  nets !! n = Some l3 ->
  let priority := Layer3.getRoutePriority type packed l3 in
  StronglySorted Z.le (priorities nets type packed l) ->
  StronglySorted Z.le
    (priorities nets type packed (attach_loop nets type packed priority n l)).
Proof.
  intros Hn priority. induction l as [|p l IH]; intros Hs.
  - cbn [attach_loop]. rewrite (priorities_live _ _ _ _ Hn). repeat constructor.
  - cbn [attach_loop]. rewrite priorities_cons in Hs.
    destruct (p ≫= (nets !!.)) as [l3'|] eqn:Hp.
    + apply StronglySorted_inv in Hs as [Hs Hall].
      destruct (Z.leb_spec priority (Layer3.getRoutePriority type packed l3')).
      * rewrite (priorities_live _ _ _ _ Hn). fold priority.
        rewrite priorities_cons, Hp.
        constructor; [by constructor|].
        constructor; [done|]. eapply Forall_impl; [exact Hall|]. simpl. lia.
      * rewrite priorities_cons, Hp. constructor; [by apply IH|].
        rewrite (priorities_Permutation _ _ _ (attach_loop_Permutation _ _ _ _)).
        rewrite (priorities_live _ _ _ _ Hn). fold priority.
        constructor; [lia | exact Hall].
    + rewrite priorities_cons, Hp. by apply IH.
Qed.

Lemma priorities_remove_first_Forall P packed n l :
  Forall P (priorities nets type packed l) ->
  Forall P (priorities nets type packed (remove_first n l)).
Proof.
  induction l as [|p l IH]; intros Hall; [exact Hall|].
  cbn [remove_first]. rewrite priorities_cons in Hall.
  destruct (decide (p = Some n)).
  - destruct (p ≫= _); [by apply Forall_cons in Hall as [_ ?] | exact Hall].
  - rewrite priorities_cons. destruct (p ≫= _); [|by apply IH].
    apply Forall_cons in Hall as [? ?]. constructor; [done | by apply IH].
Qed.

(** Extra X15: SS7Route::attach keeps the networks of a route in the
    order of their priorities toward its destination: when the list
    holds no dangling pointer, is in ascending order of priority and no
    priority is negative, it is in ascending order after the call,
    whatever network is attached, attached again or passed as null. *)
Theorem attach_keeps_priority_order (network : option L3Pointer) (route : SS7Route) :
  let pr := priorities nets type (m_packed route) in
  all_there nets (m_networks route) ->
  Sorted Z.le (pr (m_networks route)) ->
  Forall (fun x => 0 <= x) (pr (m_networks route)) ->
  Sorted Z.le (pr (m_networks (attach nets network type route)))
  /\ m_packed (attach nets network type route) = m_packed route.
Proof.
  intros pr _ Hs Hpos. apply Sorted_StronglySorted in Hs; [|apply _].
  unfold attach.
  destruct (network ≫= _) as [[n l3]|] eqn:Hnet;
    [|split; [by apply StronglySorted_Sorted | reflexivity]].
  assert (Hn : nets !! n = Some l3).
  { destruct network as [n'|]; [|discriminate]. simpl in Hnet.
    destruct (nets !! n') eqn:E; simpl in Hnet; [|discriminate]. by simplify_eq. }
  destruct (_ =? to_uint32 (-1)); [split; [by apply StronglySorted_Sorted | reflexivity]|].
  cbn [detach snd set_networks m_networks m_packed].
  destruct (Z.eqb_spec (Layer3.getRoutePriority type (m_packed route) l3) 0) as [E0|N0];
    cbn [set_networks m_networks m_packed]; (split; [|reflexivity]);
    apply StronglySorted_Sorted.
  - unfold pr. rewrite (priorities_live _ _ _ _ Hn), E0.
    constructor; [by apply priorities_remove_first|].
    by apply priorities_remove_first_Forall.
  - apply (attach_loop_sorted _ _ _ _ Hn). by apply priorities_remove_first.
Qed.


Lemma hasNetwork_elem n route :
  hasNetwork (Some n) route = true <-> Some n ∈ m_networks route.
Proof.
  unfold hasNetwork. rewrite existsb_exists. split.
  - intros (p & Hin & Hp). apply bool_decide_eq_true in Hp. subst.
    by apply list_elem_of_In.
  - intros Hin. exists (Some n). split; [by apply list_elem_of_In|].
    by apply bool_decide_eq_true.
Qed.

Lemma hasNetwork_ext n route route' :
  (Some n ∈ m_networks route' <-> Some n ∈ m_networks route) ->
  hasNetwork (Some n) route' = hasNetwork (Some n) route.
Proof.
  intros Hiff. pose proof (hasNetwork_elem n route) as H1.
  pose proof (hasNetwork_elem n route') as H2.
  destruct (hasNetwork (Some n) route), (hasNetwork (Some n) route'); try reflexivity.
  - apply H2. apply Hiff. by apply H1.
  - symmetry. apply H1. apply Hiff. by apply H2.
Qed.

Lemma elem_of_remove_first (p : option L3Pointer) n l :
  p <> Some n -> p ∈ remove_first n l <-> p ∈ l.
Proof.
  intros Hne. induction l as [|q l IH]; [reflexivity|]. cbn [remove_first].
  destruct (decide (q = Some n)) as [->|Hq].
  - rewrite elem_of_cons. split; [by right | intros [?|?]; [congruence | done]].
  - rewrite !elem_of_cons, IH. reflexivity.
Qed.

Lemma elem_of_remove_first_weak (p : option L3Pointer) n l :
  p ∈ remove_first n l -> p ∈ l.
Proof.
  induction l as [|q l IH]; [done|]. cbn [remove_first].
  destruct (decide (q = Some n)); rewrite ?elem_of_cons; intuition.
Qed.

Lemma remove_first_sublist n l : remove_first n l `sublist_of` l.
Proof.
  induction l as [|q l IH]; [constructor|]. cbn [remove_first].
  destruct (decide (q = Some n)); [by apply sublist_cons | by apply sublist_skip].
Qed.

Lemma omap_sublist {A B} (f : A -> option B) (l k : list A) :
  l `sublist_of` k -> omap f l `sublist_of` omap f k.
Proof.
  induction 1 as [|x l k _ IH|x l k _ IH]; simpl.
  - constructor.
  - destruct (f x); [by apply sublist_skip | exact IH].
  - destruct (f x); [by apply sublist_cons | exact IH].
Qed.

Lemma remove_first_gone n l :
  NoDup (omap id l) -> Some n ∉ remove_first n l.
Proof.
  induction l as [|q l IH]; intros Hnd; [apply not_elem_of_nil|].
  cbn [remove_first]. destruct (decide (q = Some n)) as [->|Hq].
  - simpl in Hnd. apply NoDup_cons in Hnd as [Hn _].
    intros Hin. apply Hn. apply list_elem_of_omap. by exists (Some n).
  - rewrite not_elem_of_cons. split; [congruence|]. apply IH.
    simpl in Hnd. destruct q; [by apply NoDup_cons in Hnd as [_ ?] | exact Hnd].
Qed.

(** The networks of the route after SS7Route::attach. *)
Lemma attach_networks n route :
  m_networks (attach nets (Some n) type route)
  ≡ₚ match nets !! n with
     | Some l3 =>
         if Layer3.getRoutePriority type (m_packed route) l3 =? to_uint32 (-1)
         then m_networks route
         else Some n :: remove_first n (m_networks route)
     | None => m_networks route
     end.
Proof.
  unfold attach. change (Some n ≫= _) with ((fun l3 => (n, l3)) <$> nets !! n).
  destruct (nets !! n) as [l3|]; simpl; [|reflexivity].
  destruct (_ =? to_uint32 (-1)); [reflexivity|].
  destruct (_ =? 0); cbn [set_networks m_networks]; [reflexivity|].
  apply attach_loop_Permutation.
Qed.

(** Extra X16: on a route that lists no network twice and holds no
    dangling pointer, SS7Route::attach and SS7Route::detach change the
    membership of the one network they are called for and of no other:
    after attach the network is listed (when it is there and has a route
    to the destination), after detach it is not, hasNetwork answers for
    every other network as before, no network is listed twice
    afterwards, and detach returns whether a network is left.  A route
    is operational once an operational network was attached, and
    detaching never makes a route operational. *)
Theorem attach_detach_membership (n : L3Pointer) (route : SS7Route) :
  all_there nets (m_networks route) ->
  NoDup (omap id (m_networks route)) ->
  let attached := attach nets (Some n) type route in
  let detached := (detach (Some n) route).2 in
  (forall l3, nets !! n = Some l3 ->
     Layer3.getRoutePriority type (m_packed route) l3 <> to_uint32 (-1) ->
     hasNetwork (Some n) attached = true)
  /\ (forall m, m <> n -> hasNetwork (Some m) attached = hasNetwork (Some m) route)
  /\ NoDup (omap id (m_networks attached))
  /\ hasNetwork (Some n) detached = false
  /\ (forall m, m <> n -> hasNetwork (Some m) detached = hasNetwork (Some m) route)
  /\ NoDup (omap id (m_networks detached))
  /\ (detach (Some n) route).1 = bool_decide (m_networks detached <> [])
  /\ (forall l3 sls, nets !! n = Some l3 ->
        Layer3.getRoutePriority type (m_packed route) l3 <> to_uint32 (-1) ->
        l3_operational l3 sls = true -> operational nets sls attached = true)
  /\ (forall sls, operational nets sls detached = true ->
        operational nets sls route = true).
Proof.
  intros _ Hnd attached detached.
  assert (Hnd' : NoDup (omap id (remove_first n (m_networks route)))).
  { eapply sublist_NoDup; [exact Hnd | apply omap_sublist, remove_first_sublist]. }
  pose proof (remove_first_gone n (m_networks route) Hnd) as Hgone.
  pose proof (attach_networks n route) as Hatt. fold attached in Hatt.
  repeat apply conj.
  - intros l3 Hn Hprio. apply hasNetwork_elem. rewrite Hatt, Hn.
    destruct (Z.eqb_spec (Layer3.getRoutePriority type (m_packed route) l3)
                (to_uint32 (-1))); [done | apply list_elem_of_here].
  - intros m Hm. apply hasNetwork_ext. rewrite Hatt.
    destruct (nets !! n) as [l3|]; [|reflexivity].
    destruct (_ =? to_uint32 (-1)); [reflexivity|].
    rewrite elem_of_cons, elem_of_remove_first by congruence.
    split; [intros [?|?]; [congruence | done] | by right].
  - rewrite Hatt. destruct (nets !! n) as [l3|]; [|exact Hnd].
    destruct (_ =? to_uint32 (-1)); [exact Hnd|].
    simpl. apply NoDup_cons. split; [|exact Hnd'].
    intros Hin. apply list_elem_of_omap in Hin as (p & Hin & Hp).
    destruct p as [q|]; [|discriminate]. simpl in Hp. by simplify_eq.
  - destruct (hasNetwork (Some n) detached) eqn:E; [|reflexivity].
    apply hasNetwork_elem in E. contradiction.
  - intros m Hm. apply hasNetwork_ext. apply elem_of_remove_first. congruence.
  - exact Hnd'.
  - reflexivity.
  - intros l3 sls Hn Hprio Hop. unfold operational. apply existsb_exists.
    exists (Some n). split.
    + apply list_elem_of_In. rewrite Hatt, Hn.
      destruct (Z.eqb_spec (Layer3.getRoutePriority type (m_packed route) l3)
                  (to_uint32 (-1))); [done | apply list_elem_of_here].
    + change (Some n ≫= (nets !!.)) with (nets !! n). by rewrite Hn.
  - intros sls. unfold operational. rewrite !existsb_exists.
    intros (p & Hin & Hop). exists p. split; [|exact Hop].
    apply list_elem_of_In. apply list_elem_of_In in Hin.
    by apply (elem_of_remove_first_weak p n).
Qed.

End RouteLists.

(** * The user parts of the router, and the way out and in *)

Section UserPartLists.
Import SS7Router.

Lemma to_int32_succ_ne (c : Z) : to_int32 (c + 1) <> c.
Proof.
  unfold to_int32, to_uint32.
  pose proof (Z.mod_pos_bound (c + 1) 4294967296 ltac:(lia)).
  destruct (Z.ltb_spec ((c + 1) mod 4294967296) 2147483648);
    Z.div_mod_to_equations; lia.
Qed.

Lemma remove_layer4_length s l :
  Some s ∈ l -> S (List.length (remove_layer4 s l)) = List.length l.
Proof.
  induction l as [|p l IH]; intros Hin; [by apply elem_of_nil in Hin|].
  cbn [remove_layer4]. destruct (decide (p = Some s)); [reflexivity|].
  apply elem_of_cons in Hin as [?|Hin]; [congruence|]. simpl. by rewrite IH.
Qed.

Lemma layer4_present s (l : list (option L4Pointer)) :
  existsb (fun p => bool_decide (p = Some s)) l = true <-> Some s ∈ l.
Proof.
  rewrite existsb_exists. split.
  - intros (p & Hin & Hp). apply bool_decide_eq_true in Hp. subst.
    by apply list_elem_of_In.
  - intros Hin. exists (Some s). split; [by apply list_elem_of_In|].
    by apply bool_decide_eq_true.
Qed.

Lemma remove_layer4_app s l :
  Some s ∉ l -> remove_layer4 s (l ++ [Some s]) = l.
Proof.
  induction l as [|p l IH]; intros Hn.
  - simpl. by destruct (decide _).
  - apply not_elem_of_cons in Hn as [Hp Hn]. simpl.
    destruct (decide (p = Some s)); [congruence|]. by rewrite IH.
Qed.

(** Extra X17: the generation counter [m_changes] of the router moves
    exactly when the list of user parts does: SS7Router::attach and
    SS7Router::detach of a user part leave both alone or change both.
    Attaching a part twice is attaching it once, the part is listed
    after attach, and detaching a part that was just attached gives the
    list back.  Detaching the management part makes the router forget
    it, and no other detach touches that pointer. *)
Theorem layer4_changes_track_the_list (service : option L4Pointer) (r : SS7Router)
    (mngmt : option L4Pointer) :
  let a := attach_layer4 service r in
  let d := (detach_layer4 service r mngmt).1 in
  (m_changes a = m_changes r <-> m_layer4 a = m_layer4 r)
  /\ (m_changes d = m_changes r <-> m_layer4 d = m_layer4 r)
  /\ attach_layer4 service a = a
  /\ (forall s, service = Some s -> Some s ∈ m_layer4 a)
  /\ (forall s, service = Some s -> Some s ∉ m_layer4 r ->
        m_layer4 (detach_layer4 service a mngmt).1 = m_layer4 r)
  /\ (forall s, service = Some s -> Some s ∈ m_layer4 r -> mngmt = Some s ->
        (detach_layer4 service r mngmt).2 = None)
  /\ (mngmt <> service -> (detach_layer4 service r mngmt).2 = mngmt).
Proof.
  intros a d. unfold a, d, attach_layer4, detach_layer4.
  destruct service as [s|].
  2: { repeat split; intros. all: try reflexivity. all: congruence. }
  assert (Hp : existsb (fun p => bool_decide (p = Some s)) (m_layer4 r ++ [Some s])
               = true).
  { apply layer4_present. apply elem_of_app. right. apply list_elem_of_here. }
  destruct (existsb _ (m_layer4 r)) eqn:E.
  - apply layer4_present in E. cbn [set_layer4 m_changes m_layer4 fst snd].
    split; [by split|]. split; [|split; [|split; [|split; [|split]]]].
    + split.
      * intros Hc. by apply to_int32_succ_ne in Hc.
      * intros Hl. pose proof (remove_layer4_length s _ E) as Hlen.
        rewrite Hl in Hlen. lia.
    + apply layer4_present in E. by rewrite E.
    + by intros s' [= <-].
    + intros s' [= <-] Hn. contradiction.
    + intros s' [= <-] _ ->. by rewrite decide_True.
    + intros Hne. by rewrite decide_False.
  - cbn [set_layer4 m_changes m_layer4 fst snd].
    split; [|split; [by split|split; [|split; [|split; [|split]]]]].
    + split.
      * intros Hc. by apply to_int32_succ_ne in Hc.
      * intros Hl. apply (f_equal List.length) in Hl. rewrite length_app in Hl.
        simpl in Hl. lia.
    + by rewrite Hp.
    + intros s' [= <-]. by apply layer4_present.
    + intros s' [= <-] Hn. rewrite Hp. cbn [fst set_layer4 m_layer4].
      by apply remove_layer4_app.
    + intros s' [= <-] Hin. apply layer4_present in Hin. congruence.
    + reflexivity.
Qed.

End UserPartLists.

Section RouterTransmit.
Context `{RouteStates} `{Services} `{UserParts}.
Import SS7Router.

(** Extra X18: SS7Router::transmitMSU sends management and maintenance
    MSUs on a route in any state and every other MSU only on a route that
    is not prohibited: toward a destination whose route is in a state
    outside NotProhibited, an MSU of another service is refused with -1
    and no network is tried, while an MSU of SNM, MTN or MTNS is offered
    to the networks of the route.  The call counts a transmitted MSU and
    never a forwarded or a received one. *)
Theorem transmitMSU_route_states (msu : SS7MSU) (label : SS7Label) (sls : Z)
    (e : Engine) (route : SS7Route) :
  Layer3.findRoute (lbl_type label) (lbl_dpc label) (m_route (router e)) = Some route ->
  Z.land (m_state route) NotProhibited = 0 ->
  Z.land (m_state route) AnyState <> 0 ->
  let sif := getSIF msu in
  let out := transmitMSU msu label sls e in
  let offered := SS7Route.transmitMSU (networks e) route msu label sls None in
  (sif <> SNM -> sif <> MTN -> sif <> MTNS -> out = (-1, e, []))
  /\ (sif = SNM \/ sif = MTN \/ sif = MTNS ->
      out.1.1 = offered.1 /\ out.2 = offered.2)
  /\ m_fwdMsu (router out.1.2) = m_fwdMsu (router e)
  /\ m_rxMsu (router out.1.2) = m_rxMsu (router e)
  /\ m_txMsu (router out.1.2)
     = m_txMsu (router e) + (if out.1.1 >=? 0 then 1 else 0).
Proof.
  intros Hroute Hnot Hany sif out offered.
  unfold out, transmitMSU, SS7Router.routeMSU, Layer3.findRoute_states. fold sif.
  rewrite Hroute. repeat apply conj.
  - intros Hn1 Hn2 Hn3.
    destruct (Z.eqb_spec sif SNM); [done|]. destruct (Z.eqb_spec sif MTN); [done|].
    destruct (Z.eqb_spec sif MTNS); [done|]. simpl. rewrite Hnot. reflexivity.
  - intros Hm.
    assert (Hs : (sif =? SNM) || (sif =? MTN) || (sif =? MTNS) = true).
    { destruct Hm as [-> | [-> | ->]]; rewrite Z.eqb_refl; rewrite ?orb_true_r; done. }
    rewrite Hs. destruct (Z.eqb_spec (Z.land (m_state route) AnyState) 0); [done|].
    simpl negb. cbv iota. fold offered. destruct offered as [slsTx tried].
    by destruct (slsTx >=? 0).
  - destruct (_ || _); destruct (negb _);
      try destruct (SS7Route.transmitMSU _ _ _ _ _ _) as [slsTx tried];
      try destruct (slsTx >=? 0); reflexivity.
  - destruct (_ || _); destruct (negb _);
      try destruct (SS7Route.transmitMSU _ _ _ _ _ _) as [slsTx tried];
      try destruct (slsTx >=? 0); reflexivity.
  - destruct (_ || _); destruct (negb _);
      try destruct (SS7Route.transmitMSU _ _ _ _ _ _) as [slsTx tried];
      try destruct (slsTx >=? 0) eqn:E; simpl; rewrite ?E; simpl; lia.
Qed.

(** The scan of the user parts returns early on Accepted or Failure
    only. *)
Lemma scan_result (fuel : nat) (l : list (option L4Pointer)) (ret : HandledMSU)
    msu label network sls (e e' : Engine) (h : HandledMSU) :
  SS7Router.scan fuel l ret msu label network sls e = Some (SS7Router.Returned h e') ->
  h = Accepted \/ h = Failure.
Proof.
  revert l ret e. induction fuel as [|fuel IH]; intros l ret e; [discriminate|].
  cbn [SS7Router.scan]. destruct l as [|[l4|] l]; [discriminate| |apply IH].
  destruct (l4_receivedMSU l4 msu label network sls e) as [handled e1].
  destruct handled; try (intros [= <- <-]; by auto);
    destruct (negb _); apply IH.
Qed.


Lemma answers_Permutation nets (l k : list (option L3Pointer)) msu label sls :
  l ≡ₚ k ->
  SS7Route.answers nets l msu label sls ≡ₚ SS7Route.answers nets k msu label sls.
Proof. intros Hp. unfold SS7Route.answers. by rewrite Hp. Qed.

(** Extra X19: SS7Route::transmitMSU asks the networks of the route one
    after the other until one answers something else than -1, and this in
    whatever order the iterator hands them out: no network is asked more
    often than it is listed, every network asked before the one whose
    answer is returned answered -1, and the result is -1 only after every
    network of the route that is there was asked and answered -1. *)
Theorem transmitMSU_until_accepted (nets : gmap L3Pointer SS7Layer3) (route : SS7Route)
    (msu : SS7MSU) (label : SS7Label) (sls : Z) (source : option L3Pointer)
    (iter : list (option L3Pointer)) :
  iter ≡ₚ m_networks route ->
  let ans := SS7Route.answers nets (m_networks route) msu label sls in
  let asks (out : Z * list L3Pointer) : Prop :=
    out.2 ⊆+ ans.*1
    /\ (out.1 = -1 -> out.2 ≡ₚ ans.*1 /\ Forall (fun qa => qa.2 = -1) ans)
    /\ (out.1 <> -1 ->
        exists q pre,
          out.2 = pre ++ [q] /\ (q, out.1) ∈ ans
          /\ Forall (fun m => (m, -1) ∈ ans) pre) in
  asks (SS7Route.transmitMSU_loop nets iter msu label sls)
  /\ asks (SS7Route.transmitMSU nets route msu label sls source).
Proof.
  intros Hiter ans asks.
  assert (Hloop : forall it, it ≡ₚ m_networks route ->
            asks (SS7Route.transmitMSU_loop nets it msu label sls)).
  { clear iter Hiter. intros iter Hiter. unfold asks.
    assert (Hperm : SS7Route.answers nets iter msu label sls ≡ₚ ans).
    { by apply answers_Permutation. }
    destruct (transmitMSU_loop_first nets iter msu label sls)
      as (Htake & Hall & Hone).
    repeat apply conj.
    - rewrite Htake, <- Hperm. apply fmap_submseteq, sublist_submseteq, sublist_take.
    - intros Hr. destruct (Hall Hr) as [-> Hm]. split; [by rewrite Hperm|].
      by rewrite <- Hperm.
    - intros Hr. destruct (Hone Hr) as (q & pre & -> & Hlook & Hpre & Hm).
      exists q, pre.*1. split; [reflexivity|]. split.
      + rewrite <- Hperm. by eapply list_elem_of_lookup_2.
      + apply Forall_fmap. rewrite Forall_forall in Hm |- *.
        intros [m a] Hin. simpl. rewrite <- Hperm.
        pose proof (Hm _ Hin) as Ha. simpl in Ha. subst a.
        rewrite Hpre in Hin. apply elem_of_take in Hin as (i & Hi & _).
        by eapply list_elem_of_lookup_2. }
  split; [by apply Hloop|].
  unfold SS7Route.transmitMSU. apply Hloop, ListIterator_Permutation.
Qed.

(** Extra X20: SS7Router::receivedMSU never answers Rejected; it
    answers Unequipped or Inaccessible only while [m_sendUnavail] is set
    and NoAddress only while [m_transfer] and [m_sendProhibited] are.
    With user parts that leave the list of parts alone it returns after
    one pass over the list. *)
Theorem receivedMSU_answers (msu : SS7MSU) (label : SS7Label)
    (network : option L3Pointer) (sls : Z) (e : Engine) :
  (forall fuel h e',
     SS7Router.receivedMSU fuel msu label network sls e = Some (h, e') ->
     h <> Rejected
     /\ (h = Unequipped \/ h = Inaccessible -> m_sendUnavail (router e') = true)
     /\ (h = NoAddress ->
         m_transfer (router e') = true /\ m_sendProhibited (router e') = true))
  /\ (SS7Router.quiet ->
      is_Some (SS7Router.receivedMSU (S (List.length (m_layer4 (router e))))
                 msu label network sls e)).
Proof.
  split.
  - intros fuel h e'. unfold SS7Router.receivedMSU.
    destruct (SS7Router.scan _ _ _ _ _ _ _ _) as [[h1 e1|ret e1]|] eqn:Hscan;
      [| |discriminate].
    + intros [= <- <-]. destruct (scan_result _ _ _ _ _ _ _ _ _ _ Hscan) as [-> | ->];
        (split; [discriminate|]); split; try (intros [?|?]; discriminate);
        intros; discriminate.
    + unfold SS7Router.after_scan.
      pose proof (routeMSU_flags msu label network (lbl_sls label) NotProhibited e1)
        as (Hsp & Htr & _).
      destruct (SS7Router.routeMSU msu label network (lbl_sls label) NotProhibited e1)
        as [[slsTx e2] tried]. simpl in Hsp, Htr.
      destruct ret; destruct (m_sendUnavail (router e1)) eqn:Hsu;
        try destruct (SS7Router.dpc_is_local label network e1);
        try destruct (m_transfer (router e1)) eqn:Ht;
        try destruct (slsTx >=? 0);
        try destruct (m_sendProhibited (router e2)) eqn:Hp;
        intros [= <- <-];
        (split; [discriminate|]); (split; [intros [?|?]; (discriminate || done)|]);
        intros; try discriminate; split; congruence.
  - intros Hquiet. unfold SS7Router.receivedMSU. cbn [router networks].
    change (m_layer4 (SS7Router.count_rx (router e))) with (m_layer4 (router e)).
    destruct (scan_terminates Hquiet (m_layer4 (router e)) Rejected msu label network sls
                (MkEngine (SS7Router.count_rx (router e)) (networks e))) as [sc Hsc].
    rewrite Hsc. destruct sc; by eexists.
Qed.

End RouterTransmit.

Section DefaultLocal.
Import SS7Router.

Lemma last_cons_default (y : Z) (l : list Z) (d d' : Z) :
  List.last (y :: l) d = List.last (y :: l) d'.
Proof.
  revert y. induction l as [|z l IH]; intros y; [reflexivity|].
  change (List.last (y :: z :: l) d) with (List.last (z :: l) d).
  change (List.last (y :: z :: l) d') with (List.last (z :: l) d'). apply IH.
Qed.

Lemma getDefaultLocal_loop_locals (nets : gmap L3Pointer SS7Layer3) (type : PCType)
    (l : list L3Pointer) (local : Z) :
  let locals := omap (fun p => (fun l3 => l3_getLocal l3 type) <$> nets !! p) l in
  getDefaultLocal_loop nets type l local
  = if neighbours_set (local :: locals) then 0 else List.last locals local.
Proof.
  revert local. induction l as [|p l IH]; intros local; [reflexivity|].
  cbn [getDefaultLocal_loop omap list_omap].
  destruct (nets !! p) as [l3|]; cbn [fmap option_fmap option_map]; [|apply IH].
  set (x := l3_getLocal l3 type). rewrite IH. clear IH.
  set (locals := omap (fun p => (fun l3 => l3_getLocal l3 type) <$> nets !! p) l).
  cbn [neighbours_set].
  destruct (negb (x =? 0) && negb (local =? 0)) eqn:E.
  - rewrite andb_comm in E. rewrite E. reflexivity.
  - rewrite andb_comm in E. rewrite E. cbn [orb].
    destruct locals as [|y locals]; [reflexivity|].
    change (List.last (x :: y :: locals) local) with (List.last (y :: locals) local).
    by rewrite (last_cons_default y locals local x).
Qed.

(** Extra X21: SS7Router::getDefaultLocal returns the local point code
    of the router when it has one.  When it has none, the answer is read
    off the local point codes of the attached networks in their order: 0
    when two neighbours in that list are both set, and otherwise the
    point code of the last network - so a point code that only an
    earlier network has is lost, and a point code that two neighbours
    share counts as a conflict. *)
Theorem getDefaultLocal_last_network (e : Engine) (type : PCType) :
  let own := SS7Router.getLocal (router e) type in
  let locals :=
    omap (fun p => (fun l3 => l3_getLocal l3 type) <$> networks e !! p)
      (m_layer3 (router e)) in
  (own <> 0 -> getDefaultLocal e type = own)
  /\ (own = 0 ->
      getDefaultLocal e type
      = if neighbours_set locals then 0 else List.last locals 0)
  /\ (own = 0 -> forall x, x <> 0 ->
      (locals = [x; 0] -> getDefaultLocal e type = 0)
      /\ (locals = [0; x] -> getDefaultLocal e type = x)
      /\ (locals = [x; x] -> getDefaultLocal e type = 0)).
Proof.
  intros own locals.
  assert (Hzero : own = 0 ->
            getDefaultLocal e type
            = if neighbours_set locals then 0 else List.last locals 0).
  { intros Hown. unfold getDefaultLocal. fold own. rewrite Hown.
    change (0 =? 0) with true. cbv iota.
    rewrite getDefaultLocal_loop_locals. fold locals.
    cbn [neighbours_set]. by destruct locals. }
  repeat apply conj.
  - intros Hown. unfold getDefaultLocal. fold own.
    by destruct (Z.eqb_spec own 0).
  - exact Hzero.
  - intros Hown x Hx. rewrite (Hzero Hown).
    repeat apply conj; intros ->; cbn [neighbours_set List.last];
      destruct (Z.eqb_spec x 0); try contradiction; reflexivity.
Qed.

End DefaultLocal.

(** * The procedures of the management entity *)

Section ManagementProcedures.
Context `{SnmCodes} `{ManagementEnv}.
Import SS7Management.

Lemma distinct_ne (i j : nat) (a b : Z) :
  distinct_codes ->
  [COO; ECO; XCO; COA; ECA; XCA; CBD; CBA; TFP; TFR; TFA; TRA;
   LIN; LUN; LFU; LIA; LID; LUA; UPU] !! i = Some a ->
  [COO; ECO; XCO; COA; ECA; XCA; CBD; CBA; TFP; TFR; TFA; TRA;
   LIN; LUN; LFU; LIA; LID; LUA; UPU] !! j = Some b ->
  i <> j -> a <> b.
Proof.
  intros Hd Hi Hj Hne ->. apply Hne. by eapply (NoDup_lookup _ _ _ _ Hd).
Qed.

(** Two codes at different places of the list are different. *)
Ltac codes_ne Hd :=
  let rec go_j i j :=
    first [ exact (distinct_ne i j _ _ Hd eq_refl eq_refl ltac:(discriminate))
          | lazymatch j with
            | 18%nat => fail
            | _ => go_j i (S j)
            end ] in
  let rec go_i i :=
    first [ go_j i 0%nat
          | lazymatch i with
            | 18%nat => fail
            | _ => go_i (S i)
            end ] in
  go_i 0%nat.

(** The first steps of receivedMSU on an MSU of the entity's service,
    from a network whose local point code admits the label, with the
    payload [type :: code]. *)
Ltac enter_receivedMSU Hsif Hlocal Hpayload Hparse Hmsg :=
  unfold SS7Management.receivedMSU;
  rewrite Hsif, Z.eqb_refl; simpl negb; cbv iota;
  match goal with
  | |- context [negb (?a =? 0) && negb (?b =? ?a)] =>
      let Hf := fresh "Hforeign" in
      assert (Hf : negb (a =? 0) && negb (b =? a) = false)
        by (destruct Hlocal as [Hl | Hl]; rewrite Hl;
            [reflexivity | rewrite Z.eqb_refl; apply andb_false_r]);
      rewrite Hf
  end;
  rewrite andb_false_r;
  unfold SS7Management.payload_data; rewrite Hpayload;
  match goal with
  | |- context [List.length (?t :: ?c)] =>
      replace (Z.of_nat (List.length (t :: c))) with (1 + Z.of_nat (List.length c))
        by (simpl List.length; lia);
      destruct (Z.leb_spec (0 + 1) (1 + Z.of_nat (List.length c))); [|lia];
      change (nth 0 (drop (Z.to_nat 0) (t :: c)) 0) with t;
      change (drop 1 (drop (Z.to_nat 0) (t :: c))) with c
  end;
  rewrite Hparse, Hmsg.

(** Settle the comparisons of message codes of the goal. *)
Ltac resolve_codes Hd :=
  repeat match goal with
    | |- context [?a =? ?b] =>
        first [ unify a b; rewrite (Z.eqb_refl a)
              | replace (a =? b) with false
                  by (symmetry; apply Z.eqb_neq; codes_ne Hd) ]
    end;
  cbn [orb]; cbv iota.

Lemma parse_some (type : Z) (pcType : PCType) (code : list Z) :
  pcType <> Other ->
  exists msg, parse type pcType code = Some msg /\ msg_type msg = type.
Proof. apply parse_type. Qed.

(** Extra X22: SS7Management::receivedMSU on a changeback declaration
    (CBD) for this node asks the router to clear the Inactive flag of the
    link; when the router agrees it sends the acknowledgement CBA with
    the bytes of the declaration on the reversed label and answers
    Accepted if the MSU went out and Failure if not; when the router
    refuses, nothing is sent and the answer is Accepted. *)
Theorem changeback_declaration (msu : SS7MSU) (label : SS7Label)
    (network : L3Pointer * SS7Layer3) (sls when : Z) (s : Management)
    (code : list Z) (r : L3Pointer) :
  distinct_codes ->
  getSIF msu = m_sif s ->
  l3_getLocal network.2 (lbl_type label) = 0
  \/ lbl_dpc label = l3_getLocal network.2 (lbl_type label) ->
  env_router = Some r ->
  lbl_type label <> Other ->
  msu_payload msu = CBD :: code ->
  let lbl := reversed label (lbl_sls label) 0 in
  let inhibited := m_trace s ++ [EvInhibit lbl 0 Inactive false] in
  let cba := MSU (msu_sio msu) lbl (CBA :: code) in
  receivedMSU msu label (Some network) sls when s
  = if env_inhibit lbl 0 Inactive false then
      (Some (HandledMSU_of_bool (env_transmitMSU cba lbl sls >=? 0)),
       Mgmt (m_sif s) (m_pending s) (inhibited ++ [EvTransmit cba lbl sls]))
    else (Some Accepted, Mgmt (m_sif s) (m_pending s) inhibited).
Proof.
  intros Hd Hsif Hlocal Hrouter Hpc Hpayload lbl inhibited cba.
  destruct network as [q l3]. simpl in Hlocal.
  destruct (parse_some CBD (lbl_type label) code Hpc) as (msg & Hparse & Hmsg).
  enter_receivedMSU Hsif Hlocal Hpayload Hparse Hmsg.
  resolve_codes Hd.
  destruct (Z.eqb_spec (1 + Z.of_nat (List.length code)) 0); [lia|].
  destruct (Z.leb_spec (1 + (1 + Z.of_nat (List.length code) - 1))
              (1 + Z.of_nat (List.length code))); [|lia].
  change (drop (Z.to_nat 1) (CBD :: code)) with code. cbv beta iota.
  fold lbl. fold cba.
  unfold bind, inhibit, transmitMSU, emit, ret. rewrite Hrouter.
  cbn [m_sif m_pending m_trace]. fold inhibited.
  destruct (env_inhibit lbl 0 Inactive false); reflexivity.
Qed.


(** A scan of the pending list that finds nothing leaves it as it is. *)
Lemma take_changeback_none msu len label l :
  (take_changeback msu len label l).1 = None ->
  take_changeback msu len label l = (None, l).
Proof.
  induction l as [|p l IH]; [reflexivity|]. cbn [take_changeback].
  destruct (take_changeback msu len label l) as [found rest] eqn:E.
  simpl in IH. repeat case_match; simpl; intros Hn; try discriminate;
    specialize (IH Hn); by simplify_eq.
Qed.

Lemma take_changeover_none len label l :
  (take_changeover len label l).1 = None ->
  take_changeover len label l = (None, l).
Proof.
  induction l as [|p l IH]; [reflexivity|]. cbn [take_changeover].
  destruct (take_changeover len label l) as [found rest] eqn:E.
  simpl in IH. repeat case_match; simpl; intros Hn; try discriminate;
    specialize (IH Hn); by simplify_eq.
Qed.

(** A message that the scan takes is found wherever it was queued among
    messages that the scan passes over. *)
Lemma take_changeback_insert msu len label p l :
  (forall rest, take_changeback msu len label (p :: rest) = (Some p, rest)) ->
  (take_changeback msu len label l).1 = None ->
  take_changeback msu len label (SignallingMessageTimerList.insert_ordered p l)
  = (Some p, l).
Proof.
  intros Hp. induction l as [|crt l IH]; intros Hn; [apply Hp|].
  cbn [SignallingMessageTimerList.insert_ordered].
  destruct (_ <? _); [apply Hp|].
  cbn [take_changeback] in Hn |- *.
  destruct (take_changeback msu len label l) as [found rest] eqn:E.
  repeat case_match; simpl in Hn; try discriminate;
    specialize (IH Hn); by simplify_eq.
Qed.



(** Extra X23: postpone puts a changeback declaration into the pending
    list, and its acknowledgement, when it is what is received next,
    takes it out again: a CBA with the same length and code bytes, from
    the destination of the declaration and on its link, leaves the
    pending list as it was before the declaration was queued, the
    Inactive flag of the link is cleared and receivedMSU answers
    Accepted.  This is for a declaration that was queued (no interval, or
    sent successfully) behind no other message that the CBA matches. *)
Theorem changeback_acknowledged (cbd cba : SS7MSU) (lbl0 label : SS7Label)
    (network : L3Pointer * SS7Layer3) (txSls interval global when0 sls when : Z)
    (s : Management) (code : list Z) (r : L3Pointer) :
  distinct_codes ->
  env_router = Some r ->
  getSIF cba = m_sif s ->
  l3_getLocal network.2 (lbl_type label) = 0
  \/ lbl_dpc label = l3_getLocal network.2 (lbl_type label) ->
  lbl_type label <> Other ->
  msu_payload cbd = CBD :: code -> msu_payload cba = CBA :: code ->
  lbl_type (msu_label cbd) = lbl_type (msu_label cba) ->
  lbl_opc lbl0 = lbl_dpc label -> lbl_dpc lbl0 = lbl_opc label ->
  lbl_sls lbl0 = lbl_sls label ->
  interval = 0 \/ 0 <= env_transmitMSU cbd lbl0 txSls ->
  (take_changeback cba (Z.of_nat (List.length code)) label (m_pending s)).1 = None ->
  let s1 := (postpone cbd lbl0 txSls interval global when0 s).2 in
  (exists p, p ∈ m_pending s1 /\ pend_msu p = cbd /\ pend_label p = lbl0)
  /\ receivedMSU cba label (Some network) sls when s1
     = (Some Accepted,
        Mgmt (m_sif s) (m_pending s) (m_trace s1 ++ [EvInhibit lbl0 0 Inactive false])).
Proof.
  intros Hd Hrouter Hsif Hlocal Hpc Hcbd Hcba Hfam Hopc Hdpc Hsls Hsent Hnone s1.
  destruct network as [q l3]. simpl in Hlocal.
  set (p0 := Pending cbd lbl0 txSls (Timer interval 0) (Timer global 0)).
  set (p := SignallingMessageTimerList.restarted p0 when0).
  assert (Hs1 : m_sif s1 = m_sif s
                /\ m_pending s1 = SignallingMessageTimerList.insert_ordered p (m_pending s)).
  { unfold s1. rewrite postpone_cases.
    destruct (Z.eqb_spec interval 0); [by split|].
    destruct (Z.geb_spec (env_transmitMSU cbd lbl0 txSls) 0); [by split | lia]. }
  destruct Hs1 as [Hsif1 Hpend1].
  split.
  { exists p. split; [|by split].
    rewrite Hpend1, insert_ordered_Permutation. apply list_elem_of_here. }
  assert (Hp : forall rest,
             take_changeback cba (Z.of_nat (List.length code)) label (p :: rest)
             = (Some p, rest)).
  { intros rest. cbn [take_changeback].
    change (pend_msu p) with cbd. unfold msu_length, payload_data, matches.
    change (pend_label p) with lbl0.
    rewrite Hfam, Hcbd, Hcba, Z.eqb_refl. simpl negb. cbv iota.
    replace (Z.of_nat (List.length (CBD :: code)))
      with (1 + Z.of_nat (List.length code)) by (simpl List.length; lia).
    destruct (Z.leb_spec (0 + (Z.of_nat (List.length code) + 1))
                (1 + Z.of_nat (List.length code))); [|lia].
    change (nth 0 (drop (Z.to_nat 0) (CBD :: code)) 0) with CBD.
    rewrite Z.eqb_refl. simpl negb. cbv iota.
    change (drop 1 (drop (Z.to_nat 0) (CBD :: code))) with code.
    change (drop 1 (CBA :: code)) with code.
    rewrite bool_decide_eq_true_2 by reflexivity.
    rewrite Hopc, Hdpc, Hsls, !Z.eqb_refl. reflexivity. }
  destruct (parse_some CBA (lbl_type label) code Hpc) as (msg & Hparse & Hmsg).
  rewrite <- Hsif1 in Hsif.
  enter_receivedMSU Hsif Hlocal Hcba Hparse Hmsg.
  resolve_codes Hd.
  destruct (Z.eqb_spec (1 + Z.of_nat (List.length code)) 0); [lia|].
  replace (1 + Z.of_nat (List.length code) - 1) with (Z.of_nat (List.length code))
    by lia.
  unfold bind at 1. unfold get_pending at 1. rewrite Hpend1.
  rewrite (take_changeback_insert _ _ _ _ _ Hp Hnone).
  unfold bind, set_pending, inhibit, emit, ret. rewrite Hrouter.
  cbn [m_sif m_pending m_trace]. change (pend_label p) with lbl0.
  by rewrite Hsif1.
Qed.







(** Extra X26: SS7Management::receivedMSU on the link inhibit messages.
    LIN asks the router to set the Remote flag and is always answered,
    with LIA when the router agrees and LID when it refuses; LUN and LFU
    ask to clear the flag and are answered with LUA only when the router
    agrees.  The answer goes out on the reversed label, and the result
    is Accepted exactly when it was sent or none was due. *)
Theorem link_inhibit_requests (msu : SS7MSU) (label : SS7Label)
    (network : L3Pointer * SS7Layer3) (sls when : Z) (s : Management)
    (b : Z) (code : list Z) (r : L3Pointer) :
  distinct_codes ->
  getSIF msu = m_sif s ->
  l3_getLocal network.2 (lbl_type label) = 0
  \/ lbl_dpc label = l3_getLocal network.2 (lbl_type label) ->
  env_router = Some r ->
  lbl_type label <> Other ->
  msu_payload msu = b :: code ->
  b = LIN \/ b = LUN \/ b = LFU ->
  let lbl := reversed label (lbl_sls label) 0 in
  let call :=
    if b =? LIN then EvInhibit lbl Remote 0 true else EvInhibit lbl 0 Remote false in
  let inhibited :=
    if b =? LIN then env_inhibit lbl Remote 0 true else env_inhibit lbl 0 Remote false in
  let data := if b =? LIN then (if inhibited then LIA else LID) else LUA in
  let answer := MSU (msu_sio msu) lbl [data] in
  receivedMSU msu label (Some network) sls when s
  = if (b =? LIN) || inhibited then
      (Some (HandledMSU_of_bool (env_transmitMSU answer lbl sls >=? 0)),
       Mgmt (m_sif s) (m_pending s) (m_trace s ++ [call; EvTransmit answer lbl sls]))
    else (Some Accepted, Mgmt (m_sif s) (m_pending s) (m_trace s ++ [call])).
Proof.
  intros Hd Hsif Hlocal Hrouter Hpc Hpayload Hb lbl call inhibited data answer.
  destruct network as [q l3]. simpl in Hlocal.
  destruct (parse_some b (lbl_type label) code Hpc) as (msg & Hparse & Hmsg).
  enter_receivedMSU Hsif Hlocal Hpayload Hparse Hmsg.
  fold lbl. unfold answer, data, inhibited, call.
  destruct Hb as [-> | [-> | ->]]; resolve_codes Hd;
    unfold transmitMSU; unfold bind, emit, ret; rewrite Hrouter;
    cbv beta iota zeta; cbn [m_sif m_pending m_trace]; rewrite <- ?app_assoc;
    try destruct (env_inhibit lbl 0 Remote false);
    cbv beta iota zeta; cbn [m_sif m_pending m_trace]; rewrite <- ?app_assoc;
    reflexivity.
Qed.

(** A value below 16 and a multiple of 16 have no bit in common. *)
Lemma lor_low_nibble (a b : Z) :
  0 <= a < 16 -> 0 <= b -> Z.lor a (16 * b) = a + 16 * b.
Proof.
  intros Ha Hb.
  assert (Hdisjoint : Z.land a (16 * b) = 0).
  { apply Z.bits_inj'. intros i Hi. rewrite Z.land_spec, Z.bits_0.
    destruct (Z.lt_ge_cases i 4).
    - change 16 with (2 ^ 4). rewrite (Z.mul_comm (2 ^ 4)).
      rewrite Z.mul_pow2_bits_low by lia. apply andb_false_r.
    - rewrite (Z.bits_above_log2 a i); [reflexivity | lia |].
      destruct (Z.eq_dec a 0) as [-> | ?]; [simpl; lia|].
      apply Z.log2_lt_pow2; [lia|].
      apply Z.lt_le_trans with (2 ^ 4); [simpl; lia|].
      apply Z.pow_le_mono_r; lia. }
  by rewrite <- Z.lxor_lor, <- Z.add_nocarry_lxor.
Qed.

(** Extra X27: the changeover acknowledgement that receivedMSU builds
    is read back by SS7MsgSNM::parse with the sequence number it was
    built from: for ITU a sequence below 256, for ANSI a sequence below
    4096 together with a link code below 16. *)
Theorem changeover_ack_parse (type : PCType) (slc seq : Z) :
  distinct_codes ->
  (type = ITU /\ 0 <= seq < 256)
  \/ (type = ANSI /\ 0 <= slc < 16 /\ 0 <= seq < 4096) ->
  exists data,
    changeover_ack type slc seq = Some (COA :: data)
    /\ parse COA type data
       = Some (MsgSNM COA (Some seq) (if type is ANSI then Some slc else None) None).
Proof.
  intros Hd [(-> & Hseq) | (-> & Hslc & Hseq)].
  - eexists. split; [reflexivity|]. unfold parse.
    destruct (decide (ITU = Other)); [discriminate|].
    cbn [List.length nth]. change (Z.of_nat 1 =? 0) with false.
    change (Z.of_nat 1 >=? 1) with true. cbv iota.
    resolve_codes Hd. unfold to_uint8.
    by rewrite Z.mod_small by lia.
  - eexists. split; [reflexivity|]. unfold parse.
    destruct (decide (ANSI = Other)); [discriminate|].
    cbn [List.length nth]. change (Z.of_nat 2 =? 0) with false.
    change (Z.of_nat 2 >=? 2) with true. cbv iota.
    resolve_codes Hd.
    assert (Hlow : Z.land slc 15 = slc).
    { change 15 with (Z.ones 4). rewrite Z.land_ones by lia.
      apply Z.mod_small. lia. }
    assert (Hb0 : to_uint8 (Z.lor (Z.land slc 15) (Z.shiftl seq 4))
                  = slc + 16 * (seq mod 16)).
    { rewrite Hlow, Z.shiftl_mul_pow2 by lia. change (2 ^ 4) with 16.
      rewrite (Z.mul_comm seq), lor_low_nibble by lia.
      unfold to_uint8. Z.div_mod_to_equations; lia. }
    assert (Hb1 : to_uint8 (Z.shiftr seq 4) = seq / 16).
    { unfold to_uint8. rewrite Z.shiftr_div_pow2 by lia. change (2 ^ 4) with 16.
      apply Z.mod_small. Z.div_mod_to_equations; lia. }
    rewrite Hb0, Hb1. f_equal. f_equal.
    + f_equal. rewrite Z.shiftr_div_pow2, Z.shiftl_mul_pow2 by lia.
      change (2 ^ 4) with 16.
      replace ((slc + 16 * (seq mod 16)) / 16) with (seq mod 16)
        by (Z.div_mod_to_equations; lia).
      rewrite (Z.mul_comm (seq / 16)), lor_low_nibble
        by (Z.div_mod_to_equations; lia).
      Z.div_mod_to_equations; lia.
    + f_equal. change 15 with (Z.ones 4). rewrite Z.land_ones by lia.
      change (2 ^ 4) with 16. Z.div_mod_to_equations; lia.
Qed.

End ManagementProcedures.

(** * The signalling link test *)

Section MaintenanceFacts.
Context `{Services} `{MtnCodes} `{ManagementEnv}.
Import SS7Maintenance.

(** Extra X28: SS7Maintenance::receivedMSU answers a signalling link
    test message (SLTM) with an acknowledgement (SLTA) that carries the
    same test pattern: the length byte with its low half cleared, the
    pattern, and nothing of what followed it, sent on the reversed label
    and on the link of the label.  A message whose length byte announces
    more pattern bytes than there are is a Failure, and nothing is
    sent. *)
Theorem test_pattern_echoed (sif : Z) (msu : SS7MSU) (label : SS7Label)
    (network : option (L3Pointer * SS7Layer3)) (sls b : Z) :
  getSIF msu = sif \/ getSIF msu = MTNS ->
  (forall n, network = Some n ->
     l3_getLocal n.2 (lbl_type label) = 0
     \/ lbl_dpc label = l3_getLocal n.2 (lbl_type label)) ->
  0 <= b < 256 ->
  let lbl := SS7Management.reversed label (lbl_sls label) 0 in
  (forall pattern extra,
     msu_payload msu = SLTM :: b :: pattern ++ extra ->
     Z.of_nat (List.length pattern) = b / 16 ->
     let answer := MSU (msu_sio msu) lbl (SLTA :: 16 * (b / 16) :: pattern) in
     receivedMSU sif msu label network sls
     = (HandledMSU_of_bool (env_transmitMSU answer lbl (lbl_sls label) >=? 0),
        [EvTransmit answer lbl (lbl_sls label)]))
  /\ (forall c rest,
        msu_payload msu = c :: b :: rest ->
        Z.of_nat (List.length rest) < b / 16 ->
        receivedMSU sif msu label network sls = (Failure, [])).
Proof.
  intros Hsif Hlocal Hb lbl.
  assert (Hin : negb (getSIF msu =? sif) && negb (getSIF msu =? MTNS) = false).
  { destruct Hsif as [-> | ->]; rewrite Z.eqb_refl; [reflexivity | apply andb_false_r]. }
  assert (Hforeign :
            match network with
            | Some (_, l3) =>
                negb (l3_getLocal l3 (lbl_type label) =? 0)
                && negb (lbl_dpc label =? l3_getLocal l3 (lbl_type label))
            | None => false
            end = false).
  { destruct network as [[q l3]|]; [|reflexivity].
    destruct (Hlocal _ eq_refl) as [Hl | Hl]; simpl in Hl; rewrite Hl;
      [reflexivity | rewrite Z.eqb_refl; apply andb_false_r]. }
  assert (Hlen : to_uint8 (Z.shiftr b 4) = b / 16).
  { unfold to_uint8. rewrite Z.shiftr_div_pow2 by lia. change (2 ^ 4) with 16.
    apply Z.mod_small. Z.div_mod_to_equations; lia. }
  split.
  - intros pattern extra Hpayload Hpat answer.
    unfold receivedMSU. rewrite Hin, Hforeign.
    unfold SS7Management.payload_data. rewrite Hpayload.
    replace (Z.of_nat (List.length (SLTM :: b :: pattern ++ extra)))
      with (2 + Z.of_nat (List.length pattern) + Z.of_nat (List.length extra))
      by (simpl List.length; rewrite length_app; lia).
    destruct (Z.leb_spec (0 + 2)
                (2 + Z.of_nat (List.length pattern) + Z.of_nat (List.length extra)));
      [|lia].
    change (nth 1 (drop (Z.to_nat 0) (SLTM :: b :: pattern ++ extra)) 0) with b.
    change (nth 0 (drop (Z.to_nat 0) (SLTM :: b :: pattern ++ extra)) 0) with SLTM.
    rewrite Hlen.
    destruct (Z.leb_spec (2 + b / 16)
                (2 + Z.of_nat (List.length pattern) + Z.of_nat (List.length extra)));
      [|lia].
    rewrite Z.eqb_refl.
    change (drop (Z.to_nat 2) (SLTM :: b :: pattern ++ extra)) with (pattern ++ extra).
    rewrite <- Hpat, Nat2Z.id, take_app_length.
    replace (to_uint8 (Z.shiftl (Z.of_nat (List.length pattern)) 4))
      with (16 * (b / 16)).
    + reflexivity.
    + unfold to_uint8. rewrite Z.shiftl_mul_pow2 by lia. change (2 ^ 4) with 16.
      rewrite Z.mod_small by (Z.div_mod_to_equations; lia). lia.
  - intros c rest Hpayload Hshort.
    unfold receivedMSU. rewrite Hin, Hforeign.
    unfold SS7Management.payload_data. rewrite Hpayload.
    replace (Z.of_nat (List.length (c :: b :: rest)))
      with (2 + Z.of_nat (List.length rest)) by (simpl List.length; lia).
    destruct (Z.leb_spec (0 + 2) (2 + Z.of_nat (List.length rest))); [|lia].
    change (nth 1 (drop (Z.to_nat 0) (c :: b :: rest)) 0) with b.
    rewrite Hlen.
    destruct (Z.leb_spec (2 + b / 16) (2 + Z.of_nat (List.length rest))); [lia|].
    reflexivity.
Qed.

End MaintenanceFacts.

(** * The properties on the scenarios *)

(** The heading codes of Q.704 are pairwise different. *)
Lemma q704_codes_distinct : @distinct_codes q704_codes.
Proof.
  unfold distinct_codes.
  apply (bool_decide_unpack _). vm_compute. exact I.
Qed.


(** Network L (priority 10) is attached to the route to 7-7-7 that held
    K (priority 20): the route stays in order. *)
Lemma attach_keeps_priority_order_witness :
  Sorted Z.le
    (SS7Route.priorities Scenario.nets_7_7_7 ITU Scenario.pc_7_7_7
       (m_networks (SS7Route.attach Scenario.nets_7_7_7 (Some 2%nat) ITU Scenario.route_7_7_7_via_K)))
  /\ m_packed (SS7Route.attach Scenario.nets_7_7_7 (Some 2%nat) ITU Scenario.route_7_7_7_via_K)
     = Scenario.pc_7_7_7.
Proof.
  apply (attach_keeps_priority_order Scenario.nets_7_7_7 ITU (Some 2%nat) Scenario.route_7_7_7_via_K).
  - apply Forall_cons. split; [by exists Scenario.K | apply Forall_nil_2].
  - vm_compute. apply Sorted_cons; [apply Sorted_nil | apply HdRel_nil].
  - vm_compute. apply Forall_cons. split; [discriminate | apply Forall_nil_2].
Defined.

(** The same route: L is listed after it was attached, K is listed as
    before, and no network is listed after K was detached. *)
Lemma attach_detach_membership_witness :
  SS7Route.hasNetwork (Some 2%nat)
    (SS7Route.attach Scenario.nets_7_7_7 (Some 2%nat) ITU Scenario.route_7_7_7_via_K) = true
  /\ SS7Route.hasNetwork (Some 3%nat)
       (SS7Route.detach (Some 3%nat) Scenario.route_7_7_7_via_K).2 = false.
Proof.
  split.
  - destruct (attach_detach_membership Scenario.nets_7_7_7 ITU 2%nat Scenario.route_7_7_7_via_K)
      as (Hin & _).
    + apply Forall_cons. split; [by exists Scenario.K | apply Forall_nil_2].
    + vm_compute. apply NoDup_singleton.
    + apply (Hin Scenario.L); [reflexivity | vm_compute; discriminate].
  - destruct (attach_detach_membership Scenario.nets_7_7_7 ITU 3%nat Scenario.route_7_7_7_via_K)
      as (_ & _ & _ & Hout & _).
    + apply Forall_cons. split; [by exists Scenario.K | apply Forall_nil_2].
    + vm_compute. apply NoDup_singleton.
    + exact Hout.
Defined.

(** Toward 5-5-5, known as prohibited: the ISUP MSU is refused and no
    network is asked, the management MSU goes out through N. *)
Lemma transmitMSU_route_states_witness :
  @SS7Router.transmitMSU yatesig_states q704_services
    Scenario.isup_to_5_5_5 Scenario.label_to_5_5_5 3 Scenario.stp_prohibited
  = (-1, Scenario.stp_prohibited, [])
  /\ (@SS7Router.transmitMSU yatesig_states q704_services
        Scenario.coo_to_5_5_5 Scenario.label_to_5_5_5_link3 3 Scenario.stp_prohibited).2
     = [0%nat].
Proof.
  split.
  - destruct (@transmitMSU_route_states yatesig_states q704_services
                Scenario.isup_to_5_5_5 Scenario.label_to_5_5_5 3 Scenario.stp_prohibited
                (Route Scenario.pc_5_5_5 0 (@Prohibited yatesig_states) 0 [Some 0%nat]))
      as (Hno & _); [reflexivity | reflexivity | discriminate |].
    apply Hno; vm_compute; discriminate.
  - destruct (@transmitMSU_route_states yatesig_states q704_services
                Scenario.coo_to_5_5_5 Scenario.label_to_5_5_5_link3 3 Scenario.stp_prohibited
                (Route Scenario.pc_5_5_5 0 (@Prohibited yatesig_states) 0 [Some 0%nat]))
      as (_ & Hyes & _); [reflexivity | reflexivity | discriminate |].
    destruct Hyes as [_ Htried]; [left; reflexivity|].
    rewrite Htried. reflexivity.
Defined.

(** The changeback declaration for 5-5-5 arrives there: the link is
    taken out of Inactive and the acknowledgement goes back. *)
Lemma changeback_declaration_witness :
  @SS7Management.receivedMSU q704_codes Scenario.with_sequence
    Scenario.cbd_7 Scenario.label_to_5_5_5_link3 (Some (0%nat, Scenario.N)) 3 1000
    Scenario.idle
  = (Some Accepted,
     Mgmt 0 []
       [EvInhibit (Label ITU Scenario.pc_1_2_3 Scenario.pc_5_5_5 3 0) 0 0x02 false;
        EvTransmit
          (MSU 0x80 (Label ITU Scenario.pc_1_2_3 Scenario.pc_5_5_5 3 0) [0x61; 7])
          (Label ITU Scenario.pc_1_2_3 Scenario.pc_5_5_5 3 0) 3]).
Proof.
  exact (@changeback_declaration q704_codes Scenario.with_sequence
           Scenario.cbd_7 Scenario.label_to_5_5_5_link3 (0%nat, Scenario.N) 3 1000
           Scenario.idle [7] 9%nat q704_codes_distinct eq_refl (or_introl eq_refl)
           eq_refl ltac:(discriminate) eq_refl).
Defined.

(** The declaration postponed at 5000 ms is acknowledged by 5-5-5: the
    pending list is empty again. *)
Lemma changeback_acknowledged_witness :
  m_pending
    (@SS7Management.receivedMSU q704_codes Scenario.with_sequence
       Scenario.cba_7 Scenario.label_from_5_5_5 (Some (0%nat, Scenario.N)) 3 5500
       Scenario.postponed).2
  = [].
Proof.
  destruct (@changeback_acknowledged q704_codes Scenario.with_sequence
              Scenario.cbd_7 Scenario.cba_7 Scenario.label_to_5_5_5_link3
              Scenario.label_from_5_5_5 (0%nat, Scenario.N) 3 1000 2000 5000 3 5500
              Scenario.idle [7] 9%nat q704_codes_distinct) as [_ Hack];
    [ reflexivity | reflexivity | left; reflexivity | discriminate
    | reflexivity | reflexivity | reflexivity | reflexivity | reflexivity
    | reflexivity | right; vm_compute; discriminate | reflexivity | ].
  unfold Scenario.postponed. rewrite Hack. reflexivity.
Defined.



(** A link inhibit request from 5-5-5 is answered with LIA when the
    router agrees. *)
Lemma link_inhibit_requests_witness :
  @SS7Management.receivedMSU q704_codes Scenario.with_sequence
    Scenario.lin Scenario.label_from_5_5_5 (Some (0%nat, Scenario.N)) 3 1000 Scenario.idle
  = (Some Accepted,
     Mgmt 0 []
       [EvInhibit Scenario.label_to_5_5_5_link3 0x08 0 true;
        EvTransmit (MSU 0x80 Scenario.label_to_5_5_5_link3 [0x36])
          Scenario.label_to_5_5_5_link3 3]).
Proof.
  exact (@link_inhibit_requests q704_codes Scenario.with_sequence
           Scenario.lin Scenario.label_from_5_5_5 (0%nat, Scenario.N) 3 1000 Scenario.idle
           0x16 [] 9%nat q704_codes_distinct eq_refl (or_introl eq_refl)
           eq_refl ltac:(discriminate) eq_refl (or_introl eq_refl)).
Defined.

(** The acknowledgement with sequence 17 in the ITU layout, and with
    sequence 1000 on link 5 in the ANSI layout. *)
Lemma changeover_ack_parse_witness :
  @SS7Management.parse q704_codes 0x21 ITU [17]
  = Some (MsgSNM 0x21 (Some 17) None None)
  /\ @SS7Management.parse q704_codes 0x21 ANSI [0x85; 0x3e]
     = Some (MsgSNM 0x21 (Some 1000) (Some 5) None).
Proof.
  split.
  - destruct (@changeover_ack_parse q704_codes ITU 0 17 q704_codes_distinct)
      as (data & Hack & Hparse).
    + left. split; [reflexivity | lia].
    + injection Hack as <-. exact Hparse.
  - destruct (@changeover_ack_parse q704_codes ANSI 5 1000 q704_codes_distinct)
      as (data & Hack & Hparse).
    + right. split; [reflexivity | lia].
    + injection Hack as <-. exact Hparse.
Defined.

(** The test message from 5-5-5 with the pattern AA BB: the
    acknowledgement carries 0x20, AA, BB. *)
Lemma test_pattern_echoed_witness :
  @SS7Maintenance.receivedMSU q704_services q707_codes Scenario.with_sequence
    1 Scenario.sltm Scenario.label_from_5_5_5 (Some (0%nat, Scenario.N)) 5
  = (Accepted,
     [EvTransmit (MSU 0x81 Scenario.label_to_5_5_5_link3 [0x21; 0x20; 0xAA; 0xBB])
        Scenario.label_to_5_5_5_link3 3]).
Proof.
  destruct (@test_pattern_echoed q704_services q707_codes Scenario.with_sequence
              1 Scenario.sltm Scenario.label_from_5_5_5 (Some (0%nat, Scenario.N)) 5 0x2f
              (or_introl eq_refl)
              ltac:(intros n [= <-]; left; reflexivity) ltac:(lia)) as [Hecho _].
  exact (Hecho [0xAA; 0xBB] [0xCC] eq_refl eq_refl).
Defined.

(** The route to 7-7-7 through D and K: D refuses the MSU, K takes it
    and its answer 3 is returned; asked in the other order, K alone is
    asked. *)
Lemma transmitMSU_until_accepted_witness :
  (exists q pre,
     (SS7Route.transmitMSU Scenario.nets_7_7_7_D Scenario.route_7_7_7_D_K
        Scenario.isup_to_7_7_7 Scenario.label_to_7_7_7 3 None).2 = pre ++ [q]
     /\ (q, (SS7Route.transmitMSU Scenario.nets_7_7_7_D Scenario.route_7_7_7_D_K
               Scenario.isup_to_7_7_7 Scenario.label_to_7_7_7 3 None).1)
        ∈ SS7Route.answers Scenario.nets_7_7_7_D
            (m_networks Scenario.route_7_7_7_D_K)
            Scenario.isup_to_7_7_7 Scenario.label_to_7_7_7 3
     /\ Forall (fun m =>
                  (m, -1) ∈ SS7Route.answers Scenario.nets_7_7_7_D
                              (m_networks Scenario.route_7_7_7_D_K)
                              Scenario.isup_to_7_7_7 Scenario.label_to_7_7_7 3) pre)
  /\ (SS7Route.transmitMSU_loop Scenario.nets_7_7_7_D [Some 3%nat; Some 4%nat]
        Scenario.isup_to_7_7_7 Scenario.label_to_7_7_7 3).2
     ⊆+ [4%nat; 3%nat].
Proof.
  destruct (transmitMSU_until_accepted Scenario.nets_7_7_7_D Scenario.route_7_7_7_D_K
              Scenario.isup_to_7_7_7 Scenario.label_to_7_7_7 3 None
              [Some 3%nat; Some 4%nat])
    as ((Hsub & _) & (_ & _ & Hone)).
  { apply Permutation_swap. }
  split; [|exact Hsub].
  apply Hone. vm_compute. discriminate.
Defined.

(** The user part of the scenario leaves the router alone: receivedMSU
    returns after one pass. *)
Lemma receivedMSU_answers_witness :
  is_Some
    (@SS7Router.receivedMSU yatesig_states Scenario.rejecting 2
       Scenario.isup_to_5_5_5 Scenario.label_to_5_5_5 (Some 1%nat) 3
       (MkEngine Scenario.stp Scenario.nets)).
Proof.
  destruct (@receivedMSU_answers yatesig_states Scenario.rejecting
              Scenario.isup_to_5_5_5 Scenario.label_to_5_5_5 (Some 1%nat) 3
              (MkEngine Scenario.stp Scenario.nets)) as [_ Hreturns].
  apply Hreturns. intros l4 msu label network sls e. reflexivity.
Defined.

(** The STP of the scenario has a local ITU point code and no ANSI one,
    and neither have its networks. *)
Lemma getDefaultLocal_last_network_witness :
  SS7Router.getDefaultLocal (MkEngine Scenario.stp Scenario.nets) ITU
  = Scenario.pc_1_2_3
  /\ SS7Router.getDefaultLocal (MkEngine Scenario.stp Scenario.nets) ANSI = 0.
Proof.
  destruct (getDefaultLocal_last_network (MkEngine Scenario.stp Scenario.nets) ITU)
    as (Hown & _).
  destruct (getDefaultLocal_last_network (MkEngine Scenario.stp Scenario.nets) ANSI)
    as (_ & Hnone & _).
  split.
  - apply Hown. vm_compute. discriminate.
  - rewrite Hnone; reflexivity.
Defined.
